(** * Recent Sales / dashboard UI test suite: helper functions and test logic

    A shallow embedding of the pure helpers and of the assertion logic of the
    browser-driven tests, together with the properties the specification
    states about them.

    Conventions of the embedding.
    - A Python [str] is a list of Unicode code points ([N]).  The character
      predicates and case mappings used by the helpers ([str.isalpha],
      [str.lower], [str.upper], [str.casefold], [str.isspace], [str.isdigit],
      decimal values for [int] and for the regular-expression classes) are
      the tables of the Unicode Character Database 14.0.0, the version
      shipped with CPython 3.11, stored as code-point ranges.
    - A Python [int] is a [Z].  [int(str)] refuses a literal of more than
      4300 digits, the limit the interpreter starts with.
    - A call that may raise returns a [result]: [Return v] or [Raise e].
    - The browser is an oracle: what a Playwright locator reads from the
      page is an input of the modelled function.  The helpers [_log] and
      [_highlight] (console output and a debugging outline) change no value
      the tests read and are left out.
    - Month names are those of the C locale.
    - [re] patterns and [datetime.strptime] formats are executed by ordered
      backtracking matchers (lists of successes in priority order), which is
      the search order of the [re] engine. *)

From Stdlib Require Import NArith ZArith Lia Bool List Ascii String.
From stdpp Require Import base option list gmap.
Import ListNotations.

Local Open Scope N_scope.

(** ** Exceptions and results *)

Inductive exn : Type :=
| AssertionError
| ValueError
| KeyError
| TimeoutError
| ReError
| Exception.

Inductive result (A : Type) : Type :=
| Return (a : A)
| Raise (e : exn).

Arguments Return {A} a.
Arguments Raise {A} e.

Definition rbind {A B : Type} (r : result A) (k : A -> result B) : result B :=
  match r with
  | Return a => k a
  | Raise e => Raise e
  end.

Notation "'let*' x ':=' r 'in' k" := (rbind r (fun x => k))
  (at level 10, x name, r at level 100, k at level 200).
Notation "r ';;' k" := (rbind r (fun _ => k))
  (at level 100, k at level 200, right associativity).

(** [assert cond] *)
Definition py_assert (cond : bool) : result unit :=
  if cond then Return tt else Raise AssertionError.

(** ** Python strings *)

Abbreviation char := N (only parsing).
Abbreviation str := (list N) (only parsing).

(** A string literal of the source (ASCII only). *)
Definition lit (s : string) : str := List.map N_of_ascii (list_ascii_of_string s).

(** ** Unicode character data *)

Module Unicode.

(** Characters for which [str.isspace] holds; the class [\s] of [re] and the
    characters removed by [str.strip]. *)
Definition whitespace_ranges : list (N * N) :=
  [ (9, 13); (28, 32); (133, 133); (160, 160); (5760, 5760); (8192, 8202);
    (8232, 8233); (8239, 8239); (8287, 8287); (12288, 12288) ]%N.

(** Decimal digits (category Nd): [str.isdecimal], the class [\d] of [re],
    and the digits [int] accepts. *)
Definition decimal_ranges : list (N * N) :=
  [ (48, 57); (1632, 1641); (1776, 1785); (1984, 1993); (2406, 2415); (2534, 2543);
    (2662, 2671); (2790, 2799); (2918, 2927); (3046, 3055); (3174, 3183); (3302, 3311);
    (3430, 3439); (3558, 3567); (3664, 3673); (3792, 3801); (3872, 3881); (4160, 4169);
    (4240, 4249); (6112, 6121); (6160, 6169); (6470, 6479); (6608, 6617); (6784, 6793);
    (6800, 6809); (6992, 7001); (7088, 7097); (7232, 7241); (7248, 7257); (42528, 42537);
    (43216, 43225); (43264, 43273); (43472, 43481); (43504, 43513); (43600, 43609); (44016, 44025);
    (65296, 65305); (66720, 66729); (68912, 68921); (69734, 69743); (69872, 69881); (69942, 69951);
    (70096, 70105); (70384, 70393); (70736, 70745); (70864, 70873); (71248, 71257); (71360, 71369);
    (71472, 71481); (71904, 71913); (72016, 72025); (72784, 72793); (73040, 73049); (73120, 73129);
    (92768, 92777); (92864, 92873); (93008, 93017); (120782, 120831); (123200, 123209); (123632, 123641);
    (125264, 125273); (130032, 130041) ]%N.

(** Characters for which [str.isdigit] holds: the decimal digits and the
    other characters with a digit value, such as superscripts. *)
Definition digit_ranges : list (N * N) :=
  [ (48, 57); (178, 179); (185, 185); (1632, 1641); (1776, 1785); (1984, 1993);
    (2406, 2415); (2534, 2543); (2662, 2671); (2790, 2799); (2918, 2927); (3046, 3055);
    (3174, 3183); (3302, 3311); (3430, 3439); (3558, 3567); (3664, 3673); (3792, 3801);
    (3872, 3881); (4160, 4169); (4240, 4249); (4969, 4977); (6112, 6121); (6160, 6169);
    (6470, 6479); (6608, 6618); (6784, 6793); (6800, 6809); (6992, 7001); (7088, 7097);
    (7232, 7241); (7248, 7257); (8304, 8304); (8308, 8313); (8320, 8329); (9312, 9320);
    (9332, 9340); (9352, 9360); (9450, 9450); (9461, 9469); (9471, 9471); (10102, 10110);
    (10112, 10120); (10122, 10130); (42528, 42537); (43216, 43225); (43264, 43273); (43472, 43481);
    (43504, 43513); (43600, 43609); (44016, 44025); (65296, 65305); (66720, 66729); (68160, 68163);
    (68912, 68921); (69216, 69224); (69714, 69722); (69734, 69743); (69872, 69881); (69942, 69951);
    (70096, 70105); (70384, 70393); (70736, 70745); (70864, 70873); (71248, 71257); (71360, 71369);
    (71472, 71481); (71904, 71913); (72016, 72025); (72784, 72793); (73040, 73049); (73120, 73129);
    (92768, 92777); (92864, 92873); (93008, 93017); (120782, 120831); (123200, 123209); (123632, 123641);
    (125264, 125273); (127232, 127242); (130032, 130041) ]%N.

(** Letters (categories Lu, Ll, Lt, Lm, Lo): [str.isalpha]. *)
Definition alpha_ranges : list (N * N) :=
  [ (65, 90); (97, 122); (170, 170); (181, 181); (186, 186); (192, 214);
    (216, 246); (248, 705); (710, 721); (736, 740); (748, 748); (750, 750);
    (880, 884); (886, 887); (890, 893); (895, 895); (902, 902); (904, 906);
    (908, 908); (910, 929); (931, 1013); (1015, 1153); (1162, 1327); (1329, 1366);
    (1369, 1369); (1376, 1416); (1488, 1514); (1519, 1522); (1568, 1610); (1646, 1647);
    (1649, 1747); (1749, 1749); (1765, 1766); (1774, 1775); (1786, 1788); (1791, 1791);
    (1808, 1808); (1810, 1839); (1869, 1957); (1969, 1969); (1994, 2026); (2036, 2037);
    (2042, 2042); (2048, 2069); (2074, 2074); (2084, 2084); (2088, 2088); (2112, 2136);
    (2144, 2154); (2160, 2183); (2185, 2190); (2208, 2249); (2308, 2361); (2365, 2365);
    (2384, 2384); (2392, 2401); (2417, 2432); (2437, 2444); (2447, 2448); (2451, 2472);
    (2474, 2480); (2482, 2482); (2486, 2489); (2493, 2493); (2510, 2510); (2524, 2525);
    (2527, 2529); (2544, 2545); (2556, 2556); (2565, 2570); (2575, 2576); (2579, 2600);
    (2602, 2608); (2610, 2611); (2613, 2614); (2616, 2617); (2649, 2652); (2654, 2654);
    (2674, 2676); (2693, 2701); (2703, 2705); (2707, 2728); (2730, 2736); (2738, 2739);
    (2741, 2745); (2749, 2749); (2768, 2768); (2784, 2785); (2809, 2809); (2821, 2828);
    (2831, 2832); (2835, 2856); (2858, 2864); (2866, 2867); (2869, 2873); (2877, 2877);
    (2908, 2909); (2911, 2913); (2929, 2929); (2947, 2947); (2949, 2954); (2958, 2960);
    (2962, 2965); (2969, 2970); (2972, 2972); (2974, 2975); (2979, 2980); (2984, 2986);
    (2990, 3001); (3024, 3024); (3077, 3084); (3086, 3088); (3090, 3112); (3114, 3129);
    (3133, 3133); (3160, 3162); (3165, 3165); (3168, 3169); (3200, 3200); (3205, 3212);
    (3214, 3216); (3218, 3240); (3242, 3251); (3253, 3257); (3261, 3261); (3293, 3294);
    (3296, 3297); (3313, 3314); (3332, 3340); (3342, 3344); (3346, 3386); (3389, 3389);
    (3406, 3406); (3412, 3414); (3423, 3425); (3450, 3455); (3461, 3478); (3482, 3505);
    (3507, 3515); (3517, 3517); (3520, 3526); (3585, 3632); (3634, 3635); (3648, 3654);
    (3713, 3714); (3716, 3716); (3718, 3722); (3724, 3747); (3749, 3749); (3751, 3760);
    (3762, 3763); (3773, 3773); (3776, 3780); (3782, 3782); (3804, 3807); (3840, 3840);
    (3904, 3911); (3913, 3948); (3976, 3980); (4096, 4138); (4159, 4159); (4176, 4181);
    (4186, 4189); (4193, 4193); (4197, 4198); (4206, 4208); (4213, 4225); (4238, 4238);
    (4256, 4293); (4295, 4295); (4301, 4301); (4304, 4346); (4348, 4680); (4682, 4685);
    (4688, 4694); (4696, 4696); (4698, 4701); (4704, 4744); (4746, 4749); (4752, 4784);
    (4786, 4789); (4792, 4798); (4800, 4800); (4802, 4805); (4808, 4822); (4824, 4880);
    (4882, 4885); (4888, 4954); (4992, 5007); (5024, 5109); (5112, 5117); (5121, 5740);
    (5743, 5759); (5761, 5786); (5792, 5866); (5873, 5880); (5888, 5905); (5919, 5937);
    (5952, 5969); (5984, 5996); (5998, 6000); (6016, 6067); (6103, 6103); (6108, 6108);
    (6176, 6264); (6272, 6276); (6279, 6312); (6314, 6314); (6320, 6389); (6400, 6430);
    (6480, 6509); (6512, 6516); (6528, 6571); (6576, 6601); (6656, 6678); (6688, 6740);
    (6823, 6823); (6917, 6963); (6981, 6988); (7043, 7072); (7086, 7087); (7098, 7141);
    (7168, 7203); (7245, 7247); (7258, 7293); (7296, 7304); (7312, 7354); (7357, 7359);
    (7401, 7404); (7406, 7411); (7413, 7414); (7418, 7418); (7424, 7615); (7680, 7957);
    (7960, 7965); (7968, 8005); (8008, 8013); (8016, 8023); (8025, 8025); (8027, 8027);
    (8029, 8029); (8031, 8061); (8064, 8116); (8118, 8124); (8126, 8126); (8130, 8132);
    (8134, 8140); (8144, 8147); (8150, 8155); (8160, 8172); (8178, 8180); (8182, 8188);
    (8305, 8305); (8319, 8319); (8336, 8348); (8450, 8450); (8455, 8455); (8458, 8467);
    (8469, 8469); (8473, 8477); (8484, 8484); (8486, 8486); (8488, 8488); (8490, 8493);
    (8495, 8505); (8508, 8511); (8517, 8521); (8526, 8526); (8579, 8580); (11264, 11492);
    (11499, 11502); (11506, 11507); (11520, 11557); (11559, 11559); (11565, 11565); (11568, 11623);
    (11631, 11631); (11648, 11670); (11680, 11686); (11688, 11694); (11696, 11702); (11704, 11710);
    (11712, 11718); (11720, 11726); (11728, 11734); (11736, 11742); (11823, 11823); (12293, 12294);
    (12337, 12341); (12347, 12348); (12353, 12438); (12445, 12447); (12449, 12538); (12540, 12543);
    (12549, 12591); (12593, 12686); (12704, 12735); (12784, 12799); (13312, 19903); (19968, 42124);
    (42192, 42237); (42240, 42508); (42512, 42527); (42538, 42539); (42560, 42606); (42623, 42653);
    (42656, 42725); (42775, 42783); (42786, 42888); (42891, 42954); (42960, 42961); (42963, 42963);
    (42965, 42969); (42994, 43009); (43011, 43013); (43015, 43018); (43020, 43042); (43072, 43123);
    (43138, 43187); (43250, 43255); (43259, 43259); (43261, 43262); (43274, 43301); (43312, 43334);
    (43360, 43388); (43396, 43442); (43471, 43471); (43488, 43492); (43494, 43503); (43514, 43518);
    (43520, 43560); (43584, 43586); (43588, 43595); (43616, 43638); (43642, 43642); (43646, 43695);
    (43697, 43697); (43701, 43702); (43705, 43709); (43712, 43712); (43714, 43714); (43739, 43741);
    (43744, 43754); (43762, 43764); (43777, 43782); (43785, 43790); (43793, 43798); (43808, 43814);
    (43816, 43822); (43824, 43866); (43868, 43881); (43888, 44002); (44032, 55203); (55216, 55238);
    (55243, 55291); (63744, 64109); (64112, 64217); (64256, 64262); (64275, 64279); (64285, 64285);
    (64287, 64296); (64298, 64310); (64312, 64316); (64318, 64318); (64320, 64321); (64323, 64324);
    (64326, 64433); (64467, 64829); (64848, 64911); (64914, 64967); (65008, 65019); (65136, 65140);
    (65142, 65276); (65313, 65338); (65345, 65370); (65382, 65470); (65474, 65479); (65482, 65487);
    (65490, 65495); (65498, 65500); (65536, 65547); (65549, 65574); (65576, 65594); (65596, 65597);
    (65599, 65613); (65616, 65629); (65664, 65786); (66176, 66204); (66208, 66256); (66304, 66335);
    (66349, 66368); (66370, 66377); (66384, 66421); (66432, 66461); (66464, 66499); (66504, 66511);
    (66560, 66717); (66736, 66771); (66776, 66811); (66816, 66855); (66864, 66915); (66928, 66938);
    (66940, 66954); (66956, 66962); (66964, 66965); (66967, 66977); (66979, 66993); (66995, 67001);
    (67003, 67004); (67072, 67382); (67392, 67413); (67424, 67431); (67456, 67461); (67463, 67504);
    (67506, 67514); (67584, 67589); (67592, 67592); (67594, 67637); (67639, 67640); (67644, 67644);
    (67647, 67669); (67680, 67702); (67712, 67742); (67808, 67826); (67828, 67829); (67840, 67861);
    (67872, 67897); (67968, 68023); (68030, 68031); (68096, 68096); (68112, 68115); (68117, 68119);
    (68121, 68149); (68192, 68220); (68224, 68252); (68288, 68295); (68297, 68324); (68352, 68405);
    (68416, 68437); (68448, 68466); (68480, 68497); (68608, 68680); (68736, 68786); (68800, 68850);
    (68864, 68899); (69248, 69289); (69296, 69297); (69376, 69404); (69415, 69415); (69424, 69445);
    (69488, 69505); (69552, 69572); (69600, 69622); (69635, 69687); (69745, 69746); (69749, 69749);
    (69763, 69807); (69840, 69864); (69891, 69926); (69956, 69956); (69959, 69959); (69968, 70002);
    (70006, 70006); (70019, 70066); (70081, 70084); (70106, 70106); (70108, 70108); (70144, 70161);
    (70163, 70187); (70272, 70278); (70280, 70280); (70282, 70285); (70287, 70301); (70303, 70312);
    (70320, 70366); (70405, 70412); (70415, 70416); (70419, 70440); (70442, 70448); (70450, 70451);
    (70453, 70457); (70461, 70461); (70480, 70480); (70493, 70497); (70656, 70708); (70727, 70730);
    (70751, 70753); (70784, 70831); (70852, 70853); (70855, 70855); (71040, 71086); (71128, 71131);
    (71168, 71215); (71236, 71236); (71296, 71338); (71352, 71352); (71424, 71450); (71488, 71494);
    (71680, 71723); (71840, 71903); (71935, 71942); (71945, 71945); (71948, 71955); (71957, 71958);
    (71960, 71983); (71999, 71999); (72001, 72001); (72096, 72103); (72106, 72144); (72161, 72161);
    (72163, 72163); (72192, 72192); (72203, 72242); (72250, 72250); (72272, 72272); (72284, 72329);
    (72349, 72349); (72368, 72440); (72704, 72712); (72714, 72750); (72768, 72768); (72818, 72847);
    (72960, 72966); (72968, 72969); (72971, 73008); (73030, 73030); (73056, 73061); (73063, 73064);
    (73066, 73097); (73112, 73112); (73440, 73458); (73648, 73648); (73728, 74649); (74880, 75075);
    (77712, 77808); (77824, 78894); (82944, 83526); (92160, 92728); (92736, 92766); (92784, 92862);
    (92880, 92909); (92928, 92975); (92992, 92995); (93027, 93047); (93053, 93071); (93760, 93823);
    (93952, 94026); (94032, 94032); (94099, 94111); (94176, 94177); (94179, 94179); (94208, 100343);
    (100352, 101589); (101632, 101640); (110576, 110579); (110581, 110587); (110589, 110590); (110592, 110882);
    (110928, 110930); (110948, 110951); (110960, 111355); (113664, 113770); (113776, 113788); (113792, 113800);
    (113808, 113817); (119808, 119892); (119894, 119964); (119966, 119967); (119970, 119970); (119973, 119974);
    (119977, 119980); (119982, 119993); (119995, 119995); (119997, 120003); (120005, 120069); (120071, 120074);
    (120077, 120084); (120086, 120092); (120094, 120121); (120123, 120126); (120128, 120132); (120134, 120134);
    (120138, 120144); (120146, 120485); (120488, 120512); (120514, 120538); (120540, 120570); (120572, 120596);
    (120598, 120628); (120630, 120654); (120656, 120686); (120688, 120712); (120714, 120744); (120746, 120770);
    (120772, 120779); (122624, 122654); (123136, 123180); (123191, 123197); (123214, 123214); (123536, 123565);
    (123584, 123627); (124896, 124902); (124904, 124907); (124909, 124910); (124912, 124926); (124928, 125124);
    (125184, 125251); (125259, 125259); (126464, 126467); (126469, 126495); (126497, 126498); (126500, 126500);
    (126503, 126503); (126505, 126514); (126516, 126519); (126521, 126521); (126523, 126523); (126530, 126530);
    (126535, 126535); (126537, 126537); (126539, 126539); (126541, 126543); (126545, 126546); (126548, 126548);
    (126551, 126551); (126553, 126553); (126555, 126555); (126557, 126557); (126559, 126559); (126561, 126562);
    (126564, 126564); (126567, 126570); (126572, 126578); (126580, 126583); (126585, 126588); (126590, 126590);
    (126592, 126601); (126603, 126619); (126625, 126627); (126629, 126633); (126635, 126651); (131072, 173791);
    (173824, 177976); (177984, 178205); (178208, 183969); (183984, 191456); (194560, 195101); (196608, 201546) ]%N.

(** [str.lower] of a one-character string: runs of single-character
    mappings, then the characters that map to several. *)
Definition lower_runs : list (N * N * N * N) :=
  [ (65, 90, 1, 97); (192, 214, 1, 224); (216, 222, 1, 248); (256, 302, 2, 257);
    (306, 310, 2, 307); (313, 327, 2, 314); (330, 374, 2, 331); (376, 376, 1, 255);
    (377, 381, 2, 378); (385, 385, 1, 595); (386, 388, 2, 387); (390, 390, 1, 596);
    (391, 391, 1, 392); (393, 394, 1, 598); (395, 395, 1, 396); (398, 398, 1, 477);
    (399, 399, 1, 601); (400, 400, 1, 603); (401, 401, 1, 402); (403, 403, 1, 608);
    (404, 404, 1, 611); (406, 406, 1, 617); (407, 407, 1, 616); (408, 408, 1, 409);
    (412, 412, 1, 623); (413, 413, 1, 626); (415, 415, 1, 629); (416, 420, 2, 417);
    (422, 422, 1, 640); (423, 423, 1, 424); (425, 425, 1, 643); (428, 428, 1, 429);
    (430, 430, 1, 648); (431, 431, 1, 432); (433, 434, 1, 650); (435, 437, 2, 436);
    (439, 439, 1, 658); (440, 440, 1, 441); (444, 444, 1, 445); (452, 452, 1, 454);
    (453, 453, 1, 454); (455, 455, 1, 457); (456, 456, 1, 457); (458, 458, 1, 460);
    (459, 475, 2, 460); (478, 494, 2, 479); (497, 497, 1, 499); (498, 500, 2, 499);
    (502, 502, 1, 405); (503, 503, 1, 447); (504, 542, 2, 505); (544, 544, 1, 414);
    (546, 562, 2, 547); (570, 570, 1, 11365); (571, 571, 1, 572); (573, 573, 1, 410);
    (574, 574, 1, 11366); (577, 577, 1, 578); (579, 579, 1, 384); (580, 580, 1, 649);
    (581, 581, 1, 652); (582, 590, 2, 583); (880, 882, 2, 881); (886, 886, 1, 887);
    (895, 895, 1, 1011); (902, 902, 1, 940); (904, 906, 1, 941); (908, 908, 1, 972);
    (910, 911, 1, 973); (913, 929, 1, 945); (931, 939, 1, 963); (975, 975, 1, 983);
    (984, 1006, 2, 985); (1012, 1012, 1, 952); (1015, 1015, 1, 1016); (1017, 1017, 1, 1010);
    (1018, 1018, 1, 1019); (1021, 1023, 1, 891); (1024, 1039, 1, 1104); (1040, 1071, 1, 1072);
    (1120, 1152, 2, 1121); (1162, 1214, 2, 1163); (1216, 1216, 1, 1231); (1217, 1229, 2, 1218);
    (1232, 1326, 2, 1233); (1329, 1366, 1, 1377); (4256, 4293, 1, 11520); (4295, 4295, 1, 11559);
    (4301, 4301, 1, 11565); (5024, 5103, 1, 43888); (5104, 5109, 1, 5112); (7312, 7354, 1, 4304);
    (7357, 7359, 1, 4349); (7680, 7828, 2, 7681); (7838, 7838, 1, 223); (7840, 7934, 2, 7841);
    (7944, 7951, 1, 7936); (7960, 7965, 1, 7952); (7976, 7983, 1, 7968); (7992, 7999, 1, 7984);
    (8008, 8013, 1, 8000); (8025, 8031, 2, 8017); (8040, 8047, 1, 8032); (8072, 8079, 1, 8064);
    (8088, 8095, 1, 8080); (8104, 8111, 1, 8096); (8120, 8121, 1, 8112); (8122, 8123, 1, 8048);
    (8124, 8124, 1, 8115); (8136, 8139, 1, 8050); (8140, 8140, 1, 8131); (8152, 8153, 1, 8144);
    (8154, 8155, 1, 8054); (8168, 8169, 1, 8160); (8170, 8171, 1, 8058); (8172, 8172, 1, 8165);
    (8184, 8185, 1, 8056); (8186, 8187, 1, 8060); (8188, 8188, 1, 8179); (8486, 8486, 1, 969);
    (8490, 8490, 1, 107); (8491, 8491, 1, 229); (8498, 8498, 1, 8526); (8544, 8559, 1, 8560);
    (8579, 8579, 1, 8580); (9398, 9423, 1, 9424); (11264, 11311, 1, 11312); (11360, 11360, 1, 11361);
    (11362, 11362, 1, 619); (11363, 11363, 1, 7549); (11364, 11364, 1, 637); (11367, 11371, 2, 11368);
    (11373, 11373, 1, 593); (11374, 11374, 1, 625); (11375, 11375, 1, 592); (11376, 11376, 1, 594);
    (11378, 11378, 1, 11379); (11381, 11381, 1, 11382); (11390, 11391, 1, 575); (11392, 11490, 2, 11393);
    (11499, 11501, 2, 11500); (11506, 11506, 1, 11507); (42560, 42604, 2, 42561); (42624, 42650, 2, 42625);
    (42786, 42798, 2, 42787); (42802, 42862, 2, 42803); (42873, 42875, 2, 42874); (42877, 42877, 1, 7545);
    (42878, 42886, 2, 42879); (42891, 42891, 1, 42892); (42893, 42893, 1, 613); (42896, 42898, 2, 42897);
    (42902, 42920, 2, 42903); (42922, 42922, 1, 614); (42923, 42923, 1, 604); (42924, 42924, 1, 609);
    (42925, 42925, 1, 620); (42926, 42926, 1, 618); (42928, 42928, 1, 670); (42929, 42929, 1, 647);
    (42930, 42930, 1, 669); (42931, 42931, 1, 43859); (42932, 42946, 2, 42933); (42948, 42948, 1, 42900);
    (42949, 42949, 1, 642); (42950, 42950, 1, 7566); (42951, 42953, 2, 42952); (42960, 42960, 1, 42961);
    (42966, 42968, 2, 42967); (42997, 42997, 1, 42998); (65313, 65338, 1, 65345); (66560, 66599, 1, 66600);
    (66736, 66771, 1, 66776); (66928, 66964, 2, 66967); (66929, 66937, 2, 66968); (66941, 66953, 2, 66980);
    (66957, 66961, 2, 66996); (66965, 66965, 1, 67004); (68736, 68786, 1, 68800); (71840, 71871, 1, 71872);
    (93760, 93791, 1, 93792); (125184, 125217, 1, 125218) ]%N.

Definition lower_special : list (N * list N) :=
  [ (304, [105; 775]) ]%N.

(** [str.upper] of a one-character string. *)
Definition upper_runs : list (N * N * N * N) :=
  [ (97, 122, 1, 65); (181, 181, 1, 924); (224, 246, 1, 192); (248, 254, 1, 216);
    (255, 255, 1, 376); (257, 303, 2, 256); (305, 305, 1, 73); (307, 311, 2, 306);
    (314, 328, 2, 313); (331, 375, 2, 330); (378, 382, 2, 377); (383, 383, 1, 83);
    (384, 384, 1, 579); (387, 389, 2, 386); (392, 392, 1, 391); (396, 396, 1, 395);
    (402, 402, 1, 401); (405, 405, 1, 502); (409, 409, 1, 408); (410, 410, 1, 573);
    (414, 414, 1, 544); (417, 421, 2, 416); (424, 424, 1, 423); (429, 429, 1, 428);
    (432, 432, 1, 431); (436, 438, 2, 435); (441, 441, 1, 440); (445, 445, 1, 444);
    (447, 447, 1, 503); (453, 453, 1, 452); (454, 454, 1, 452); (456, 456, 1, 455);
    (457, 457, 1, 455); (459, 459, 1, 458); (460, 460, 1, 458); (462, 476, 2, 461);
    (477, 477, 1, 398); (479, 495, 2, 478); (498, 498, 1, 497); (499, 499, 1, 497);
    (501, 501, 1, 500); (505, 543, 2, 504); (547, 563, 2, 546); (572, 572, 1, 571);
    (575, 576, 1, 11390); (578, 578, 1, 577); (583, 591, 2, 582); (592, 592, 1, 11375);
    (593, 593, 1, 11373); (594, 594, 1, 11376); (595, 595, 1, 385); (596, 596, 1, 390);
    (598, 599, 1, 393); (601, 601, 1, 399); (603, 603, 1, 400); (604, 604, 1, 42923);
    (608, 608, 1, 403); (609, 609, 1, 42924); (611, 611, 1, 404); (613, 613, 1, 42893);
    (614, 614, 1, 42922); (616, 616, 1, 407); (617, 617, 1, 406); (618, 618, 1, 42926);
    (619, 619, 1, 11362); (620, 620, 1, 42925); (623, 623, 1, 412); (625, 625, 1, 11374);
    (626, 626, 1, 413); (629, 629, 1, 415); (637, 637, 1, 11364); (640, 640, 1, 422);
    (642, 642, 1, 42949); (643, 643, 1, 425); (647, 647, 1, 42929); (648, 648, 1, 430);
    (649, 649, 1, 580); (650, 651, 1, 433); (652, 652, 1, 581); (658, 658, 1, 439);
    (669, 669, 1, 42930); (670, 670, 1, 42928); (837, 837, 1, 921); (881, 883, 2, 880);
    (887, 887, 1, 886); (891, 893, 1, 1021); (940, 940, 1, 902); (941, 943, 1, 904);
    (945, 961, 1, 913); (962, 962, 1, 931); (963, 971, 1, 931); (972, 972, 1, 908);
    (973, 974, 1, 910); (976, 976, 1, 914); (977, 977, 1, 920); (981, 981, 1, 934);
    (982, 982, 1, 928); (983, 983, 1, 975); (985, 1007, 2, 984); (1008, 1008, 1, 922);
    (1009, 1009, 1, 929); (1010, 1010, 1, 1017); (1011, 1011, 1, 895); (1013, 1013, 1, 917);
    (1016, 1016, 1, 1015); (1019, 1019, 1, 1018); (1072, 1103, 1, 1040); (1104, 1119, 1, 1024);
    (1121, 1153, 2, 1120); (1163, 1215, 2, 1162); (1218, 1230, 2, 1217); (1231, 1231, 1, 1216);
    (1233, 1327, 2, 1232); (1377, 1414, 1, 1329); (4304, 4346, 1, 7312); (4349, 4351, 1, 7357);
    (5112, 5117, 1, 5104); (7296, 7296, 1, 1042); (7297, 7297, 1, 1044); (7298, 7298, 1, 1054);
    (7299, 7300, 1, 1057); (7301, 7301, 1, 1058); (7302, 7302, 1, 1066); (7303, 7303, 1, 1122);
    (7304, 7304, 1, 42570); (7545, 7545, 1, 42877); (7549, 7549, 1, 11363); (7566, 7566, 1, 42950);
    (7681, 7829, 2, 7680); (7835, 7835, 1, 7776); (7841, 7935, 2, 7840); (7936, 7943, 1, 7944);
    (7952, 7957, 1, 7960); (7968, 7975, 1, 7976); (7984, 7991, 1, 7992); (8000, 8005, 1, 8008);
    (8017, 8023, 2, 8025); (8032, 8039, 1, 8040); (8048, 8049, 1, 8122); (8050, 8053, 1, 8136);
    (8054, 8055, 1, 8154); (8056, 8057, 1, 8184); (8058, 8059, 1, 8170); (8060, 8061, 1, 8186);
    (8112, 8113, 1, 8120); (8126, 8126, 1, 921); (8144, 8145, 1, 8152); (8160, 8161, 1, 8168);
    (8165, 8165, 1, 8172); (8526, 8526, 1, 8498); (8560, 8575, 1, 8544); (8580, 8580, 1, 8579);
    (9424, 9449, 1, 9398); (11312, 11359, 1, 11264); (11361, 11361, 1, 11360); (11365, 11365, 1, 570);
    (11366, 11366, 1, 574); (11368, 11372, 2, 11367); (11379, 11379, 1, 11378); (11382, 11382, 1, 11381);
    (11393, 11491, 2, 11392); (11500, 11502, 2, 11499); (11507, 11507, 1, 11506); (11520, 11557, 1, 4256);
    (11559, 11559, 1, 4295); (11565, 11565, 1, 4301); (42561, 42605, 2, 42560); (42625, 42651, 2, 42624);
    (42787, 42799, 2, 42786); (42803, 42863, 2, 42802); (42874, 42876, 2, 42873); (42879, 42887, 2, 42878);
    (42892, 42892, 1, 42891); (42897, 42899, 2, 42896); (42900, 42900, 1, 42948); (42903, 42921, 2, 42902);
    (42933, 42947, 2, 42932); (42952, 42954, 2, 42951); (42961, 42961, 1, 42960); (42967, 42969, 2, 42966);
    (42998, 42998, 1, 42997); (43859, 43859, 1, 42931); (43888, 43967, 1, 5024); (65345, 65370, 1, 65313);
    (66600, 66639, 1, 66560); (66776, 66811, 1, 66736); (66967, 67003, 2, 66928); (66968, 66976, 2, 66929);
    (66980, 66992, 2, 66941); (66996, 67000, 2, 66957); (67004, 67004, 1, 66965); (68800, 68850, 1, 68736);
    (71872, 71903, 1, 71840); (93792, 93823, 1, 93760); (125218, 125251, 1, 125184) ]%N.

Definition upper_special : list (N * list N) :=
  [ (223, [83; 83]); (329, [700; 78]); (496, [74; 780]); (912, [921; 776; 769]);
    (944, [933; 776; 769]); (1415, [1333; 1362]); (7830, [72; 817]); (7831, [84; 776]);
    (7832, [87; 778]); (7833, [89; 778]); (7834, [65; 702]); (8016, [933; 787]);
    (8018, [933; 787; 768]); (8020, [933; 787; 769]); (8022, [933; 787; 834]); (8064, [7944; 921]);
    (8065, [7945; 921]); (8066, [7946; 921]); (8067, [7947; 921]); (8068, [7948; 921]);
    (8069, [7949; 921]); (8070, [7950; 921]); (8071, [7951; 921]); (8072, [7944; 921]);
    (8073, [7945; 921]); (8074, [7946; 921]); (8075, [7947; 921]); (8076, [7948; 921]);
    (8077, [7949; 921]); (8078, [7950; 921]); (8079, [7951; 921]); (8080, [7976; 921]);
    (8081, [7977; 921]); (8082, [7978; 921]); (8083, [7979; 921]); (8084, [7980; 921]);
    (8085, [7981; 921]); (8086, [7982; 921]); (8087, [7983; 921]); (8088, [7976; 921]);
    (8089, [7977; 921]); (8090, [7978; 921]); (8091, [7979; 921]); (8092, [7980; 921]);
    (8093, [7981; 921]); (8094, [7982; 921]); (8095, [7983; 921]); (8096, [8040; 921]);
    (8097, [8041; 921]); (8098, [8042; 921]); (8099, [8043; 921]); (8100, [8044; 921]);
    (8101, [8045; 921]); (8102, [8046; 921]); (8103, [8047; 921]); (8104, [8040; 921]);
    (8105, [8041; 921]); (8106, [8042; 921]); (8107, [8043; 921]); (8108, [8044; 921]);
    (8109, [8045; 921]); (8110, [8046; 921]); (8111, [8047; 921]); (8114, [8122; 921]);
    (8115, [913; 921]); (8116, [902; 921]); (8118, [913; 834]); (8119, [913; 834; 921]);
    (8124, [913; 921]); (8130, [8138; 921]); (8131, [919; 921]); (8132, [905; 921]);
    (8134, [919; 834]); (8135, [919; 834; 921]); (8140, [919; 921]); (8146, [921; 776; 768]);
    (8147, [921; 776; 769]); (8150, [921; 834]); (8151, [921; 776; 834]); (8162, [933; 776; 768]);
    (8163, [933; 776; 769]); (8164, [929; 787]); (8166, [933; 834]); (8167, [933; 776; 834]);
    (8178, [8186; 921]); (8179, [937; 921]); (8180, [911; 921]); (8182, [937; 834]);
    (8183, [937; 834; 921]); (8188, [937; 921]); (64256, [70; 70]); (64257, [70; 73]);
    (64258, [70; 76]); (64259, [70; 70; 73]); (64260, [70; 70; 76]); (64261, [83; 84]);
    (64262, [83; 84]); (64275, [1348; 1350]); (64276, [1348; 1333]); (64277, [1348; 1339]);
    (64278, [1358; 1350]); (64279, [1348; 1341]) ]%N.

(** [str.casefold] of a one-character string. *)
Definition casefold_runs : list (N * N * N * N) :=
  [ (65, 90, 1, 97); (181, 181, 1, 956); (192, 214, 1, 224); (216, 222, 1, 248);
    (256, 302, 2, 257); (306, 310, 2, 307); (313, 327, 2, 314); (330, 374, 2, 331);
    (376, 376, 1, 255); (377, 381, 2, 378); (383, 383, 1, 115); (385, 385, 1, 595);
    (386, 388, 2, 387); (390, 390, 1, 596); (391, 391, 1, 392); (393, 394, 1, 598);
    (395, 395, 1, 396); (398, 398, 1, 477); (399, 399, 1, 601); (400, 400, 1, 603);
    (401, 401, 1, 402); (403, 403, 1, 608); (404, 404, 1, 611); (406, 406, 1, 617);
    (407, 407, 1, 616); (408, 408, 1, 409); (412, 412, 1, 623); (413, 413, 1, 626);
    (415, 415, 1, 629); (416, 420, 2, 417); (422, 422, 1, 640); (423, 423, 1, 424);
    (425, 425, 1, 643); (428, 428, 1, 429); (430, 430, 1, 648); (431, 431, 1, 432);
    (433, 434, 1, 650); (435, 437, 2, 436); (439, 439, 1, 658); (440, 440, 1, 441);
    (444, 444, 1, 445); (452, 452, 1, 454); (453, 453, 1, 454); (455, 455, 1, 457);
    (456, 456, 1, 457); (458, 458, 1, 460); (459, 475, 2, 460); (478, 494, 2, 479);
    (497, 497, 1, 499); (498, 500, 2, 499); (502, 502, 1, 405); (503, 503, 1, 447);
    (504, 542, 2, 505); (544, 544, 1, 414); (546, 562, 2, 547); (570, 570, 1, 11365);
    (571, 571, 1, 572); (573, 573, 1, 410); (574, 574, 1, 11366); (577, 577, 1, 578);
    (579, 579, 1, 384); (580, 580, 1, 649); (581, 581, 1, 652); (582, 590, 2, 583);
    (837, 837, 1, 953); (880, 882, 2, 881); (886, 886, 1, 887); (895, 895, 1, 1011);
    (902, 902, 1, 940); (904, 906, 1, 941); (908, 908, 1, 972); (910, 911, 1, 973);
    (913, 929, 1, 945); (931, 939, 1, 963); (962, 962, 1, 963); (975, 975, 1, 983);
    (976, 976, 1, 946); (977, 977, 1, 952); (981, 981, 1, 966); (982, 982, 1, 960);
    (984, 1006, 2, 985); (1008, 1008, 1, 954); (1009, 1009, 1, 961); (1012, 1012, 1, 952);
    (1013, 1013, 1, 949); (1015, 1015, 1, 1016); (1017, 1017, 1, 1010); (1018, 1018, 1, 1019);
    (1021, 1023, 1, 891); (1024, 1039, 1, 1104); (1040, 1071, 1, 1072); (1120, 1152, 2, 1121);
    (1162, 1214, 2, 1163); (1216, 1216, 1, 1231); (1217, 1229, 2, 1218); (1232, 1326, 2, 1233);
    (1329, 1366, 1, 1377); (4256, 4293, 1, 11520); (4295, 4295, 1, 11559); (4301, 4301, 1, 11565);
    (5112, 5117, 1, 5104); (7296, 7296, 1, 1074); (7297, 7297, 1, 1076); (7298, 7298, 1, 1086);
    (7299, 7300, 1, 1089); (7301, 7301, 1, 1090); (7302, 7302, 1, 1098); (7303, 7303, 1, 1123);
    (7304, 7304, 1, 42571); (7312, 7354, 1, 4304); (7357, 7359, 1, 4349); (7680, 7828, 2, 7681);
    (7835, 7835, 1, 7777); (7840, 7934, 2, 7841); (7944, 7951, 1, 7936); (7960, 7965, 1, 7952);
    (7976, 7983, 1, 7968); (7992, 7999, 1, 7984); (8008, 8013, 1, 8000); (8025, 8031, 2, 8017);
    (8040, 8047, 1, 8032); (8120, 8121, 1, 8112); (8122, 8123, 1, 8048); (8126, 8126, 1, 953);
    (8136, 8139, 1, 8050); (8152, 8153, 1, 8144); (8154, 8155, 1, 8054); (8168, 8169, 1, 8160);
    (8170, 8171, 1, 8058); (8172, 8172, 1, 8165); (8184, 8185, 1, 8056); (8186, 8187, 1, 8060);
    (8486, 8486, 1, 969); (8490, 8490, 1, 107); (8491, 8491, 1, 229); (8498, 8498, 1, 8526);
    (8544, 8559, 1, 8560); (8579, 8579, 1, 8580); (9398, 9423, 1, 9424); (11264, 11311, 1, 11312);
    (11360, 11360, 1, 11361); (11362, 11362, 1, 619); (11363, 11363, 1, 7549); (11364, 11364, 1, 637);
    (11367, 11371, 2, 11368); (11373, 11373, 1, 593); (11374, 11374, 1, 625); (11375, 11375, 1, 592);
    (11376, 11376, 1, 594); (11378, 11378, 1, 11379); (11381, 11381, 1, 11382); (11390, 11391, 1, 575);
    (11392, 11490, 2, 11393); (11499, 11501, 2, 11500); (11506, 11506, 1, 11507); (42560, 42604, 2, 42561);
    (42624, 42650, 2, 42625); (42786, 42798, 2, 42787); (42802, 42862, 2, 42803); (42873, 42875, 2, 42874);
    (42877, 42877, 1, 7545); (42878, 42886, 2, 42879); (42891, 42891, 1, 42892); (42893, 42893, 1, 613);
    (42896, 42898, 2, 42897); (42902, 42920, 2, 42903); (42922, 42922, 1, 614); (42923, 42923, 1, 604);
    (42924, 42924, 1, 609); (42925, 42925, 1, 620); (42926, 42926, 1, 618); (42928, 42928, 1, 670);
    (42929, 42929, 1, 647); (42930, 42930, 1, 669); (42931, 42931, 1, 43859); (42932, 42946, 2, 42933);
    (42948, 42948, 1, 42900); (42949, 42949, 1, 642); (42950, 42950, 1, 7566); (42951, 42953, 2, 42952);
    (42960, 42960, 1, 42961); (42966, 42968, 2, 42967); (42997, 42997, 1, 42998); (43888, 43967, 1, 5024);
    (65313, 65338, 1, 65345); (66560, 66599, 1, 66600); (66736, 66771, 1, 66776); (66928, 66964, 2, 66967);
    (66929, 66937, 2, 66968); (66941, 66953, 2, 66980); (66957, 66961, 2, 66996); (66965, 66965, 1, 67004);
    (68736, 68786, 1, 68800); (71840, 71871, 1, 71872); (93760, 93791, 1, 93792); (125184, 125217, 1, 125218) ]%N.

Definition casefold_special : list (N * list N) :=
  [ (223, [115; 115]); (304, [105; 775]); (329, [700; 110]); (496, [106; 780]);
    (912, [953; 776; 769]); (944, [965; 776; 769]); (1415, [1381; 1410]); (7830, [104; 817]);
    (7831, [116; 776]); (7832, [119; 778]); (7833, [121; 778]); (7834, [97; 702]);
    (7838, [115; 115]); (8016, [965; 787]); (8018, [965; 787; 768]); (8020, [965; 787; 769]);
    (8022, [965; 787; 834]); (8064, [7936; 953]); (8065, [7937; 953]); (8066, [7938; 953]);
    (8067, [7939; 953]); (8068, [7940; 953]); (8069, [7941; 953]); (8070, [7942; 953]);
    (8071, [7943; 953]); (8072, [7936; 953]); (8073, [7937; 953]); (8074, [7938; 953]);
    (8075, [7939; 953]); (8076, [7940; 953]); (8077, [7941; 953]); (8078, [7942; 953]);
    (8079, [7943; 953]); (8080, [7968; 953]); (8081, [7969; 953]); (8082, [7970; 953]);
    (8083, [7971; 953]); (8084, [7972; 953]); (8085, [7973; 953]); (8086, [7974; 953]);
    (8087, [7975; 953]); (8088, [7968; 953]); (8089, [7969; 953]); (8090, [7970; 953]);
    (8091, [7971; 953]); (8092, [7972; 953]); (8093, [7973; 953]); (8094, [7974; 953]);
    (8095, [7975; 953]); (8096, [8032; 953]); (8097, [8033; 953]); (8098, [8034; 953]);
    (8099, [8035; 953]); (8100, [8036; 953]); (8101, [8037; 953]); (8102, [8038; 953]);
    (8103, [8039; 953]); (8104, [8032; 953]); (8105, [8033; 953]); (8106, [8034; 953]);
    (8107, [8035; 953]); (8108, [8036; 953]); (8109, [8037; 953]); (8110, [8038; 953]);
    (8111, [8039; 953]); (8114, [8048; 953]); (8115, [945; 953]); (8116, [940; 953]);
    (8118, [945; 834]); (8119, [945; 834; 953]); (8124, [945; 953]); (8130, [8052; 953]);
    (8131, [951; 953]); (8132, [942; 953]); (8134, [951; 834]); (8135, [951; 834; 953]);
    (8140, [951; 953]); (8146, [953; 776; 768]); (8147, [953; 776; 769]); (8150, [953; 834]);
    (8151, [953; 776; 834]); (8162, [965; 776; 768]); (8163, [965; 776; 769]); (8164, [961; 787]);
    (8166, [965; 834]); (8167, [965; 776; 834]); (8178, [8060; 953]); (8179, [969; 953]);
    (8180, [974; 953]); (8182, [969; 834]); (8183, [969; 834; 953]); (8188, [969; 953]);
    (64256, [102; 102]); (64257, [102; 105]); (64258, [102; 108]); (64259, [102; 102; 105]);
    (64260, [102; 102; 108]); (64261, [115; 116]); (64262, [115; 116]); (64275, [1396; 1398]);
    (64276, [1396; 1381]); (64277, [1396; 1387]); (64278, [1406; 1398]); (64279, [1396; 1389]) ]%N.


Fixpoint in_ranges (rs : list (N * N)) (c : char) : bool :=
  match rs with
  | [] => false
  | (lo, hi) :: rs' => ((lo <=? c) && (c <=? hi)) || in_ranges rs' c
  end.

(** Value of a decimal digit (category Nd): every range of [decimal_ranges]
    starts at a zero and holds whole decades. *)
Fixpoint decimal_lookup (rs : list (N * N)) (c : char) : option N :=
  match rs with
  | [] => None
  | (lo, hi) :: rs' =>
      if (lo <=? c) && (c <=? hi) then Some ((c - lo) mod 10)
      else decimal_lookup rs' c
  end.

(** A run [(lo, hi, step, tlo)] maps [lo], [lo + step], ..., [hi] to
    [tlo], [tlo + step], ... *)
Fixpoint run_lookup (runs : list (N * N * N * N)) (c : char) : option char :=
  match runs with
  | [] => None
  | (lo, hi, step, tlo) :: runs' =>
      if (lo <=? c) && (c <=? hi) && ((c - lo) mod step =? 0)
      then Some (tlo + (c - lo))
      else run_lookup runs' c
  end.

Fixpoint special_lookup (tbl : list (N * list N)) (c : char) : option str :=
  match tbl with
  | [] => None
  | (k, v) :: tbl' => if k =? c then Some v else special_lookup tbl' c
  end.

Definition case_map (runs : list (N * N * N * N)) (special : list (N * list N))
    (c : char) : str :=
  match special_lookup special c with
  | Some t => t
  | None =>
      match run_lookup runs c with
      | Some t => [t]
      | None => [c]
      end
  end.

End Unicode.

(** ** Character methods ([ch] is a one-character string in the source) *)

Definition isspace (c : char) : bool := Unicode.in_ranges Unicode.whitespace_ranges c.
Definition isdecimal (c : char) : bool := Unicode.in_ranges Unicode.decimal_ranges c.
Definition isdigit_char (c : char) : bool := Unicode.in_ranges Unicode.digit_ranges c.
Definition isalpha (c : char) : bool := Unicode.in_ranges Unicode.alpha_ranges c.
Definition decimal_value (c : char) : option N :=
  Unicode.decimal_lookup Unicode.decimal_ranges c.

(** [ch.lower()], [ch.upper()], [ch.casefold()]: a character may map to
    several (the uppercase of U+00DF is [SS]). *)
Definition lower (c : char) : str :=
  Unicode.case_map Unicode.lower_runs Unicode.lower_special c.
Definition upper (c : char) : str :=
  Unicode.case_map Unicode.upper_runs Unicode.upper_special c.
Definition casefold_char (c : char) : str :=
  Unicode.case_map Unicode.casefold_runs Unicode.casefold_special c.

(** [s.casefold()] folds character by character. *)
Definition casefold (s : str) : str := List.flat_map casefold_char s.

(** ** String methods *)

(** [len(s)] *)
Definition len (s : str) : Z := Z.of_nat (List.length s).

Fixpoint lstrip (s : str) : str :=
  match s with
  | c :: s' => if isspace c then lstrip s' else s
  | [] => []
  end.

Definition rstrip (s : str) : str := List.rev (lstrip (List.rev s)).

(** [s.strip()] *)
Definition strip (s : str) : str := rstrip (lstrip s).

Definition str_eqb (a b : str) : bool := bool_decide (a = b).

(** [s.startswith(p)] *)
Fixpoint startswith (s p : str) {struct p} : bool :=
  match p, s with
  | [], _ => true
  | a :: p', b :: s' => (a =? b) && startswith s' p'
  | _ :: _, [] => false
  end.

(** [s.endswith(p)] *)
Definition endswith (s p : str) : bool := startswith (List.rev s) (List.rev p).

(** [sub in s] *)
Fixpoint contains (sub s : str) : bool :=
  startswith s sub ||
  match s with
  | [] => false
  | _ :: s' => contains sub s'
  end.

(** [s.replace(old, new)] for a non-empty [old]: occurrences are replaced
    from left to right and do not overlap; [skip] counts the characters of
    the occurrence just replaced that are still to be passed over. *)
Fixpoint replace_from (old new : str) (skip : nat) (s : str) : str :=
  match s with
  | [] => []
  | c :: s' =>
      match skip with
      | S k => replace_from old new k s'
      | O =>
          if startswith s old
          then new ++ replace_from old new (List.length old - 1) s'
          else c :: replace_from old new 0 s'
      end
  end.

Definition replace (s old new : str) : str := replace_from old new 0 s.

(** [s.isdigit()]: non-empty and every character has the Digit property
    (this includes superscripts such as U+00B2, which [int] rejects). *)
Definition isdigit (s : str) : bool :=
  match s with
  | [] => false
  | _ => forallb isdigit_char s
  end.

(** [base[:length]], with Python's reading of a negative bound. *)
Definition slice_to (base : str) (length : Z) : str :=
  if (length <? 0)%Z
  then firstn (Z.to_nat (len base + length)) base
  else firstn (Z.to_nat length) base.

(** Digits of an [int] literal: decimal digits of any script, single
    underscores allowed between digits. *)
Fixpoint digits_value (acc : N) (prev_digit : bool) (body : str) : option N :=
  match body with
  | [] => if prev_digit then Some acc else None
  | c :: rest =>
      match decimal_value c with
      | Some d => digits_value (acc * 10 + d) true rest
      | None =>
          if (c =? 95) && prev_digit then digits_value acc false rest else None
      end
  end.

(** The whitespace [int] skips at both ends of its argument: the
    whitespace of [str.strip] other than the separators U+001C to U+001F,
    which [int] rejects. *)
Definition int_isspace (c : char) : bool :=
  isspace c && negb ((28 <=? c) && (c <=? 31)).

Fixpoint int_lstrip (s : str) : str :=
  match s with
  | c :: s' => if int_isspace c then int_lstrip s' else s
  | [] => []
  end.

Definition int_strip (s : str) : str :=
  List.rev (int_lstrip (List.rev (int_lstrip s))).

(** [sys.get_int_max_str_digits()], as CPython 3.11 starts: a decimal
    literal with more digits is refused. *)
Definition int_max_str_digits : nat := 4300.

(** [int(s)] in base ten.  The digits counted against the limit are the
    characters of the literal other than its sign and its underscores. *)
Definition py_int (s : str) : result Z :=
  let t := int_strip s in
  let '(neg, body) :=
    match t with
    | c :: r => if c =? 43 then (false, r) else if c =? 45 then (true, r) else (false, t)
    | [] => (false, t)
    end in
  match digits_value 0 false body with
  | Some n =>
      let digits := List.length (List.filter (fun c => negb (c =? 95)) body) in
      if (int_max_str_digits <? digits)%nat then Raise ValueError
      else Return (if neg then (- Z.of_N n)%Z else Z.of_N n)
  | None => Raise ValueError
  end.

(** [l.index(x)] *)
Fixpoint list_index (x : str) (l : list str) : result Z :=
  match l with
  | [] => Raise ValueError
  | y :: l' =>
      if str_eqb y x then Return 0%Z
      else let* i := list_index x l' in Return (i + 1)%Z
  end.

(** ** Regular expressions as ordered backtracking matchers

    A matcher lists, in the order in which the [re] engine tries them, the
    ways a pattern can match at the start of the text: the value it yields
    (the text of a group) and the rest of the text.  The first element of
    the list for a whole pattern is the match [re] reports. *)

Definition matcher (A : Type) : Type := str -> list (A * str).

Definition m_ret {A : Type} (a : A) : matcher A := fun s => [(a, s)].

Definition m_bind {A B : Type} (p : matcher A) (f : A -> matcher B) : matcher B :=
  fun s => List.flat_map (fun ar => f (fst ar) (snd ar)) (p s).

(** [p|q] *)
Definition m_alt {A : Type} (p q : matcher A) : matcher A :=
  fun s => p s ++ q s.

Fixpoint m_alts {A : Type} (ps : list (matcher A)) : matcher A :=
  match ps with
  | [] => fun _ => []
  | p :: ps' => m_alt p (m_alts ps')
  end.

(** one character of a class *)
Definition m_class (pred : char -> bool) : matcher str :=
  fun s =>
    match s with
    | c :: r => if pred c then [([c], r)] else []
    | [] => []
    end.

Definition m_char (p : char) : matcher str := m_class (N.eqb p).
Definition m_range (a b : char) : matcher str :=
  m_class (fun c => (a <=? c) && (c <=? b)).

(** concatenation, yielding the concatenated text *)
Definition m_seq (p q : matcher str) : matcher str :=
  m_bind p (fun a => m_bind q (fun b => m_ret (a ++ b))).

(** greedy [c+] over a class: longest run first, then shorter ones *)
Fixpoint m_plus (pred : char -> bool) (s : str) : list (str * str) :=
  match s with
  | c :: r =>
      if pred c
      then List.map (fun mr => (c :: fst mr, snd mr)) (m_plus pred r) ++ [([c], r)]
      else []
  | [] => []
  end.

(** a literal, compiled without flags *)
Fixpoint m_lit (l : str) : matcher str :=
  match l with
  | [] => m_ret []
  | p :: l' => m_seq (m_char p) (m_lit l')
  end.

(** [pattern.match(text)]: the first way to match at the start *)
Definition re_match {A : Type} (p : matcher A) (text : str) : option (A * str) :=
  List.head (p text).

(** [re.search]: the first start position, from the left, with a match *)
Fixpoint re_search {A : Type} (p : matcher A) (text : str) : option (A * str) :=
  match p text with
  | x :: _ => Some x
  | [] =>
      match text with
      | [] => None
      | _ :: text' => re_search p text'
      end
  end.

(** *** IGNORECASE

    [sre_lower_unicode] is the simple lowercase mapping of the engine; it
    differs from [lower] only at U+0130, whose full lowercase has two
    characters.  A cased literal [p] of the pattern matches the characters
    whose simple lowercase is the lowercase of [p] or one of its extra
    equivalents (U+0131 for [i], U+017F for [s]).  The formats and the month
    names hold no cased character outside ASCII; any other literal is
    matched exactly. *)

Definition sre_lower_unicode (c : char) : char :=
  if c =? 304 then 105
  else match lower c with
       | [x] => x
       | _ => c
       end.

Definition is_ascii_letter (p : char) : bool :=
  ((65 <=? p) && (p <=? 90)) || ((97 <=? p) && (p <=? 122)).

Definition ascii_lower (p : char) : char :=
  if (65 <=? p) && (p <=? 90) then p + 32 else p.

Definition ignorecase_fixes (lo : char) : list char :=
  if lo =? 105 then [305] else if lo =? 115 then [383] else [].

Definition literal_ignorecase (p c : char) : bool :=
  if is_ascii_letter p
  then let lo := ascii_lower p in
       existsb (N.eqb (sre_lower_unicode c)) (lo :: ignorecase_fixes lo)
  else c =? p.

Fixpoint m_lit_i (l : str) : matcher str :=
  match l with
  | [] => m_ret []
  | p :: l' => m_seq (m_class (literal_ignorecase p)) (m_lit_i l')
  end.

(** [s.lower()], character by character.  ([str.lower] departs from this
    only for U+03A3 in final position.) *)
Definition str_lower (s : str) : str := List.flat_map lower s.

(** ** [datetime.date] and [datetime.strptime] *)

Record date : Type := Date { year : Z; month : Z; day : Z }.

Definition is_leap (y : Z) : bool :=
  ((y mod 4 =? 0) && (negb (y mod 100 =? 0) || (y mod 400 =? 0)))%Z.

Definition days_in_month (y m : Z) : Z :=
  (if m =? 2 then (if is_leap y then 29 else 28)
   else if (m =? 4) || (m =? 6) || (m =? 9) || (m =? 11) then 30
   else 31)%Z.

Definition valid_date (y m d : Z) : bool :=
  ((1 <=? y) && (y <=? 9999) && (1 <=? m) && (m <=? 12) &&
   (1 <=? d) && (d <=? days_in_month y m))%Z.

(** [date(year, month, day)] *)
Definition date_new (y m d : Z) : result date :=
  if valid_date y m d then Return (Date y m d) else Raise ValueError.

(** [d.isoformat()]: ['%04d-%02d-%02d'] *)
Definition digit_char (n : Z) : char := 48 + Z.to_N (n mod 10).

Definition isoformat (d : date) : str :=
  [digit_char (year d / 1000); digit_char (year d / 100);
   digit_char (year d / 10); digit_char (year d); 45;
   digit_char (month d / 10); digit_char (month d); 45;
   digit_char (day d / 10); digit_char (day d)].

(** The directives the suite's formats use. *)
Inductive directive : Type := dir_Y | dir_m | dir_d | dir_y | dir_b | dir_B.

Global Instance directive_eq_dec : EqDecision directive.
Proof. solve_decision. Defined.

Definition directive_of_char (c : char) : option directive :=
  if c =? 89 then Some dir_Y
  else if c =? 109 then Some dir_m
  else if c =? 100 then Some dir_d
  else if c =? 121 then Some dir_y
  else if c =? 98 then Some dir_b
  else if c =? 66 then Some dir_B
  else None.

(** An element of the pattern built from a format: a directive, a run of
    whitespace (which becomes [\s+]) or a literal character. *)
Inductive format_item : Type :=
| FDir (d : directive)
| FSpace
| FLit (c : char).

(** [TimeRE.pattern]: a directive this model does not know, or a stray
    [%], is a [ValueError]. *)
Fixpoint format_items (in_space : bool) (fmt : str) : result (list format_item) :=
  match fmt with
  | [] => Return []
  | c :: fmt' =>
      if isspace c then
        let* rest := format_items true fmt' in
        Return (if in_space then rest else FSpace :: rest)
      else if c =? 37 then
        match fmt' with
        | [] => Raise ValueError
        | k :: fmt'' =>
            match directive_of_char k with
            | None => Raise ValueError
            | Some d =>
                let* rest := format_items false fmt'' in
                Return (FDir d :: rest)
            end
        end
      else
        let* rest := format_items false fmt' in
        Return (FLit c :: rest)
  end.

(** Month names of the C locale, lower-cased as [LocaleTime] stores them,
    with the dummy entry at index 0. *)
Definition a_month : list str :=
  List.map lit [""; "jan"; "feb"; "mar"; "apr"; "may"; "jun"; "jul"; "aug";
                "sep"; "oct"; "nov"; "dec"]%string.

Definition f_month : list str :=
  List.map lit [""; "january"; "february"; "march"; "april"; "may"; "june";
                "july"; "august"; "september"; "october"; "november";
                "december"]%string.

(** [sorted(to_convert, key=len, reverse=True)]: stable, longest first. *)
Fixpoint insert_by_len (x : str) (l : list str) : list str :=
  match l with
  | [] => [x]
  | y :: l' =>
      if (List.length y <? List.length x)%nat then x :: l
      else y :: insert_by_len x l'
  end.

Definition sorted_by_len (l : list str) : list str :=
  List.fold_left (fun acc x => insert_by_len x acc) l [].

(** [TimeRE.__seqToRE] *)
Definition seqToRE (to_convert : list str) : matcher str :=
  m_alts (List.map m_lit_i (sorted_by_len to_convert)).

Definition digit19 : matcher str := m_range 49 57.

(** The regular expression of each directive. *)
Definition directive_re (d : directive) : matcher str :=
  match d with
  | dir_d =>   (* 3[0-1]|[1-2]\d|0[1-9]|[1-9]| [1-9] *)
      m_alts [m_seq (m_char 51) (m_range 48 49);
              m_seq (m_range 49 50) (m_class isdecimal);
              m_seq (m_char 48) digit19;
              digit19;
              m_seq (m_char 32) digit19]
  | dir_m =>   (* 1[0-2]|0[1-9]|[1-9] *)
      m_alts [m_seq (m_char 49) (m_range 48 50);
              m_seq (m_char 48) digit19;
              digit19]
  | dir_y =>   (* \d\d *)
      m_seq (m_class isdecimal) (m_class isdecimal)
  | dir_Y =>   (* \d\d\d\d *)
      m_seq (m_class isdecimal)
        (m_seq (m_class isdecimal)
           (m_seq (m_class isdecimal) (m_class isdecimal)))
  | dir_B => seqToRE (List.tail f_month)
  | dir_b => seqToRE (List.tail a_month)
  end.

(** The compiled pattern of a format (flag IGNORECASE); the value is the
    group dictionary, in the order of the groups. *)
Fixpoint format_matcher (items : list format_item) (found : list (directive * str))
    : matcher (list (directive * str)) :=
  match items with
  | [] => m_ret found
  | FDir d :: items' =>
      m_bind (directive_re d) (fun v => format_matcher items' (found ++ [(d, v)]))
  | FSpace :: items' =>
      m_bind (m_plus isspace) (fun _ => format_matcher items' found)
  | FLit c :: items' =>
      m_bind (m_class (literal_ignorecase c)) (fun _ => format_matcher items' found)
  end.

Fixpoint item_directives (items : list format_item) : list directive :=
  match items with
  | [] => []
  | FDir d :: items' => d :: item_directives items'
  | _ :: items' => item_directives items'
  end.

(** The loop of [_strptime] over the group dictionary. *)
Fixpoint convert_groups (found : list (directive * str)) (st : option Z * Z * Z)
    : result (option Z * Z * Z) :=
  match found with
  | [] => Return st
  | (k, v) :: found' =>
      let '(yr, mo, dy) := st in
      let* st' :=
        match k with
        | dir_y =>
            let* y := py_int v in
            Return (Some (if (y <=? 68)%Z then (y + 2000)%Z else (y + 1900)%Z), mo, dy)
        | dir_Y => let* y := py_int v in Return (Some y, mo, dy)
        | dir_m => let* m := py_int v in Return (yr, m, dy)
        | dir_B => let* m := list_index (str_lower v) f_month in Return (yr, m, dy)
        | dir_b => let* m := list_index (str_lower v) a_month in Return (yr, m, dy)
        | dir_d => let* d := py_int v in Return (yr, mo, d)
        end in
      convert_groups found' st'
  end.

(** [datetime.strptime(data_string, format).date()].  A format naming a
    directive twice does not compile ([re.error]). *)
Definition strptime (data_string format : str) : result date :=
  let* items := format_items false format in
  if negb (bool_decide (NoDup (item_directives items))) then Raise ReError
  else
    match re_match (format_matcher items []) data_string with
    | None => Raise ValueError                         (* does not match format *)
    | Some (found, rest) =>
        match rest with
        | _ :: _ => Raise ValueError                   (* unconverted data remains *)
        | [] =>
            let* st := convert_groups found (None, 1%Z, 1%Z) in
            let '(yr, mo, dy) := st in
            let '(y, leap_year_fix) :=
              match yr with
              | Some y => (y, false)
              | None => if ((mo =? 2) && (dy =? 29))%Z then (1904%Z, true)
                        else (1900%Z, false)
              end in
            date_new y mo dy ;;                         (* day of the year *)
            date_new (if leap_year_fix then 1900%Z else y) mo dy
        end
    end.

(** [for fmt in formats: try: return strptime(text, fmt).date()
    except ValueError: pass], then [raise AssertionError]. *)
Fixpoint try_formats (text : str) (formats : list str) : result date :=
  match formats with
  | [] => Raise AssertionError
  | fmt :: formats' =>
      match strptime text fmt with
      | Return d => Return d
      | Raise ValueError => try_formats text formats'
      | Raise e => Raise e
      end
  end.

(** ** The browser

    What the tests do to the page and read from it.  Locators are named by
    their selector; a locator scoped inside another is named by the chained
    selector.  [locator_visible] tells whether [wait_for(state="visible")]
    returns within its timeout; when it does not, Playwright raises a
    timeout error. *)

Class Browser (Page : Type) : Type := {
  goto : Page -> str -> Page;                      (* page.goto(url(path)) *)
  click : Page -> str -> Page;                     (* locator.click() *)
  fill_and_type : Page -> str -> str -> Page;      (* locator.fill(""), locator.type(value) *)
  mouse_wheel : Page -> Page;                      (* page.mouse.wheel and the wait after it *)
  page_url : Page -> str;                          (* page.url *)
  locator_count : Page -> str -> Z;                (* locator.count() *)
  locator_visible : Page -> str -> bool;
  locator_inner_text : Page -> str -> str;         (* first match's inner_text() *)
  locator_all_texts : Page -> str -> list str;     (* all_inner_texts(), all_text_contents() *)
  locator_attribute : Page -> str -> str -> option str  (* get_attribute(name) *)
}.

(** [locator.wait_for(state="visible", timeout=...)] *)
Definition wait_for `{Browser Page} (page : Page) (selector : str) : result unit :=
  if locator_visible page selector then Return tt else Raise TimeoutError.

(** ** tests/recent_sales/test_rsp_model_field.py *)

Module ModelField.

Definition total_record_count_re : matcher str :=   (* Total Record Count\s+(\d+) *)
  m_bind (m_lit (lit "Total Record Count")) (fun _ =>
  m_bind (m_plus isspace) (fun _ =>
  m_plus isdecimal)).

(** The part of [get_total_record_count] that follows the reading of the
    paragraph's inner text. *)
Definition total_record_count_of_text (inner_text : str) : result Z :=
  let text := strip inner_text in
  match re_search total_record_count_re text with
  | None => Raise AssertionError
  | Some (group1, _) => py_int group1
  end.

Definition get_total_record_count `{Browser Page} (page : Page) : result Z :=
  let total_p := lit "p:has-text('Total Record Count')" in
  wait_for page total_p ;;
  total_record_count_of_text (locator_inner_text page total_p).

Definition model_cells : str := lit "td.model, td.distributor_model, td.distributor-model".

Definition search_by_model `{Browser Page} (page : Page) (value : str)
    : Page * result Z :=
  let model_input := lit "#id_model" in
  let search_button := lit "button[type='submit'].btn.btn-primary >> text=Search" in
  if negb (locator_count page model_input =? 1)%Z then (page, Raise AssertionError)
  else if negb (locator_visible page model_input) then (page, Raise TimeoutError)
  else
    let page := fill_and_type page model_input value in
    if negb (locator_count page search_button =? 1)%Z then (page, Raise AssertionError)
    else if negb (locator_visible page search_button) then (page, Raise TimeoutError)
    else
      let page := click page search_button in
      let has_rows := locator_visible page model_cells in
      if negb has_rows && negb (locator_visible page (lit "p:has-text('Total Record Count 0')"))
      then (page, Raise Exception)
      else (page, get_total_record_count page).

(** The loop body's updates of [result_chars] and [alpha_index]. *)
Definition alternate_step (st : list str * Z) (ch : char) : list str * Z :=
  let '(result_chars, alpha_index) := st in
  if isalpha ch then
    if (alpha_index mod 2 =? 0)%Z
    then (result_chars ++ [lower ch], (alpha_index + 1)%Z)
    else (result_chars ++ [upper ch], (alpha_index + 1)%Z)
  else (result_chars ++ [[ch]], alpha_index).

Definition build_alternating_case_prefix (base : str) (length : Z) : str :=
  let prefix := slice_to base length in
  let '(result_chars, _) := List.fold_left alternate_step prefix ([], 0%Z) in
  List.concat result_chars.

(** [range(1, n + 1)] *)
Definition range1 (n : nat) : list Z := List.map Z.of_nat (List.seq 1 n).

(** The prefix iteration of [test_rsp_model_field]: the [for] loop over
    [range(1, len(full_model_name) + 1)], from the page and the count left
    by the blank search. *)
Fixpoint prefix_loop `{Browser Page} (full_model_name : str) (indices : list Z)
    (page : Page) (total_record_count : Z) : Page * result Z :=
  match indices with
  | [] => (page, Return total_record_count)
  | i :: indices' =>
      let partial_value := build_alternating_case_prefix full_model_name i in
      let '(page, searched) := search_by_model page partial_value in
      match searched with
      | Raise e => (page, Raise e)
      | Return updated_record_count =>
          if (updated_record_count <=? total_record_count)%Z
          then prefix_loop full_model_name indices' page updated_record_count
          else (page, Raise AssertionError)
      end
  end.

Definition prefix_iteration `{Browser Page} (full_model_name : str)
    (page : Page) (total_record_count : Z) : Page * result Z :=
  prefix_loop full_model_name (range1 (List.length full_model_name))
    page total_record_count.

End ModelField.

(** ** tests/recent_sales/test_rsp_manufacturer_field.py *)

Module ManufacturerField.

Definition alternate_step (st : list str * Z) (ch : char) : list str * Z :=
  let '(result_chars, alpha_index) := st in
  if isalpha ch then
    if (alpha_index mod 2 =? 0)%Z
    then (result_chars ++ [lower ch], (alpha_index + 1)%Z)
    else (result_chars ++ [upper ch], (alpha_index + 1)%Z)
  else (result_chars ++ [[ch]], alpha_index).

Definition build_alternating_case_prefix (base : str) (length : Z) : str :=
  let prefix := slice_to base length in
  let '(result_chars, _) := List.fold_left alternate_step prefix ([], 0%Z) in
  List.concat result_chars.

End ManufacturerField.

(** ** tests/tests/recent_sales/test_rsp_source_id_field.py *)

Module SourceIdField.

Definition alternate_step (st : list str * Z) (ch : char) : list str * Z :=
  let '(result_chars, alpha_index) := st in
  if isalpha ch then
    if (alpha_index mod 2 =? 0)%Z
    then (result_chars ++ [lower ch], (alpha_index + 1)%Z)
    else (result_chars ++ [upper ch], (alpha_index + 1)%Z)
  else (result_chars ++ [[ch]], alpha_index).

Definition build_alternating_case_prefix (base : str) (length : Z) : str :=
  let prefix := slice_to base length in
  let '(result_chars, _) := List.fold_left alternate_step prefix ([], 0%Z) in
  List.concat result_chars.

End SourceIdField.

(** ** tests/recent_sales/test_rsp_invoice_date_field.py *)

Module InvoiceDateField.

Definition total_record_count_re : matcher str :=   (* Total Record Count\s+(\d+) *)
  m_bind (m_lit (lit "Total Record Count")) (fun _ =>
  m_bind (m_plus isspace) (fun _ =>
  m_plus isdecimal)).

Definition total_record_count_of_text (inner_text : str) : result Z :=
  let text := strip inner_text in
  match re_search total_record_count_re text with
  | None => Raise AssertionError
  | Some (group1, _) => py_int group1
  end.

Definition get_total_record_count `{Browser Page} (page : Page) : result Z :=
  let total_p := lit "p:has-text('Total Record Count')" in
  wait_for page total_p ;;
  total_record_count_of_text (locator_inner_text page total_p).

Definition POSSIBLE_FORMATS : list str :=
  List.map lit ["%Y-%m-%d"; "%m/%d/%Y"; "%m/%d/%y";
                "%b. %d, %Y"; "%b %d, %Y"; "%B %d, %Y"]%string.

Definition parse_invoice_date (text : str) : result date :=
  let text := strip text in
  try_formats text POSSIBLE_FORMATS.

End InvoiceDateField.

(** ** tests/recent_sales/test_rsp_invoice_date_start_end_fields.py *)

Module InvoiceDateStartEndFields.

Definition POTENTIAL_DATE_FORMATS : list str :=
  List.map lit ["%Y-%m-%d"; "%m/%d/%Y"; "%m/%d/%y";
                "%b. %d, %Y"; "%b %d, %Y"; "%B %d, %Y"]%string.

Definition parse_invoice_date (text : str) : result date :=
  let text := strip text in
  try_formats text POTENTIAL_DATE_FORMATS.

End InvoiceDateStartEndFields.

(** A locator scoped inside another one. *)
Definition within (parent child : str) : str := parent ++ lit " >> " ++ child.

(** [for x in l: assert check(x)] *)
Fixpoint assert_all {A : Type} (check : A -> bool) (l : list A) : result unit :=
  match l with
  | [] => Return tt
  | x :: l' => py_assert (check x) ;; assert_all check l'
  end.

(** ** config/status_ui_spec_definitions.py *)

Module StatusUiSpecDefinitions.

Record StatusUISpec : Type := {
  must_contain : list str;
  required_icon_selectors : list str
}.

Definition spec (texts icons : list string) : StatusUISpec :=
  {| must_contain := List.map lit texts;
     required_icon_selectors := List.map lit icons |}.

Definition STATUS_UI_SPECS : gmap str StatusUISpec :=
  list_to_map
    [ (lit "Dismissed",
       spec ["Dismissed"; "Dismissed"] ["i.bi-dash-circle-fill.text-secondary"]);
      (lit "Expired",
       spec ["Ineligible"; "Expired"] ["i.bi-x-circle-fill.text-danger"]);
      (lit "Exported",
       spec ["Submitted"; "Exported"] ["i.bi-dash-circle-fill.text-secondary"]);
      (lit "Incomplete Requirements",
       spec ["Incomplete"; "Incomplete Requirements"] ["i.bi-exclamation.text-warning"]);
      (lit "Ineligible",
       spec ["Ineligible"; "Ineligible"] ["i.bi-x-circle-fill.text-danger"]);
      (lit "Ready",
       spec ["Submitted"; "Ready"] ["i.bi-check-circle-fill.text-success"]);
      (lit "Unassigned",
       spec ["Incomplete"; "Unassigned"] ["i.bi-exclamation.text-danger"]) ]%string.

End StatusUiSpecDefinitions.

(** ** tests/recent_sales/test_rsp_status_field_expired.py *)

Module StatusFieldExpired.
Import StatusUiSpecDefinitions.

Definition assert_status_cell_matches_spec `{Browser Page} (page : Page)
    (cell : str) (status_key : str) : result unit :=
  match STATUS_UI_SPECS !! status_key with
  | None => Raise KeyError
  | Some spec =>
      assert_all (fun sel => (1 <=? locator_count page (within cell sel))%Z)
        (required_icon_selectors spec) ;;
      let cell_text := strip (locator_inner_text page cell) in
      assert_all (fun expected => contains expected cell_text) (must_contain spec)
  end.

End StatusFieldExpired.

(** ** tests/dashboard/test_dashboard_market_actor_check.py *)

(** How the body of a [for] loop ends: it falls through to the next round,
    leaves the loop with [break], or leaves the function ([return] or an
    exception). *)
Inductive flow (St : Type) : Type :=
| Continue (s : St)
| Break (s : St)
| Leave (s : St) (r : result unit).

Arguments Continue {St} s.
Arguments Break {St} s.
Arguments Leave {St} s r.

(** [for _ in range(n): body], counting the rounds that were entered.
    A function that runs off the end of the loop returns [None]. *)
Fixpoint for_range {St : Type} (n : nat) (body : St -> flow St) (s : St) (rounds : nat)
    : nat * St * result unit :=
  match n with
  | O => (rounds, s, Return tt)
  | S n' =>
      match body s with
      | Continue s' => for_range n' body s' (S rounds)
      | Break s' => (S rounds, s', Return tt)
      | Leave s' r => (S rounds, s', r)
      end
  end.

Module DashboardMarketActorCheck.

Definition stable_rounds_to_stop : Z := 2.
Definition max_rounds : nat := 10.

(** [[t.strip() for t in texts if t and t.strip()]] *)
Definition stripped_nonempty (texts : list str) : list str :=
  List.filter (fun t => negb (str_eqb t [])) (List.map strip texts).

Definition round_body `{Browser Page} (st : Page * gset str * Z)
    : flow (Page * gset str * Z) :=
  let '(page, dashboard_ma_names, stable_rounds) := st in
  let dashboard_market_actor_names :=
    stripped_nonempty (locator_all_texts page (lit "h2.card-title")) in
  let before := size dashboard_ma_names in
  let dashboard_ma_names := dashboard_ma_names ∪ list_to_set dashboard_market_actor_names in
  let after := size dashboard_ma_names in
  let stable_rounds := if (before =? after)%nat then (stable_rounds + 1)%Z else 0%Z in
  if (stable_rounds_to_stop <=? stable_rounds)%Z
  then Break (page, dashboard_ma_names, stable_rounds)
  else
    let page := mouse_wheel page in
    let page := click page (lit "role=link[name='Recent Sales']") in
    if negb (endswith (page_url page) (lit "/salesdata/"))
    then Leave (page, dashboard_ma_names, stable_rounds) (Raise Exception)
    else
      let options :=
        locator_all_texts page (lit "role=combobox[name='Market Actor'] >> option") in
      let active_market_actor_names :=
        List.filter (fun o => negb (str_eqb o (lit "All"))) (stripped_nonempty options) in
      if bool_decide (dashboard_ma_names = list_to_set active_market_actor_names)
      then Leave (page, dashboard_ma_names, stable_rounds) (Return tt)
      else Leave (page, dashboard_ma_names, stable_rounds) (Raise AssertionError).

(** The test, with the number of collection rounds it entered and the
    names it had collected when it ended. *)
Definition test_dashboard_market_actor_check `{Browser Page} (page : Page)
    : nat * gset str * result unit :=
  let page := goto page (lit "/dashboard/") in
  if negb (endswith (page_url page) (lit "/dashboard/")) then (O, ∅, Raise Exception)
  else if negb (locator_visible page (lit "h2.card-title")) then (O, ∅, Raise TimeoutError)
  else
    let '(rounds, st, r) := for_range max_rounds round_body (page, ∅, 0%Z) O in
    (rounds, snd (fst st), r).

End DashboardMarketActorCheck.

(** ** tests/tests/dashboard/test_dashboard_unassigned_widget.py *)

Module DashboardUnassignedWidget.

Definition first_market_actor_card : str := lit "div.card:has(h2.card-title)".
Definition unassigned_label : str :=
  within first_market_actor_card (lit "span.me-2.card-link.text-400:has-text('Unassigned')").
Definition unassigned_row : str :=
  within first_market_actor_card
    (lit "div.d-flex.flex-row:has(span.me-2.card-link.text-400:has-text('Unassigned'))").
Definition tooltip_host_span : str :=
  within unassigned_row
    (lit "span[data-bs-toggle='tooltip'][data-bs-title='Records that did not match a program.']").
Definition unassigned_widget : str :=
  within first_market_actor_card
    (lit "div:has(span.me-2.card-link.text-400:has-text('Unassigned')):has(a[href*='status=UNASSIGNED'])").
Definition unassigned_counter_link : str :=
  within unassigned_widget (lit "a[href*='status=UNASSIGNED']").
Definition expected_url : str :=
  lit "https://ic-staging.staging.aws.incentiveconnect.com/salesdata/?status=UNASSIGNED&market_actor=0".
Definition checked_option (dropdown : string) : str :=
  within (lit dropdown) (lit "option:checked").

(** The test up to its last assertion: the page it ends on, and the two
    digit strings that remain to be compared. *)
Definition run_to_final_comparison `{Browser Page} (page : Page) : result (str * str) :=
  let page := goto page (lit "/dashboard/") in
  if negb (endswith (page_url page) (lit "/dashboard/")) then Raise Exception
  else
    wait_for page first_market_actor_card ;;
    let market_actor_name :=
      strip (locator_inner_text page (within first_market_actor_card (lit "h2.card-title"))) in
    py_assert (negb (str_eqb market_actor_name [])) ;;
    let sales_records_summary_title :=
      within first_market_actor_card
        (lit "h3.card-title.rose-primary-text:has-text('Sales Records Summary')") in
    wait_for page sales_records_summary_title ;;
    py_assert (str_eqb (strip (locator_inner_text page sales_records_summary_title))
                 (lit "Sales Records Summary")) ;;
    wait_for page unassigned_label ;;
    py_assert (str_eqb (strip (locator_inner_text page unassigned_label)) (lit "Unassigned")) ;;
    wait_for page unassigned_row ;;
    wait_for page tooltip_host_span ;;
    wait_for page (within tooltip_host_span (lit "i.bi.bi-info-circle")) ;;
    let tooltip_text :=
      strip (default [] (locator_attribute page tooltip_host_span (lit "data-bs-title"))) in
    py_assert (str_eqb tooltip_text (lit "Records that did not match a program.")) ;;
    wait_for page unassigned_widget ;;
    wait_for page unassigned_counter_link ;;
    let unassigned_counter := strip (locator_inner_text page unassigned_counter_link) in
    py_assert (isdigit unassigned_counter) ;;
    let page := click page unassigned_counter_link in
    (if str_eqb (page_url page) expected_url then Return tt else Raise TimeoutError) ;;
    py_assert (str_eqb (page_url page) expected_url) ;;
    wait_for page (lit "#id_market_actor") ;;
    let selected_market_actor_name :=
      strip (locator_inner_text page (checked_option "#id_market_actor")) in
    py_assert (str_eqb selected_market_actor_name market_actor_name) ;;
    wait_for page (lit "#id_status") ;;
    let selected_status := strip (locator_inner_text page (checked_option "#id_status")) in
    py_assert (str_eqb selected_status (lit "Unassigned")) ;;
    let selected_status_value :=
      strip (default [] (locator_attribute page (checked_option "#id_status") (lit "value"))) in
    py_assert (str_eqb selected_status_value (lit "UNASSIGNED")) ;;
    wait_for page (lit "#id_invoice_date") ;;
    let selected_invoice_date :=
      strip (locator_inner_text page (checked_option "#id_invoice_date")) in
    py_assert (str_eqb selected_invoice_date (lit "All")) ;;
    let total_record_count_el := lit "p:has-text('Total Record Count')" in
    wait_for page total_record_count_el ;;
    let total_record_count_text := strip (locator_inner_text page total_record_count_el) in
    py_assert (startswith total_record_count_text (lit "Total Record Count")) ;;
    let total_record_count :=
      strip (replace total_record_count_text (lit "Total Record Count") []) in
    py_assert (isdigit total_record_count) ;;
    Return (total_record_count, unassigned_counter).

(** [assert int(total_record_count) == int(unassigned_counter)] *)
Definition final_comparison (total_record_count unassigned_counter : str) : result unit :=
  let* total := py_int total_record_count in
  let* unassigned := py_int unassigned_counter in
  py_assert (total =? unassigned)%Z.

Definition test_dashboard_sales_summary_section `{Browser Page} (page : Page)
    : result unit :=
  let* texts := run_to_final_comparison page in
  final_comparison (fst texts) (snd texts).

End DashboardUnassignedWidget.

(** ** Vocabulary of the specification *)

(** Number of alphabetic characters among the first [p] characters. *)
Definition alpha_before (s : str) (p : nat) : nat :=
  List.length (List.filter isalpha (firstn p s)).

(** What the character [ch] at position [p] of [base] becomes: the [k]-th
    alphabetic character is lowercased for even [k] and uppercased for odd
    [k]; any other character stays. *)
Definition alternated (base : str) (p : nat) (ch : char) : str :=
  if isalpha ch then
    if Nat.even (alpha_before base p) then lower ch else upper ch
  else [ch].

(** Characters whose lowercase and uppercase forms are single characters
    that fold like the character itself. *)
Definition case_stable (c : char) : bool :=
  negb (isalpha c) ||
  ((List.length (lower c) =? 1)%nat && (List.length (upper c) =? 1)%nat &&
   str_eqb (casefold (lower c)) (casefold_char c) &&
   str_eqb (casefold (upper c)) (casefold_char c)).

Definition is_ascii (c : char) : bool := c <? 128.

(** Characters whose lowercase and uppercase forms are single characters. *)
Definition single_case (c : char) : bool :=
  negb (isalpha c) ||
  ((List.length (lower c) =? 1)%nat && (List.length (upper c) =? 1)%nat).

(** The text matches the format: [strptime] returns a date. *)
Definition matches_format (text fmt : str) : Prop :=
  exists d, strptime text fmt = Return d.

(** A valid calendar date. *)
Definition is_date (d : date) : Prop := valid_date (year d) (month d) (day d) = true.

(** Every failure of [strptime] on these formats is a [ValueError], the
    exception the loop over the formats catches. *)
Definition only_ValueError (text : str) (formats : list str) : Prop :=
  forall fmt e, In fmt formats -> strptime text fmt = Raise e -> e = ValueError.

(** The number written by a run of decimal digits. *)
Definition decimal_number (ds : str) : N :=
  List.fold_left (fun acc c => acc * 10 + default 0 (decimal_value c)) ds 0.

(** No code point lies in a range of both lists. *)
Definition ranges_apart (rs1 rs2 : list (N * N)) : bool :=
  forallb (fun r1 => forallb (fun r2 => (snd r1 <? fst r2) || (snd r2 <? fst r1)) rs2) rs1.

(** The longest prefix of characters of a class, and what follows it. *)
Fixpoint span (pred : char -> bool) (s : str) : str * str :=
  match s with
  | c :: s' => if pred c then (c :: fst (span pred s'), snd (span pred s')) else ([], s)
  | [] => ([], [])
  end.

(** [text] reads [pre], then the literal, then the whitespace [ws], then
    the maximal run of decimal digits [ds], then [post]. *)
Definition count_pattern (text pre ws ds post : str) : Prop :=
  text = pre ++ lit "Total Record Count" ++ ws ++ ds ++ post /\
  ws <> [] /\ Forall (fun c => isspace c = true) ws /\
  ds <> [] /\ Forall (fun c => isdecimal c = true) ds /\
  (forall c post', post = c :: post' -> isdecimal c = false).

Definition has_count_pattern (text : str) : Prop :=
  exists pre ws ds post, count_pattern text pre ws ds post.

(** The occurrence of the pattern that starts first. *)
Definition first_count_pattern (text pre ws ds post : str) : Prop :=
  count_pattern text pre ws ds post /\
  forall pre' ws' ds' post',
    count_pattern text pre' ws' ds' post' -> (List.length pre <= List.length pre')%nat.

(** ** A scripted browser

    A page is the list of the snapshots still to come: the head is what the
    page shows now, and every action moves on to the next snapshot. *)

Record snapshot : Type := {
  snap_url : str;
  snap_visible : list str;
  snap_counts : list (str * Z);
  snap_texts : list (str * str);
  snap_all_texts : list (str * list str);
  snap_attributes : list (str * str * str)
}.

Definition blank_snapshot : snapshot :=
  {| snap_url := []; snap_visible := []; snap_counts := []; snap_texts := [];
     snap_all_texts := []; snap_attributes := [] |}.

Fixpoint assoc {V : Type} (default : V) (k : str) (l : list (str * V)) : V :=
  match l with
  | [] => default
  | (k', v) :: l' => if str_eqb k' k then v else assoc default k l'
  end.

Definition current (script : list snapshot) : snapshot :=
  List.hd blank_snapshot script.

Global Instance scripted_browser : Browser (list snapshot) := {|
  goto script _ := List.tl script;
  click script _ := List.tl script;
  fill_and_type script _ _ := List.tl script;
  mouse_wheel script := List.tl script;
  page_url script := snap_url (current script);
  locator_count script selector := assoc 0%Z selector (snap_counts (current script));
  locator_visible script selector :=
    existsb (str_eqb selector) (snap_visible (current script));
  locator_inner_text script selector := assoc [] selector (snap_texts (current script));
  locator_all_texts script selector := assoc [] selector (snap_all_texts (current script));
  locator_attribute script selector name :=
    assoc None name
      (List.map (fun '(s, n, v) => (n, Some v))
         (List.filter (fun '(s, _, _) => str_eqb s selector)
            (snap_attributes (current script))))
|}.

(** A snapshot of the Recent Sales list showing [count] as its total. *)
Definition list_page (count : string) : snapshot :=
  {| snap_url := lit "https://host/salesdata/";
     snap_visible := [lit "#id_model";
                      lit "button[type='submit'].btn.btn-primary >> text=Search";
                      ModelField.model_cells;
                      lit "p:has-text('Total Record Count')"];
     snap_counts := [(lit "#id_model", 1%Z);
                     (lit "button[type='submit'].btn.btn-primary >> text=Search", 1%Z)];
     snap_texts := [(lit "p:has-text('Total Record Count')",
                     lit "Total Record Count " ++ lit count)];
     snap_all_texts := [];
     snap_attributes := [] |}.

(** The same list, its count paragraph reading the digits [count]. *)
Definition count_page (count : str) : snapshot :=
  {| snap_url := lit "https://host/salesdata/";
     snap_visible := [lit "p:has-text('Total Record Count')"];
     snap_counts := [];
     snap_texts := [(lit "p:has-text('Total Record Count')",
                     lit "Total Record Count " ++ count)];
     snap_all_texts := [];
     snap_attributes := [] |}.

(** [sub] occurs in [s]. *)
Definition is_substring (sub s : str) : Prop :=
  exists pre post, s = pre ++ sub ++ post.

(** The cell shows what the entry asks for: every required icon is there
    and every required text occurs in the stripped inner text. *)
Definition cell_shows `{Browser Page} (page : Page) (cell : str)
    (spec : StatusUiSpecDefinitions.StatusUISpec) : Prop :=
  Forall (fun sel => (1 <= locator_count page (within cell sel))%Z)
    (StatusUiSpecDefinitions.required_icon_selectors spec) /\
  Forall (fun expected => is_substring expected (strip (locator_inner_text page cell)))
    (StatusUiSpecDefinitions.must_contain spec).

(** A results page whose first status cell is an Expired one. *)
Definition expired_cell_page : snapshot :=
  {| snap_url := lit "https://host/salesdata/?status=EXPIRED";
     snap_visible := [lit "td.status"];
     snap_counts := [(within (lit "td.status") (lit "i.bi-x-circle-fill.text-danger"), 1%Z)];
     snap_texts := [(lit "td.status", lit " Ineligible Expired ")];
     snap_all_texts := [];
     snap_attributes := [] |}.

(** The searches of the prefix iteration, were none of them to stop it: the
    page and the outcome after the [i]-th search.  The blank search, which
    left [page] and [total], is number 0. *)
Fixpoint search_at `{Browser Page} (full_model_name : str) (page : Page) (total : Z)
    (i : nat) : Page * result Z :=
  match i with
  | O => (page, Return total)
  | S i' =>
      ModelField.search_by_model (fst (search_at full_model_name page total i'))
        (ModelField.build_alternating_case_prefix full_model_name (Z.of_nat i))
  end.

(** The [i]-th search returned a count that is not above the count of the
    search before it. *)
Definition narrows `{Browser Page} (full_model_name : str) (page : Page) (total : Z)
    (i : nat) : Prop :=
  exists previous updated,
    snd (search_at full_model_name page total (i - 1)) = Return previous /\
    snd (search_at full_model_name page total i) = Return updated /\
    (updated <= previous)%Z.

(** The [i]-th search returned a count above the count of the search
    before it. *)
Definition widens `{Browser Page} (full_model_name : str) (page : Page) (total : Z)
    (i : nat) : Prop :=
  exists previous updated,
    snd (search_at full_model_name page total (i - 1)) = Return previous /\
    snd (search_at full_model_name page total i) = Return updated /\
    (previous < updated)%Z.

(** Recent Sales pages on which the searches show 7 and then 9 records,
    after a blank search that showed 10. *)
Definition widening_script : list snapshot :=
  [list_page "10"; list_page "10"; list_page "7"; list_page "7"; list_page "9"].

(** A dashboard whose first card counts 12 unassigned records, and the
    list the counter links to. *)
Definition unassigned_dashboard (counter : string) : snapshot :=
  let card := DashboardUnassignedWidget.first_market_actor_card in
  {| snap_url := lit "https://host/dashboard/";
     snap_visible :=
       [card;
        within card (lit "h3.card-title.rose-primary-text:has-text('Sales Records Summary')");
        DashboardUnassignedWidget.unassigned_label;
        DashboardUnassignedWidget.unassigned_row;
        DashboardUnassignedWidget.tooltip_host_span;
        within DashboardUnassignedWidget.tooltip_host_span (lit "i.bi.bi-info-circle");
        DashboardUnassignedWidget.unassigned_widget;
        DashboardUnassignedWidget.unassigned_counter_link];
     snap_counts := [];
     snap_texts :=
       [(within card (lit "h2.card-title"), lit " Acme Supply ");
        (within card (lit "h3.card-title.rose-primary-text:has-text('Sales Records Summary')"),
         lit "Sales Records Summary");
        (DashboardUnassignedWidget.unassigned_label, lit "Unassigned");
        (DashboardUnassignedWidget.unassigned_counter_link, lit counter)];
     snap_all_texts := [];
     snap_attributes :=
       [(DashboardUnassignedWidget.tooltip_host_span, lit "data-bs-title",
         lit "Records that did not match a program.")] |}.

Definition unassigned_list (total : string) : snapshot :=
  {| snap_url := DashboardUnassignedWidget.expected_url;
     snap_visible := [lit "#id_market_actor"; lit "#id_status"; lit "#id_invoice_date";
                      lit "p:has-text('Total Record Count')"];
     snap_counts := [];
     snap_texts :=
       [(DashboardUnassignedWidget.checked_option "#id_market_actor", lit "Acme Supply");
        (DashboardUnassignedWidget.checked_option "#id_status", lit "Unassigned");
        (DashboardUnassignedWidget.checked_option "#id_invoice_date", lit "All");
        (lit "p:has-text('Total Record Count')", lit "Total Record Count " ++ lit total)];
     snap_all_texts := [];
     snap_attributes :=
       [(DashboardUnassignedWidget.checked_option "#id_status", lit "value",
         lit "UNASSIGNED")] |}.

Definition unassigned_script (counter total : string) : list snapshot :=
  [blank_snapshot; unassigned_dashboard counter; unassigned_list total].

(** A dashboard that loads its cards lazily: one card before the scroll,
    two after it; the Market Actor dropdown of Recent Sales lists both. *)
Definition cards_page (names : list string) : snapshot :=
  {| snap_url := lit "https://host/dashboard/";
     snap_visible := [lit "h2.card-title"];
     snap_counts := [];
     snap_texts := [];
     snap_all_texts := [(lit "h2.card-title", List.map lit names)];
     snap_attributes := [] |}.

Definition options_page (options : list string) : snapshot :=
  {| snap_url := lit "https://host/salesdata/";
     snap_visible := [];
     snap_counts := [];
     snap_texts := [];
     snap_all_texts :=
       [(lit "role=combobox[name='Market Actor'] >> option", List.map lit options)];
     snap_attributes := [] |}.

Definition lazy_dashboard_script : list snapshot :=
  [blank_snapshot;
   cards_page ["Acme"]%string;
   cards_page ["Acme"; "Bolt"]%string;
   options_page ["All"; "Acme"; "Bolt"]%string].

(** * Further code of the suite: configuration, dates, loops of the tests *)

From Stdlib Require Import DecimalString.

(** ** Exceptions the further code raises

    [Builtin e] is an exception of the first part. *)

Inductive error : Type :=
| Builtin (e : exn)
| OverflowError
| IndexError
| RuntimeError
| OSError
| Skipped.

Inductive outcome (A : Type) : Type :=
| Done (a : A)
| Fail (e : error).

Arguments Done {A} a.
Arguments Fail {A} e.

Definition obind {A B : Type} (r : outcome A) (k : A -> outcome B) : outcome B :=
  match r with
  | Done a => k a
  | Fail e => Fail e
  end.

Notation "'let+' x ':=' r 'in' k" := (obind r (fun x => k))
  (at level 10, x name, r at level 100, k at level 200).
Notation "r ';;+' k" := (obind r (fun _ => k))
  (at level 100, k at level 200, right associativity).

(** A call of the first part inside the further code. *)
Definition lift {A : Type} (r : result A) : outcome A :=
  match r with
  | Return a => Done a
  | Raise e => Fail (Builtin e)
  end.

(** [assert b] *)
Definition oassert (b : bool) : outcome unit :=
  if b then Done tt else Fail (Builtin AssertionError).

(** [pytest.skip(...)] *)
Definition pytest_skip {A : Type} : outcome A := Fail Skipped.

(** ** More string methods *)

(** [s.lstrip(chars)], [s.rstrip(chars)], [s.strip(chars)] *)
Fixpoint lstrip_chars (chars s : str) : str :=
  match s with
  | c :: s' => if existsb (N.eqb c) chars then lstrip_chars chars s' else s
  | [] => []
  end.

Definition rstrip_chars (chars s : str) : str :=
  List.rev (lstrip_chars chars (List.rev s)).

Definition strip_chars (chars s : str) : str :=
  rstrip_chars chars (lstrip_chars chars s).

(** Line boundaries of [str.splitlines]. *)
Definition is_line_boundary (c : char) : bool :=
  existsb (N.eqb c) [10; 11; 12; 13; 28; 29; 30; 133; 8232; 8233].

(** [s.splitlines()]: [cur] is the line being read; [after_cr] tells that the
    previous character was a carriage return, which swallows a line feed. *)
Fixpoint splitlines_from (after_cr : bool) (cur : str) (s : str) : list str :=
  match s with
  | [] => match cur with
          | [] => []
          | _ => [cur]
          end
  | c :: s' =>
      if after_cr && (c =? 10) then splitlines_from false cur s'
      else if is_line_boundary c then cur :: splitlines_from (c =? 13) [] s'
      else splitlines_from false (cur ++ [c]) s'
  end.

Definition splitlines (s : str) : list str := splitlines_from false [] s.

(** [s.split(sep, 1)] for a one-character [sep] that occurs in [s]: what
    precedes the first [sep] and what follows it. *)
Fixpoint split_once (sep : char) (s : str) : option (str * str) :=
  match s with
  | [] => None
  | c :: s' =>
      if c =? sep then Some ([], s')
      else match split_once sep s' with
           | Some (a, b) => Some (c :: a, b)
           | None => None
           end
  end.

(** ** config/settings.py *)

Module Settings.

(** [os.environ], on a POSIX system. *)
Abbreviation environment := (gmap (list N) (list N)) (only parsing).

Definition base_url (environ : environment) : outcome str :=
  let target_url := strip (default [] (environ !! lit "TARGET_URL")) in
  if str_eqb target_url [] then Fail RuntimeError
  else Done (rstrip_chars (lit "/") target_url).

Definition url (environ : environment) (path : str) : outcome str :=
  let+ base := base_url environ in
  Done (base ++ lit "/" ++ lstrip_chars (lit "/") path).

End Settings.

(** ** conftest.py *)

Module Conftest.

(** [os.environ.setdefault(key, value)]: a name that is already set is left
    alone; a new one is handed to [putenv], which rejects a null character
    in the name or the value and an [=] in the name ([ValueError]), and an
    empty name ([OSError]). *)
Definition setdefault (environ : Settings.environment) (key value : str)
    : outcome Settings.environment :=
  match environ !! key with
  | Some _ => Done environ
  | None =>
      if existsb (N.eqb 0) key || existsb (N.eqb 0) value || existsb (N.eqb 61) key
      then Fail (Builtin ValueError)
      else if str_eqb key [] then Fail OSError
      else Done (<[key := value]> environ)
  end.

(** The key and the value a line of the file defines, if it defines one. *)
Definition parse_line (raw_line : str) : option (str * str) :=
  let line := strip raw_line in
  if str_eqb line [] || startswith line (lit "#") then None
  else
    match split_once 61 line with
    | None => None                                   (* "=" not in line *)
    | Some (key, value) =>
        Some (strip key, strip_chars [39] (strip_chars [34] (strip value)))
    end.

(** The loop over the lines. *)
Fixpoint load_lines (lines : list str) (environ : Settings.environment)
    : outcome Settings.environment :=
  match lines with
  | [] => Done environ
  | raw_line :: lines' =>
      match parse_line raw_line with
      | None => load_lines lines' environ
      | Some (key, value) =>
          let+ environ := setdefault environ key value in
          load_lines lines' environ
      end
  end.

(** [_load_env_file(path)]: [file] is the text of the file as [read_text]
    returns it, or [None] when the file does not exist. *)
Definition _load_env_file (file : option str) (environ : Settings.environment)
    : outcome Settings.environment :=
  match file with
  | None => Done environ
  | Some text => load_lines (splitlines text) environ
  end.

End Conftest.

(** ** Date arithmetic of [datetime]

    The reference implementation in [Lib/datetime.py], with its
    assertions. *)

(** [l[i]] *)
Definition getitem (l : list Z) (i : Z) : outcome Z :=
  let n := Z.of_nat (List.length l) in
  let i := if (i <? 0)%Z then (i + n)%Z else i in
  if ((0 <=? i) && (i <? n))%Z then Done (List.nth (Z.to_nat i) l 0%Z)
  else Fail IndexError.

Definition _MAXORDINAL : Z := 3652059.

Definition _DAYS_IN_MONTH : list Z :=
  [-1; 31; 28; 31; 30; 31; 30; 31; 31; 30; 31; 30; 31]%Z.

(** [_DAYS_BEFORE_MONTH = [-1]], then for each [dim] of
    [_DAYS_IN_MONTH[1:]]: append [dbm]; [dbm += dim]. *)
Definition _DAYS_BEFORE_MONTH : list Z :=
  fst (List.fold_left
         (fun (st : list Z * Z) (dim : Z) =>
            let '(l, dbm) := st in (l ++ [dbm], (dbm + dim)%Z))
         (List.tail _DAYS_IN_MONTH) ([(-1)%Z], 0%Z)).

Definition _days_before_year (year : Z) : Z :=
  let y := (year - 1)%Z in
  (y * 365 + y / 4 - y / 100 + y / 400)%Z.

Definition _days_in_month (year month : Z) : outcome Z :=
  oassert ((1 <=? month) && (month <=? 12))%Z ;;+
  if (month =? 2)%Z && is_leap year then Done 29%Z
  else getitem _DAYS_IN_MONTH month.

Definition _days_before_month (year month : Z) : outcome Z :=
  oassert ((1 <=? month) && (month <=? 12))%Z ;;+
  let+ before := getitem _DAYS_BEFORE_MONTH month in
  Done (before + Z.b2z ((2 <? month)%Z && is_leap year))%Z.

Definition _ymd2ord (year month day : Z) : outcome Z :=
  oassert ((1 <=? month) && (month <=? 12))%Z ;;+
  let+ dim := _days_in_month year month in
  oassert ((1 <=? day) && (day <=? dim))%Z ;;+
  let+ before := _days_before_month year month in
  Done (_days_before_year year + before + day)%Z.

Definition _DI400Y : Z := _days_before_year 401.
Definition _DI100Y : Z := _days_before_year 101.
Definition _DI4Y : Z := _days_before_year 5.

(** The end of [_ord2ymd]: month and day of the [n]-th day (from 0) of a
    year that is a leap year or not. *)
Definition month_and_day (year : Z) (leapyear : bool) (n : Z) : outcome (Z * Z * Z) :=
  let month := Z.shiftr (n + 50) 5 in
  let+ before := getitem _DAYS_BEFORE_MONTH month in
  let preceding := (before + Z.b2z ((2 <? month)%Z && leapyear))%Z in
  let+ estimate :=
    if (n <? preceding)%Z then                         (* estimate is too large *)
      let month := (month - 1)%Z in
      let+ dim := getitem _DAYS_IN_MONTH month in
      Done (month, (preceding - (dim + Z.b2z ((month =? 2)%Z && leapyear)))%Z)
    else Done (month, preceding) in
  let '(month, preceding) := estimate in
  let n := (n - preceding)%Z in
  let+ dim := _days_in_month year month in
  oassert ((0 <=? n) && (n <? dim))%Z ;;+
  Done (year, month, (n + 1)%Z).

Definition _ord2ymd (n : Z) : outcome (Z * Z * Z) :=
  let n := (n - 1)%Z in
  let n400 := (n / _DI400Y)%Z in
  let n := (n mod _DI400Y)%Z in
  let year := (n400 * 400 + 1)%Z in
  let n100 := (n / _DI100Y)%Z in
  let n := (n mod _DI100Y)%Z in
  let n4 := (n / _DI4Y)%Z in
  let n := (n mod _DI4Y)%Z in
  let n1 := (n / 365)%Z in
  let n := (n mod 365)%Z in
  let year := (year + (n100 * 100 + n4 * 4 + n1))%Z in
  if ((n1 =? 4) || (n100 =? 4))%Z then
    oassert (n =? 0)%Z ;;+
    Done ((year - 1)%Z, 12%Z, 31%Z)
  else
    let leapyear := ((n1 =? 3) && (negb (n4 =? 24) || (n100 =? 3)))%Z in
    oassert (Bool.eqb leapyear (is_leap year)) ;;+
    month_and_day year leapyear n.

(** [d.toordinal()] *)
Definition toordinal (d : date) : outcome Z :=
  _ymd2ord (year d) (month d) (day d).

(** [date.fromordinal(n)] *)
Definition fromordinal (n : Z) : outcome date :=
  let+ ymd := _ord2ymd n in
  let '(y, m, d) := ymd in
  lift (date_new y m d).

(** [timedelta(days=...)], for a whole number of days *)
Record timedelta : Type := Timedelta { days : Z }.

Definition timedelta_new (d : Z) : outcome timedelta :=
  if (999999999 <? Z.abs d)%Z then Fail OverflowError
  else Done (Timedelta d).

(** [date + timedelta] *)
Definition date_add (self : date) (other : timedelta) : outcome date :=
  let+ ordinal := toordinal self in
  let o := (ordinal + days other)%Z in
  if ((0 <? o) && (o <=? _MAXORDINAL))%Z then fromordinal o
  else Fail OverflowError.

(** [date - timedelta] *)
Definition date_sub (self : date) (other : timedelta) : outcome date :=
  let+ negated := timedelta_new (- days other) in
  date_add self negated.

(** [_cmp((y, m, d), (y2, m2, d2))]: the order of tuples *)
Definition date_cmp (self other : date) : comparison :=
  match (year self ?= year other)%Z with
  | Eq => match (month self ?= month other)%Z with
          | Eq => (day self ?= day other)%Z
          | c => c
          end
  | c => c
  end.

Definition date_le (self other : date) : bool :=
  match date_cmp self other with
  | Gt => false
  | _ => true
  end.

Definition date_eqb (self other : date) : bool :=
  match date_cmp self other with
  | Eq => true
  | _ => false
  end.
(** ** More of the browser *)

(** [locator.select_option(label=...)] *)
Class Forms (Page : Type) : Type := {
  select_option : Page -> str -> str -> Page
}.

(** [locator.nth(i)], by its selector *)
Definition nth_locator (selector : str) (i : Z) : str :=
  selector ++ lit " >> nth=" ++ lit (NilZero.string_of_int (Z.to_int i)).

(** [range(a, b)] *)
Definition range (a b : Z) : list Z :=
  List.map (fun k => (a + Z.of_nat k)%Z) (List.seq 0 (Z.to_nat (b - a))).

(** ** tests/recent_sales/test_rsp_invoice_date_field.py, the checks *)

Module InvoiceDateFieldTest.
Import InvoiceDateField.

Definition find_invoice_date_header `{Browser Page} (page : Page) : outcome str :=
  let header := lit "th >> a[href*='sort=invoice_date']" in
  let header :=
    if (locator_count page header =? 0)%Z
    then lit "th >> a[href*='sort=-invoice_date']"
    else header in
  oassert (locator_count page header =? 1)%Z ;;+
  lift (wait_for page header) ;;+
  Done header.

Definition invoice_date_cells : str :=
  lit "td.invoice_date, td.invoice-date, td.invoiceDate".

Definition get_first_invoice_date_cell `{Browser Page} (page : Page) : outcome str :=
  let cell := invoice_date_cells in
  lift (wait_for page cell) ;;+
  Done cell.

(** [today] is what [date.today()] returns. *)
Definition verify_first_date_within_days `{Browser Page} (page : Page)
    (today : date) (max_days : Z) : outcome unit :=
  let+ cell := get_first_invoice_date_cell page in
  let raw_text := strip (locator_inner_text page cell) in
  oassert (negb (str_eqb raw_text [])) ;;+
  let+ inv_date := lift (parse_invoice_date raw_text) in
  let+ delta := timedelta_new max_days in
  let+ min_date := date_sub today delta in
  oassert (date_le min_date inv_date && date_le inv_date today).

(** The inner function [_exercise_invoice_date_option] of
    [test_rsp_invoice_date_field]; [clock page] is what [date.today()]
    returns while the browser shows [page].  The count it assigns to
    [total_record_count] is not read again. *)
Definition _exercise_invoice_date_option `{Browser Page} `{Forms Page}
    (clock : Page -> date) (label : str) (max_days : Z) (page : Page)
    : Page * outcome unit :=
  let invoice_date_dropdown := lit "#id_invoice_date" in
  let search_button := lit "button[type='submit'].btn.btn-primary >> text=Search" in
  let page := select_option page invoice_date_dropdown label in
  let selected_label :=
    strip (locator_inner_text page (within invoice_date_dropdown (lit "option:checked"))) in
  if negb (str_eqb selected_label label) then (page, Fail (Builtin AssertionError))
  else if negb (locator_visible page search_button) then (page, Fail (Builtin TimeoutError))
  else
    let page := click page search_button in
    match get_total_record_count page with
    | Raise e => (page, Fail (Builtin e))
    | Return total_record_count =>
        if (total_record_count =? 0)%Z then (page, pytest_skip)
        else if (total_record_count =? 1)%Z
        then (page, verify_first_date_within_days page (clock page) max_days)
        else
          match find_invoice_date_header page with
          | Fail e => (page, Fail e)
          | Done invoice_date_header =>
              let page := click page invoice_date_header in            (* sort Asc *)
              match verify_first_date_within_days page (clock page) max_days with
              | Fail e => (page, Fail e)
              | Done _ =>
                  match find_invoice_date_header page with
                  | Fail e => (page, Fail e)
                  | Done invoice_date_header =>
                      let page := click page invoice_date_header in    (* sort Desc *)
                      (page, verify_first_date_within_days page (clock page) max_days)
                  end
              end
          end
    end.

End InvoiceDateFieldTest.

(** ** tests/recent_sales/test_rsp_invoice_date_start_end_fields.py, the
    search for the start date *)

Module InvoiceDateRangeTest.
Import InvoiceDateStartEndFields.

Definition table_rows : str := lit "tbody tr".

(** The inner function [_get_invoice_date_from_row]. *)
Definition _get_invoice_date_from_row `{Browser Page} (page : Page) (row_index : Z)
    : outcome date :=
  let row := nth_locator table_rows row_index in
  if (locator_count page row =? 0)%Z then pytest_skip
  else
    let row_cell := within row (lit "td.invoice_date, td.invoice-date, td.invoiceDate") in
    lift (wait_for page row_cell) ;;+
    let raw := strip (locator_inner_text page row_cell) in
    oassert (negb (str_eqb raw [])) ;;+
    lift (parse_invoice_date raw).

(** The loop [for idx in range(1, 50)]; the value is [different_date]. *)
Fixpoint different_date_loop `{Browser Page} (page : Page) (latest_date : date)
    (indices : list Z) : outcome (option date) :=
  match indices with
  | [] => Done None
  | idx :: indices' =>
      let row := nth_locator table_rows idx in
      if (locator_count page row =? 0)%Z then Done None                  (* break *)
      else
        match _get_invoice_date_from_row page idx with
        | Fail (Builtin AssertionError) =>
            different_date_loop page latest_date indices'                (* continue *)
        | Fail e => Fail e
        | Done row_date =>
            if negb (date_eqb row_date latest_date) then Done (Some row_date)   (* break *)
            else different_date_loop page latest_date indices'
        end
  end.

(** From the loop to [start_date = different_date]. *)
Definition find_start_date `{Browser Page} (page : Page) (latest_date : date)
    : outcome date :=
  let+ different_date := different_date_loop page latest_date (range 1 50) in
  match different_date with
  | None => Fail (Builtin AssertionError)
  | Some start_date => Done start_date
  end.

End InvoiceDateRangeTest.

(** ** tests/recent_sales/test_rsp_model_field.py, the final validation *)

Module ModelFieldTest.
Import ModelField.

(** The loop [for idx in range(total_record_count)]. *)
Fixpoint model_cells_loop `{Browser Page} (page : Page) (normalized_expected : str)
    (indices : list Z) : outcome unit :=
  match indices with
  | [] => Done tt
  | idx :: indices' =>
      let cell := nth_locator model_cells idx in
      lift (wait_for page cell) ;;+
      let text := strip (locator_inner_text page cell) in
      oassert (negb (str_eqb text [])) ;;+
      oassert (str_eqb (casefold text) normalized_expected) ;;+
      model_cells_loop page normalized_expected indices'
  end.

(** What follows the prefix iteration. *)
Definition final_validation `{Browser Page} (page : Page) (full_model_name : str)
    (total_record_count : Z) : outcome unit :=
  oassert (0 <? total_record_count)%Z ;;+
  if (total_record_count <=? 25)%Z then
    let visible_count := locator_count page model_cells in
    oassert (total_record_count <=? visible_count)%Z ;;+
    let normalized_expected := casefold full_model_name in
    model_cells_loop page normalized_expected (range 0 total_record_count)
  else Done tt.

End ModelFieldTest.
(** ** Days of the calendar

    The calendar as a sequence of days, against which the date arithmetic
    is stated. *)

(** The number of a day, 0001-01-01 being day 1: what [toordinal] returns
    for a valid date, without its assertions. *)
Definition day_number (d : date) : Z :=
  (_days_before_year (year d)
   + (List.nth (Z.to_nat (month d)) _DAYS_BEFORE_MONTH 0
      + Z.b2z ((2 <? month d) && is_leap (year d)))
   + day d)%Z.

(** A date of the calendar, of the years 1 to 9999. *)
Definition valid (d : date) : bool := valid_date (year d) (month d) (day d).

(** The day after [d]. *)
Definition next_day (d : date) : date :=
  if (day d <? days_in_month (year d) (month d))%Z
  then Date (year d) (month d) (day d + 1)
  else if (month d <? 12)%Z then Date (year d) (month d + 1) 1
  else Date (year d + 1) 1 1.

(** The [n]-th day after [d]. *)
Fixpoint days_after (n : nat) (d : date) : date :=
  match n with
  | O => d
  | S n' => next_day (days_after n' d)
  end.

(** The days of the year [y] that precede the day [d] of the month [m]. *)
Definition offset_in_year (y m d : Z) : Z :=
  (List.nth (Z.to_nat m) _DAYS_BEFORE_MONTH 0 + Z.b2z ((2 <? m) && is_leap y) + d - 1)%Z.

(** [today] is the day of [inv_date] or one of the [max_days] days after it. *)
Definition within_days (inv_date today : date) (max_days : Z) : Prop :=
  exists k : nat, (Z.of_nat k <= max_days)%Z /\ days_after k inv_date = today.

(** [d] lies [n] days before [today]; after it when [n] is negative. *)
Definition days_before (d today : date) (n : Z) : Prop :=
  if (0 <=? n)%Z then days_after (Z.to_nat n) d = today
  else days_after (Z.to_nat (- n)) today = d.
(** ** What the checks of the tests look at *)

(** The first invoice date cell of the page shows a date that lies within
    the [max_days] days up to [today]. *)
Definition shows_recent_date `{Browser Page} (page : Page) (today : date)
    (max_days : Z) : Prop :=
  locator_visible page InvoiceDateFieldTest.invoice_date_cells = true /\
  exists inv_date : date,
    InvoiceDateField.parse_invoice_date
      (locator_inner_text page InvoiceDateFieldTest.invoice_date_cells) = Return inv_date /\
    within_days inv_date today max_days.

(** The scripted browser moves on when an option is selected. *)
Global Instance scripted_forms : Forms (list snapshot) := {|
  select_option script _ _ := List.tl script
|}.

(** The search for the start date goes past row [idx]: the row is there,
    and it is malformed or shows the date of the first row. *)
Definition passed_over `{Browser Page} (page : Page) (latest_date : date) (idx : Z) : Prop :=
  locator_count page (nth_locator InvoiceDateRangeTest.table_rows idx) <> 0%Z /\
  (InvoiceDateRangeTest._get_invoice_date_from_row page idx = Fail (Builtin AssertionError) \/
   InvoiceDateRangeTest._get_invoice_date_from_row page idx = Done latest_date).

(** The [idx]-th model cell is shown, and its stripped text is not empty
    and is, caseless, [normalized_expected]. *)
Definition cell_matches `{Browser Page} (page : Page) (normalized_expected : str)
    (idx : Z) : Prop :=
  locator_visible page (nth_locator ModelField.model_cells idx) = true /\
  strip (locator_inner_text page (nth_locator ModelField.model_cells idx)) <> [] /\
  casefold (strip (locator_inner_text page (nth_locator ModelField.model_cells idx))) =
  normalized_expected.

(** ** What an environment file assigns *)

(** The assignments of the file, in the order of its lines. *)
Definition assignments (text : str) : list (str * str) :=
  omap Conftest.parse_line (splitlines text).

(** The value of the first assignment to [key]. *)
Fixpoint first_assigned (key : str) (l : list (str * str)) : option str :=
  match l with
  | [] => None
  | (k, v) :: l' => if str_eqb k key then Some v else first_assigned key l'
  end.

(** ** More scripted pages *)

(** A Recent Sales list that shows [count] as its total, [label] as the
    selected Invoice Date option and [first_date] in its first invoice date
    cell, with one sortable Invoice Date header. *)
Definition invoice_date_page (count label first_date : string) : snapshot :=
  {| snap_url := lit "https://host/salesdata/";
     snap_visible := [lit "button[type='submit'].btn.btn-primary >> text=Search";
                      lit "p:has-text('Total Record Count')";
                      lit "th >> a[href*='sort=invoice_date']";
                      InvoiceDateFieldTest.invoice_date_cells];
     snap_counts := [(lit "th >> a[href*='sort=invoice_date']", 1%Z)];
     snap_texts := [(within (lit "#id_invoice_date") (lit "option:checked"), lit label);
                    (lit "p:has-text('Total Record Count')",
                     lit "Total Record Count " ++ lit count);
                    (InvoiceDateFieldTest.invoice_date_cells, lit first_date)];
     snap_all_texts := [];
     snap_attributes := [] |}.
(** * Properties *)

(** ** The examples of the docstrings *)

Example alternating_MF_123 :
  List.map (ModelField.build_alternating_case_prefix (lit "MF-123")) [1; 2; 3; 4]%Z =
  List.map lit ["m"; "mF"; "mF-"; "mF-1"]%string.
Proof. vm_compute. reflexivity. Qed.

Example alternating_Honeywell :
  List.map (ManufacturerField.build_alternating_case_prefix (lit "Honeywell")) [1; 2; 3; 4]%Z =
  List.map lit ["h"; "hO"; "hOn"; "hOnE"]%string.
Proof. vm_compute. reflexivity. Qed.

Example invoice_date_formats :
  List.map InvoiceDateField.parse_invoice_date
    (List.map lit ["2025-10-30"; "10/30/2025"; "10/30/25"; "Oct. 30, 2025";
                   "Oct 30, 2025"; "October 30, 2025"]%string) =
  List.repeat (Return (Date 2025 10 30)) 6.
Proof. vm_compute. reflexivity. Qed.

Example invoice_date_unrecognized :
  List.map InvoiceDateField.parse_invoice_date
    (List.map lit ["30.10.2025"; "2025-02-30"; "Octo 30, 2025"; ""]%string) =
  List.repeat (Raise AssertionError) 4.
Proof. vm_compute. reflexivity. Qed.

Example total_record_count_examples :
  List.map ModelField.total_record_count_of_text
    (List.map lit ["Total Record Count 123"; "  Total Record Count   0 ";
                   "Total Record Count: 5"; "Total Record Count"]%string) =
  [Return 123%Z; Return 0%Z; Raise AssertionError; Raise AssertionError].
Proof. vm_compute. reflexivity. Qed.



(** ** Alternating-case prefixes *)

Section AlternatingCase.
Import ModelField.

Lemma parity_of_nat (k : nat) : (Z.of_nat k mod 2 =? 0)%Z = Nat.even k.
Proof.
  destruct (Nat.even k) eqn:E.
  - apply Nat.even_spec in E. destruct E as [m ->].
    apply Z.eqb_eq. rewrite Nat2Z.inj_mul. simpl Z.of_nat.
    rewrite Z.mul_comm. apply Z.mod_mul. lia.
  - apply Z.eqb_neq. intros Hm.
    assert (Ho : Nat.odd k = true) by (rewrite <- Nat.negb_even, E; reflexivity).
    apply Nat.odd_spec in Ho. destruct Ho as [m ->].
    rewrite Nat2Z.inj_add, Nat2Z.inj_mul in Hm. simpl Z.of_nat in Hm.
    rewrite Z.add_comm, Z.mul_comm, Z.mod_add in Hm by lia.
    discriminate Hm.
Qed.

Lemma alpha_before_app_length (pre suf : str) :
  alpha_before (pre ++ suf) (List.length pre) = List.length (List.filter isalpha pre).
Proof. unfold alpha_before. rewrite take_app_length. reflexivity. Qed.

Lemma filter_isalpha_snoc (pre : str) (c : char) :
  List.length (List.filter isalpha (pre ++ [c])) =
  (List.length (List.filter isalpha pre) + (if isalpha c then 1 else 0))%nat.
Proof.
  rewrite List.filter_app, List.length_app. simpl.
  destruct (isalpha c); reflexivity.
Qed.

(** The loop of [build_alternating_case_prefix], started anywhere inside
    [base]: it appends one piece per character. *)
Lemma alternate_fold (suf pre : str) (acc : list str) :
  List.fold_left alternate_step suf
    (acc, Z.of_nat (List.length (List.filter isalpha pre))) =
  (acc ++ imap (fun i ch => alternated (pre ++ suf) (List.length pre + i) ch) suf,
   Z.of_nat (List.length (List.filter isalpha (pre ++ suf)))).
Proof.
  revert pre acc. induction suf as [|c suf IH]; intros pre acc.
  - simpl. rewrite !app_nil_r. reflexivity.
  - cbn [List.fold_left]. unfold alternate_step at 2.
    rewrite parity_of_nat.
    assert (Hstep :
      (if isalpha c
       then if Nat.even (List.length (List.filter isalpha pre))
            then (acc ++ [lower c], (Z.of_nat (List.length (List.filter isalpha pre)) + 1)%Z)
            else (acc ++ [upper c], (Z.of_nat (List.length (List.filter isalpha pre)) + 1)%Z)
       else (acc ++ [[c]], Z.of_nat (List.length (List.filter isalpha pre)))) =
      (acc ++ [alternated (pre ++ c :: suf) (List.length pre) c],
       Z.of_nat (List.length (List.filter isalpha (pre ++ [c]))))).
    { unfold alternated. rewrite alpha_before_app_length, filter_isalpha_snoc.
      destruct (isalpha c); [destruct (Nat.even _)|]; f_equal; lia. }
    rewrite Hstep, IH. rewrite <- !app_assoc. cbn [app].
    f_equal. rewrite imap_cons. rewrite Nat.add_0_r. f_equal. f_equal.
    apply imap_ext. intros i x _. cbn. rewrite List.length_app. cbn.
    f_equal. lia.
Qed.

Lemma slice_to_of_nat (base : str) (n : nat) : slice_to base (Z.of_nat n) = take n base.
Proof.
  unfold slice_to.
  destruct (Z.ltb_spec (Z.of_nat n) 0) as [H|H]; [lia|].
  rewrite Nat2Z.id. reflexivity.
Qed.

Lemma alternated_take (base : str) (n p : nat) (ch : char) :
  (p < n)%nat -> alternated (take n base) p ch = alternated base p ch.
Proof.
  intros Hp. unfold alternated, alpha_before.
  rewrite take_take. replace (p `min` n)%nat with p by lia. reflexivity.
Qed.

(** The result, piece by piece. *)
Lemma build_pieces (base : str) (n : nat) :
  build_alternating_case_prefix base (Z.of_nat n) =
  List.concat (imap (alternated base) (take n base)).
Proof.
  unfold build_alternating_case_prefix. rewrite slice_to_of_nat.
  pose proof (alternate_fold (take n base) [] []) as H.
  change (List.length (List.filter isalpha [])) with 0%nat in H.
  change (Z.of_nat 0) with 0%Z in H. change ([] ++ take n base) with (take n base) in H.
  rewrite H. cbn. f_equal. apply imap_ext. intros i x Hi.
  apply alternated_take. apply lookup_lt_Some in Hi.
  rewrite length_take in Hi. lia.
Qed.

Lemma case_stable_length (base : str) (p : nat) (c : char) :
  case_stable c = true -> List.length (alternated base p c) = 1%nat.
Proof.
  unfold case_stable, alternated. intros H.
  destruct (isalpha c); [|reflexivity]. cbn in H.
  apply andb_prop in H as [H _]. apply andb_prop in H as [H _].
  apply andb_prop in H as [Hl Hu].
  apply Nat.eqb_eq in Hl, Hu. destruct (Nat.even _); assumption.
Qed.

Lemma case_stable_casefold (base : str) (p : nat) (c : char) :
  case_stable c = true -> casefold (alternated base p c) = casefold_char c.
Proof.
  unfold case_stable, alternated. intros H.
  destruct (isalpha c); [|cbn; apply app_nil_r]. cbn in H.
  apply andb_prop in H as [H Hu]. apply andb_prop in H as [H Hl].
  unfold str_eqb in Hl, Hu. apply bool_decide_eq_true in Hl, Hu.
  destruct (Nat.even _); assumption.
Qed.

Lemma casefold_app (a b : str) : casefold (a ++ b) = casefold a ++ casefold b.
Proof. unfold casefold. apply List.flat_map_app. Qed.

Lemma pieces_stable (f : nat -> char -> str) (s : str) :
  Forall (fun c => forall p, List.length (f p c) = 1%nat /\ casefold (f p c) = casefold_char c) s ->
  List.length (List.concat (imap f s)) = List.length s /\
  casefold (List.concat (imap f s)) = casefold s.
Proof.
  revert f. induction s as [|c s IH]; intros f H; [split; reflexivity|].
  inversion H as [|? ? Hc Hs]; subst.
  rewrite imap_cons. cbn [List.concat].
  destruct (Hc 0%nat) as [Hlen Hfold].
  destruct (IH (f ∘ S)) as [IHl IHf].
  { eapply Forall_impl; [exact Hs|]. intros x Hx p. apply Hx. }
  split.
  - rewrite List.length_app, Hlen, IHl. reflexivity.
  - rewrite casefold_app, Hfold, IHf. reflexivity.
Qed.

Lemma ascii_case_stable (c : char) : is_ascii c = true -> case_stable c = true.
Proof.
  unfold is_ascii. intros H. apply N.ltb_lt in H.
  assert (Hall : forallb case_stable (List.map N.of_nat (List.seq 0 128)) = true)
    by (vm_compute; reflexivity).
  rewrite forallb_forall in Hall. apply Hall.
  apply in_map_iff. exists (N.to_nat c). split; [apply N2Nat.id|].
  apply in_seq. lia.
Qed.

Lemma single_case_piece (base : str) (p : nat) (c : char) :
  single_case c = true ->
  exists x, alternated base p c = [x] /\ (isalpha c = false -> x = c).
Proof.
  unfold single_case, alternated. intros H.
  destruct (isalpha c).
  - cbn [negb orb] in H. apply andb_prop in H as [Hl Hu].
    apply Nat.eqb_eq in Hl, Hu.
    destruct (Nat.even _).
    + destruct (lower c) as [|x [|? ?]]; try discriminate. exists x. split; [reflexivity|discriminate].
    + destruct (upper c) as [|x [|? ?]]; try discriminate. exists x. split; [reflexivity|discriminate].
  - exists c. split; reflexivity.
Qed.

Lemma case_stable_single (c : char) : case_stable c = true -> single_case c = true.
Proof.
  unfold case_stable, single_case. destruct (isalpha c); [|reflexivity].
  cbn [negb orb]. intros H. apply andb_prop in H as [H _]. apply andb_prop in H as [H _].
  exact H.
Qed.

(** Pieces of one character each keep the length and the positions. *)
Lemma concat_singletons_length (f : nat -> char -> str) (s : str) :
  (forall i a, s !! i = Some a -> List.length (f i a) = 1%nat) ->
  List.length (List.concat (imap f s)) = List.length s.
Proof.
  revert f. induction s as [|a s IH]; intros f Hall; [reflexivity|].
  rewrite imap_cons. cbn [List.concat]. rewrite List.length_app.
  rewrite (Hall 0%nat a eq_refl). cbn [List.length Nat.add]. f_equal.
  apply (IH (f ∘ S)). intros i a' Hi. apply (Hall (S i) a'). exact Hi.
Qed.

Lemma concat_singletons_lookup (f : nat -> char -> str) (s : str) (p : nat) (c x : char) :
  (forall i a, s !! i = Some a -> List.length (f i a) = 1%nat) ->
  s !! p = Some c -> f p c = [x] ->
  List.concat (imap f s) !! p = Some x.
Proof.
  revert f p. induction s as [|a s IH]; intros f p Hall Hp Hx; [discriminate|].
  rewrite imap_cons. cbn [List.concat].
  pose proof (Hall 0%nat a eq_refl) as Ha.
  destruct (f 0%nat a) as [|y [|? ?]] eqn:Ef; try discriminate.
  destruct p as [|p].
  - cbn in Hp. injection Hp as ->. rewrite Ef in Hx. injection Hx as ->. reflexivity.
  - apply (IH (f ∘ S) p).
    + intros i a' Hi. apply (Hall (S i) a'). exact Hi.
    + exact Hp.
    + exact Hx.
Qed.

End AlternatingCase.

(** C2 as stated fails.  A character is not always returned in its
    position: the uppercase of U+00DF (sharp s) is [SS], so for the base
    made of [a], U+00DF and a dash and length 3 the result has four
    characters and the dash, which is not alphabetic, is at index 3, not
    at index 2. *)
Lemma alternating_prefix_position_counterexample :
  isalpha 45 = false /\ [97; 223; 45] !! 2%nat = Some 45 /\
  ModelField.build_alternating_case_prefix [97; 223; 45] 3 = [97; 83; 83; 45] /\
  ModelField.build_alternating_case_prefix [97; 223; 45] 3 !! 2%nat <> Some 45 /\
  List.length (ModelField.build_alternating_case_prefix [97; 223; 45] 3) <>
    Nat.min 3 (List.length [97; 223; 45]).
Proof. repeat split; vm_compute; congruence. Qed.

(** C2, amended.  For every base and every natural length, the result of
    [build_alternating_case_prefix] is the concatenation, in order, of what
    each of the first [min length (len base)] characters of [base]
    becomes: the [k]-th alphabetic character (counting alphabetic
    characters only, from 0) its lowercase form when [k] is even and its
    uppercase form when [k] is odd, every other character itself.  When
    the lowercase and uppercase forms of the alphabetic characters of the
    prefix are single characters, the result has exactly
    [min length (len base)] characters and each character stands in its
    position: position [p] holds what the [p]-th character of [base]
    becomes, and a character that is not alphabetic is unchanged there.
    Every ASCII character is of that kind. *)
Theorem build_alternating_case_prefix_spec (base : str) (length : nat) :
  ModelField.build_alternating_case_prefix base (Z.of_nat length) =
    List.concat
      (imap (alternated base) (firstn (Nat.min length (List.length base)) base)) /\
  (Forall (fun c => single_case c = true) (firstn length base) ->
   List.length (ModelField.build_alternating_case_prefix base (Z.of_nat length)) =
     Nat.min length (List.length base) /\
   forall (p : nat) (ch : char),
     (p < length)%nat -> base !! p = Some ch ->
     exists x,
       alternated base p ch = [x] /\
       ModelField.build_alternating_case_prefix base (Z.of_nat length) !! p = Some x /\
       (isalpha ch = false -> x = ch)) /\
  (forall c, is_ascii c = true -> single_case c = true).
Proof.
  split; [|split].
  - rewrite build_pieces. f_equal. f_equal.
    destruct (Nat.le_gt_cases length (List.length base)) as [H|H].
    + rewrite Nat.min_l by assumption. reflexivity.
    + rewrite Nat.min_r by lia. rewrite !firstn_all2 by lia. reflexivity.
  - intros Hsingle. rewrite build_pieces.
    assert (Hall : forall i a, take length base !! i = Some a ->
                     List.length (alternated base i a) = 1%nat).
    { intros i a Hi. rewrite List.Forall_forall in Hsingle.
      destruct (single_case_piece base i a) as (x & -> & _); [|reflexivity].
      apply Hsingle. apply list_elem_of_In. eapply list_elem_of_lookup_2. exact Hi. }
    split.
    + rewrite (concat_singletons_length _ _ Hall). apply length_take.
    + intros p ch Hp Hch.
      assert (Hin : take length base !! p = Some ch).
      { rewrite lookup_take_lt by exact Hp. exact Hch. }
      destruct (single_case_piece base p ch) as (x & Hx & Hkeep).
      { rewrite List.Forall_forall in Hsingle. apply Hsingle.
        apply list_elem_of_In. eapply list_elem_of_lookup_2. exact Hin. }
      exists x. split; [exact Hx|]. split; [|exact Hkeep].
      apply (concat_singletons_lookup _ _ p ch x Hall Hin Hx).
  - intros c Hc. apply case_stable_single, ascii_case_stable. exact Hc.
Qed.

Lemma build_alternating_case_prefix_spec_witness :
  List.length (ModelField.build_alternating_case_prefix (lit "MF-123") 4) = 4%nat /\
  ModelField.build_alternating_case_prefix (lit "MF-123") 4 !! 2%nat = Some 45.
Proof.
  destruct (build_alternating_case_prefix_spec (lit "MF-123") 4) as (_ & Hplace & _).
  destruct Hplace as [Hlen Hpos]; [repeat constructor|].
  split; [exact Hlen|].
  destruct (Hpos 2%nat 45 ltac:(lia) eq_refl) as (x & _ & Hx & Hkeep).
  exact (eq_trans Hx (f_equal Some (Hkeep eq_refl))).
Defined.

(** C9 as stated fails.  The uppercase of U+00DF (sharp s) is [SS], so for
    the base made of [a] and U+00DF and length 2 the result has three
    characters.  The uppercase of U+0131 (dotless i) is [I], which folds to
    [i], so for the base made of [a] and U+0131 the result does not fold to
    the fold of the plain prefix. *)
Lemma alternating_prefix_length_counterexample :
  List.length (ModelField.build_alternating_case_prefix [97; 223] 2) <>
    Nat.min 2 (List.length [97; 223]) /\
  casefold (ModelField.build_alternating_case_prefix [97; 305] 2) <>
    casefold (slice_to [97; 305] 2).
Proof. split; vm_compute; discriminate. Qed.

(** C9, amended.  For lengths [i <= j] the length-[i] result is a prefix of
    the length-[j] result, for every base.  When every alphabetic character
    of the length-[i] prefix has one-character lowercase and uppercase forms
    that fold like the character itself, the result has exactly
    [min i (len base)] characters and folds to the fold of the plain
    prefix.  Every ASCII character is of that kind. *)
Theorem alternating_prefix_relations (base : str) (i j : nat) :
  ((i <= j)%nat ->
   ModelField.build_alternating_case_prefix base (Z.of_nat i)
     `prefix_of` ModelField.build_alternating_case_prefix base (Z.of_nat j)) /\
  (Forall (fun c => case_stable c = true) (firstn i base) ->
   List.length (ModelField.build_alternating_case_prefix base (Z.of_nat i)) =
     Nat.min i (List.length base) /\
   casefold (ModelField.build_alternating_case_prefix base (Z.of_nat i)) =
     casefold (slice_to base (Z.of_nat i))) /\
  (forall c, is_ascii c = true -> case_stable c = true).
Proof.
  rewrite !build_pieces, slice_to_of_nat. split; [|split].
  - intros Hij. replace (take j base) with (take i base ++ drop i (take j base)).
    + rewrite imap_app, List.concat_app. eexists. reflexivity.
    + rewrite <- (take_drop i (take j base)) at 2. f_equal.
      rewrite take_take. f_equal. lia.
  - intros Hst.
    destruct (pieces_stable (alternated base) (take i base)) as [Hl Hf].
    + eapply Forall_impl; [exact Hst|]. intros c Hc p. split.
      * apply case_stable_length; assumption.
      * apply case_stable_casefold; assumption.
    + split; [|exact Hf]. rewrite Hl, length_take. reflexivity.
  - exact ascii_case_stable.
Qed.

Lemma alternating_prefix_relations_witness :
  ModelField.build_alternating_case_prefix (lit "MF-123") 2
    `prefix_of` ModelField.build_alternating_case_prefix (lit "MF-123") 4 /\
  List.length (ModelField.build_alternating_case_prefix (lit "MF-123") 2) = 2%nat /\
  casefold (ModelField.build_alternating_case_prefix (lit "MF-123") 2) =
    casefold (slice_to (lit "MF-123") 2).
Proof.
  destruct (alternating_prefix_relations (lit "MF-123") 2 4) as (Hprefix & Hstable & _).
  split.
  - apply Hprefix. lia.
  - apply Hstable. repeat constructor.
Defined.

(** C10. The copies of the helpers are extensionally equal: the two
    [parse_invoice_date] return the same date or raise the same exception
    on every text, and the three [build_alternating_case_prefix] return the
    same string for every base and length. *)
Theorem duplicated_helpers_agree :
  (forall text : str,
     InvoiceDateField.parse_invoice_date text =
     InvoiceDateStartEndFields.parse_invoice_date text) /\
  (forall (base : str) (length : Z),
     ManufacturerField.build_alternating_case_prefix base length =
       ModelField.build_alternating_case_prefix base length /\
     SourceIdField.build_alternating_case_prefix base length =
       ModelField.build_alternating_case_prefix base length).
Proof.
  split.
  - intros text. reflexivity.
  - intros base length. split; reflexivity.
Qed.

(** ** Invoice dates *)

Section InvoiceDates.

Lemma py_int_raises (s : str) (e : exn) : py_int s = Raise e -> e = ValueError.
Proof.
  unfold py_int. destruct (int_strip s) as [|c r].
  - destruct (digits_value 0 false []); [|congruence].
    destruct (_ <? _)%nat; [congruence|discriminate].
  - destruct (c =? 43); [|destruct (c =? 45)];
      (destruct (digits_value 0 false _); [|congruence];
       destruct (_ <? _)%nat; [congruence|discriminate]).
Qed.

Lemma list_index_raises (x : str) (l : list str) (e : exn) :
  list_index x l = Raise e -> e = ValueError.
Proof.
  induction l as [|y l IH]; cbn; [congruence|].
  destruct (str_eqb y x); [discriminate|].
  destruct (list_index x l); cbn; [discriminate|]. intros [= <-]. auto.
Qed.

Lemma date_new_raises (y m d : Z) (e : exn) : date_new y m d = Raise e -> e = ValueError.
Proof. unfold date_new. destruct (valid_date y m d); congruence. Qed.

Lemma convert_groups_raises (found : list (directive * str)) st (e : exn) :
  convert_groups found st = Raise e -> e = ValueError.
Proof.
  revert st. induction found as [|[k v] found IH]; intros [[yr mo] dy]; [discriminate|].
  cbn [convert_groups].
  destruct k;
    match goal with
    | |- context [py_int v] => destruct (py_int v) eqn:E
    | |- context [list_index ?x ?l] => destruct (list_index x l) eqn:E
    end;
    cbn [rbind];
    first [ apply IH
          | intros [= He]; subst;
            first [ eapply py_int_raises; eassumption
                  | eapply list_index_raises; eassumption ] ].
Qed.

Lemma format_items_raises (fmt : str) (b : bool) (e : exn) :
  format_items b fmt = Raise e -> e = ValueError.
Proof.
  remember (List.length fmt) as n eqn:Hn. revert fmt b Hn.
  induction n as [n IH] using lt_wf_ind. intros fmt b Hn.
  destruct fmt as [|c fmt]; cbn [format_items]; [intros H; discriminate H|].
  cbn [List.length] in Hn.
  assert (Hrec : forall b', format_items b' fmt = Raise e -> e = ValueError).
  { intros b'. apply (IH (List.length fmt)); [lia|reflexivity]. }
  destruct (isspace c).
  - destruct (format_items true fmt) as [rest|e0] eqn:E; cbn [rbind]; [intros H; discriminate H|].
    intros [= He]. subst e0. eapply Hrec; eassumption.
  - destruct (c =? 37).
    + destruct fmt as [|k fmt]; [congruence|].
      destruct (directive_of_char k); [|congruence].
      destruct (format_items false fmt) as [rest|e0] eqn:E; cbn [rbind]; [intros H; discriminate H|].
      intros [= He]. subst e0.
      eapply (IH (List.length fmt)); [cbn [List.length] in Hn; lia|reflexivity|eassumption].
    + destruct (format_items false fmt) as [rest|e0] eqn:E; cbn [rbind]; [intros H; discriminate H|].
      intros [= He]. subst e0. eapply Hrec; eassumption.
Qed.

(** [strptime] raises [ValueError], except for a format that names a
    directive twice. *)
Lemma strptime_raises (text fmt : str) (e : exn) :
  strptime text fmt = Raise e ->
  e = ValueError \/
  (e = ReError /\ exists items, format_items false fmt = Return items /\
                                ~ NoDup (item_directives items)).
Proof.
  unfold strptime. destruct (format_items false fmt) as [items|e0] eqn:Ei; cbn [rbind].
  2:{ intros [= <-]. left. eapply format_items_raises; eassumption. }
  destruct (bool_decide (NoDup (item_directives items))) eqn:Hnd; cbn [negb].
  2:{ intros [= <-]. right. split; [reflexivity|]. exists items. split; [reflexivity|].
      apply bool_decide_eq_false in Hnd. exact Hnd. }
  destruct (re_match _ text) as [[found rest]|]. 2:{ intros [= <-]; auto. }
  destruct rest. 2:{ intros [= <-]; auto. }
  destruct (convert_groups found _) as [[[yr mo] dy]|e0] eqn:Ec; cbn [rbind].
  2:{ intros [= <-]. left. eapply convert_groups_raises; eassumption. }
  intros H. left.
  destruct yr as [y|]; [|destruct ((mo =? 2)%Z && (dy =? 29)%Z)];
    cbn [rbind] in H;
    repeat match type of H with
           | context [date_new ?a ?b ?c] =>
               destruct (date_new a b c) eqn:?; cbn [rbind] in H
           end;
    first [ discriminate H
          | injection H as <-; eapply date_new_raises; eassumption ].
Qed.

Lemma suite_formats_only_ValueError (text : str) :
  only_ValueError text InvoiceDateField.POSSIBLE_FORMATS.
Proof.
  intros fmt e Hin H. destruct (strptime_raises _ _ _ H) as [He|[_ (items & Hi & Hnd)]];
    [exact He|]. exfalso. apply Hnd. clear Hnd H.
  unfold InvoiceDateField.POSSIBLE_FORMATS in Hin. cbn [List.map In] in Hin.
  repeat (destruct Hin as [<-|Hin];
          [vm_compute in Hi; injection Hi as <-;
           eapply bool_decide_unpack; vm_compute; exact I|]).
  destruct Hin.
Qed.

(** The loop over the candidate formats. *)
Lemma try_formats_returns (text : str) (formats : list str) (d : date) :
  only_ValueError text formats ->
  try_formats text formats = Return d <->
  exists i fmt, formats !! i = Some fmt /\ strptime text fmt = Return d /\
    forall j fmt', (j < i)%nat -> formats !! j = Some fmt' ->
                   strptime text fmt' = Raise ValueError.
Proof.
  induction formats as [|f formats IH]; intros Hv.
  - cbn. split; [discriminate|]. intros (i & fmt & Hi & _). destruct i; discriminate.
  - assert (Hv' : only_ValueError text formats).
    { intros fmt e Hin. apply Hv. right. exact Hin. }
    cbn [try_formats]. destruct (strptime text f) as [d0|e] eqn:Ef.
    + split.
      * intros [= <-]. exists 0%nat, f. repeat split; [assumption|]. intros j ? Hj. lia.
      * intros (i & fmt & Hi & Hs & Hbefore). destruct i as [|i].
        -- cbn in Hi. injection Hi as <-. congruence.
        -- specialize (Hbefore 0%nat f ltac:(lia) eq_refl). congruence.
    + assert (e = ValueError) as -> by (eapply Hv; [left; reflexivity|eassumption]).
      rewrite (IH Hv'). split.
      * intros (i & fmt & Hi & Hs & Hbefore). exists (S i), fmt. repeat split; try assumption.
        intros [|j] fmt' Hj Hl; [cbn in Hl; congruence|].
        apply (Hbefore j); [lia|exact Hl].
      * intros (i & fmt & Hi & Hs & Hbefore). destruct i as [|i].
        -- cbn in Hi. congruence.
        -- exists i, fmt. repeat split; try assumption.
           intros j fmt' Hj Hl. apply (Hbefore (S j)); [lia|exact Hl].
Qed.

Lemma try_formats_raises (text : str) (formats : list str) :
  only_ValueError text formats ->
  (forall e, try_formats text formats = Raise e -> e = AssertionError) /\
  (try_formats text formats = Raise AssertionError <->
   forall fmt, In fmt formats -> ~ matches_format text fmt).
Proof.
  induction formats as [|f formats IH]; intros Hv.
  - cbn. split; [congruence|]. split; [intros _ ? []|reflexivity].
  - assert (Hv' : only_ValueError text formats).
    { intros fmt e Hin. apply Hv. right. exact Hin. }
    destruct (IH Hv') as [IH1 IH2].
    cbn [try_formats]. destruct (strptime text f) as [d0|e] eqn:Ef.
    + split; [discriminate|]. split; [discriminate|].
      intros H. exfalso. apply (H f); [left; reflexivity|]. exists d0. exact Ef.
    + assert (e = ValueError) as -> by (eapply Hv; [left; reflexivity|eassumption]).
      split; [exact IH1|]. rewrite IH2. split.
      * intros H fmt [<-|Hin]; [intros [d Hd]; congruence|apply H; exact Hin].
      * intros H fmt Hin. apply H. right. exact Hin.
Qed.

End InvoiceDates.

(** The three outcomes of [parse_invoice_date]. *)
Lemma parse_invoice_date_outcomes (text : str) :
  (InvoiceDateField.parse_invoice_date text = Raise AssertionError <->
   forall fmt, In fmt InvoiceDateField.POSSIBLE_FORMATS ->
               ~ matches_format (strip text) fmt) /\
  (forall e, InvoiceDateField.parse_invoice_date text = Raise e -> e = AssertionError) /\
  ((exists fmt, In fmt InvoiceDateField.POSSIBLE_FORMATS /\
                matches_format (strip text) fmt) <->
   exists d, InvoiceDateField.parse_invoice_date text = Return d).
Proof.
  unfold InvoiceDateField.parse_invoice_date.
  destruct (try_formats_raises (strip text) InvoiceDateField.POSSIBLE_FORMATS
              (suite_formats_only_ValueError _)) as [Honly Hiff].
  split; [exact Hiff|]. split; [exact Honly|]. split.
  - intros (fmt & Hin & Hm).
    destruct (try_formats (strip text) InvoiceDateField.POSSIBLE_FORMATS) as [d|e] eqn:E;
      [exists d; reflexivity|].
    pose proof (Honly e eq_refl) as ->. exfalso.
    apply (proj1 Hiff eq_refl fmt Hin Hm).
  - intros [d Hd].
    apply (try_formats_returns _ _ _ (suite_formats_only_ValueError _)) in Hd.
    destruct Hd as (i & fmt & Hi & Hs & _). exists fmt. split.
    + apply list_elem_of_In. eapply list_elem_of_lookup_2. exact Hi.
    + exists d. exact Hs.
Qed.

(** C4. [parse_invoice_date] raises [AssertionError] exactly when the
    stripped text matches none of the six candidate formats; it raises
    nothing else, and it returns a date whenever some format matches. *)
Theorem parse_invoice_date_raises_iff_unrecognized (text : str) :
  (InvoiceDateField.parse_invoice_date text = Raise AssertionError <->
   forall fmt, In fmt InvoiceDateField.POSSIBLE_FORMATS ->
               ~ matches_format (strip text) fmt) /\
  (forall e, InvoiceDateField.parse_invoice_date text = Raise e -> e = AssertionError) /\
  ((exists fmt, In fmt InvoiceDateField.POSSIBLE_FORMATS /\
                matches_format (strip text) fmt) <->
   exists d, InvoiceDateField.parse_invoice_date text = Return d).
Proof. exact (parse_invoice_date_outcomes text). Qed.

(** ** Character classes and numbers *)

Section Numbers.

Lemma in_ranges_spec (rs : list (N * N)) (c : char) :
  Unicode.in_ranges rs c = true <-> exists lo hi, In (lo, hi) rs /\ lo <= c <= hi.
Proof.
  induction rs as [|[lo hi] rs IH]; cbn.
  - split; [discriminate|]. intros (? & ? & [] & _).
  - rewrite orb_true_iff, andb_true_iff, !N.leb_le, IH. split.
    + intros [H|(lo' & hi' & Hin & H)].
      * exists lo, hi. auto.
      * exists lo', hi'. auto.
    + intros (lo' & hi' & [Heq|Hin] & H).
      * injection Heq as -> ->. left. exact H.
      * right. exists lo', hi'. auto.
Qed.

Lemma ranges_apart_spec (rs1 rs2 : list (N * N)) (c : char) :
  ranges_apart rs1 rs2 = true ->
  Unicode.in_ranges rs1 c = true -> Unicode.in_ranges rs2 c = false.
Proof.
  intros Hap H1. destruct (Unicode.in_ranges rs2 c) eqn:H2; [|reflexivity].
  apply in_ranges_spec in H1 as (lo1 & hi1 & Hin1 & Hc1).
  apply in_ranges_spec in H2 as (lo2 & hi2 & Hin2 & Hc2).
  unfold ranges_apart in Hap. rewrite forallb_forall in Hap.
  specialize (Hap _ Hin1). rewrite forallb_forall in Hap. specialize (Hap _ Hin2).
  cbn in Hap. apply orb_true_iff in Hap as [H|H]; apply N.ltb_lt in H; lia.
Qed.

Lemma decimal_not_space (c : char) : isdecimal c = true -> isspace c = false.
Proof. apply ranges_apart_spec. vm_compute. reflexivity. Qed.

Lemma decimal_lookup_some (rs : list (N * N)) (c : char) :
  Unicode.in_ranges rs c = true -> exists d, Unicode.decimal_lookup rs c = Some d.
Proof.
  induction rs as [|[lo hi] rs IH]; cbn; [discriminate|].
  destruct ((lo <=? c) && (c <=? hi)); cbn; [eauto|exact IH].
Qed.

Lemma decimal_lookup_in (rs : list (N * N)) (c : char) (d : N) :
  Unicode.decimal_lookup rs c = Some d -> Unicode.in_ranges rs c = true.
Proof.
  induction rs as [|[lo hi] rs IH]; cbn; [discriminate|].
  destruct ((lo <=? c) && (c <=? hi)); cbn; [reflexivity|exact IH].
Qed.

Lemma isdecimal_value (c : char) :
  isdecimal c = true <-> exists d, decimal_value c = Some d.
Proof.
  split; [apply decimal_lookup_some|]. intros [d H]. eapply decimal_lookup_in. exact H.
Qed.

Lemma decimal_not_sign (c : char) :
  isdecimal c = true -> (c =? 43) = false /\ (c =? 45) = false /\ (c =? 95) = false.
Proof.
  intros H. repeat split; apply N.eqb_neq; intros ->; vm_compute in H; discriminate H.
Qed.

Lemma lstrip_head (c : char) (s : str) : isspace c = false -> lstrip (c :: s) = c :: s.
Proof. intros H. cbn [lstrip]. rewrite H. reflexivity. Qed.

Lemma rstrip_last (s : str) (c : char) : isspace c = false -> rstrip (s ++ [c]) = s ++ [c].
Proof.
  intros H. unfold rstrip. rewrite List.rev_app_distr. cbn [List.rev app].
  rewrite lstrip_head by exact H.
  change (c :: List.rev s) with ([c] ++ List.rev s).
  rewrite List.rev_app_distr, List.rev_involutive. reflexivity.
Qed.

(** A text that neither starts nor ends with whitespace is its own strip. *)
Lemma strip_clean (s : str) :
  (forall c s', s = c :: s' -> isspace c = false) ->
  (forall c s', s = s' ++ [c] -> isspace c = false) ->
  strip s = s.
Proof.
  intros Hh Hl. unfold strip. destruct s as [|c s]; [reflexivity|].
  rewrite lstrip_head by (eapply Hh; reflexivity).
  destruct (exists_last (l := c :: s) ltac:(discriminate)) as (s' & z & E).
  rewrite E. apply rstrip_last. eapply Hl. exact E.
Qed.

Lemma digits_value_decimal (ds : str) (acc : N) (b : bool) :
  Forall (fun c => isdecimal c = true) ds -> ds <> [] \/ b = true ->
  digits_value acc b ds =
  Some (List.fold_left (fun a c => a * 10 + default 0 (decimal_value c)) ds acc).
Proof.
  revert acc b. induction ds as [|c ds IH]; intros acc b Hall Hne.
  - destruct Hne as [Hne| ->]; [congruence|reflexivity].
  - inversion Hall as [|? ? Hc Hds]; subst. cbn [digits_value List.fold_left].
    apply isdecimal_value in Hc as [d Hd]. rewrite Hd. cbn [default].
    apply IH; [exact Hds|right; reflexivity].
Qed.

Lemma strip_decimal (ds : str) :
  Forall (fun c => isdecimal c = true) ds -> strip ds = ds.
Proof.
  intros Hall. rewrite Forall_forall in Hall.
  apply strip_clean; intros c s' ->; apply decimal_not_space, Hall.
  - left.
  - apply elem_of_app. right. left.
Qed.

Lemma int_isspace_space (c : char) : int_isspace c = true -> isspace c = true.
Proof. unfold int_isspace. intros H. apply andb_prop in H as [H _]. exact H. Qed.

Lemma int_strip_clean (s : str) :
  (forall c s', s = c :: s' -> int_isspace c = false) ->
  (forall c s', s = s' ++ [c] -> int_isspace c = false) ->
  int_strip s = s.
Proof.
  intros Hh Hl. unfold int_strip. destruct s as [|c s]; [reflexivity|].
  cbn [int_lstrip]. rewrite (Hh c s eq_refl).
  destruct (exists_last (l := c :: s) ltac:(discriminate)) as (s' & z & E).
  rewrite E, List.rev_app_distr. cbn [List.rev app int_lstrip].
  rewrite (Hl z s' E). cbn [List.rev]. rewrite List.rev_involutive. reflexivity.
Qed.

Lemma decimal_not_int_space (c : char) : isdecimal c = true -> int_isspace c = false.
Proof.
  intros H. apply decimal_not_space in H. unfold int_isspace. rewrite H. reflexivity.
Qed.

Lemma int_strip_decimal (ds : str) :
  Forall (fun c => isdecimal c = true) ds -> int_strip ds = ds.
Proof.
  intros Hall. rewrite Forall_forall in Hall.
  apply int_strip_clean; intros c s' ->; apply decimal_not_int_space, Hall.
  - left.
  - apply elem_of_app. right. left.
Qed.

(** A run of decimal digits holds no underscore: all of it counts against
    the limit of [int]. *)
Lemma decimal_digits_counted (ds : str) :
  Forall (fun c => isdecimal c = true) ds ->
  List.filter (fun c => negb (c =? 95)) ds = ds.
Proof.
  induction 1 as [|c ds Hc _ IH]; [reflexivity|].
  cbn [List.filter]. destruct (decimal_not_sign c Hc) as (_ & _ & ->).
  cbn [negb]. rewrite IH. reflexivity.
Qed.

(** [int] of a non-empty run of decimal digits: the number it writes when
    the run has at most 4300 digits, a [ValueError] when it is longer. *)
Lemma py_int_decimal_cases (ds : str) :
  ds <> [] -> Forall (fun c => isdecimal c = true) ds ->
  py_int ds =
  if (int_max_str_digits <? List.length ds)%nat then Raise ValueError
  else Return (Z.of_N (decimal_number ds)).
Proof.
  intros Hne Hall. unfold py_int. rewrite (int_strip_decimal _ Hall).
  destruct ds as [|c ds]; [congruence|].
  inversion Hall as [|? ? Hc _]; subst.
  destruct (decimal_not_sign c Hc) as (-> & -> & _).
  rewrite (digits_value_decimal _ _ _ Hall) by (left; discriminate).
  rewrite (decimal_digits_counted _ Hall). reflexivity.
Qed.

Lemma py_int_decimal (ds : str) :
  ds <> [] -> Forall (fun c => isdecimal c = true) ds ->
  (List.length ds <= int_max_str_digits)%nat ->
  py_int ds = Return (Z.of_N (decimal_number ds)).
Proof.
  intros Hne Hall Hlen. rewrite (py_int_decimal_cases ds Hne Hall).
  destruct (Nat.ltb_spec int_max_str_digits (List.length ds)); [lia|reflexivity].
Qed.

End Numbers.
Section RoundTrip.

Lemma digit_char_cases (n : Z) :
  In (digit_char n) [48; 49; 50; 51; 52; 53; 54; 55; 56; 57].
Proof.
  unfold digit_char.
  assert (H : (0 <= n mod 10 < 10)%Z) by (apply Z.mod_pos_bound; lia).
  set (k := (n mod 10)%Z) in *.
  assert (Hk : (k = 0 \/ k = 1 \/ k = 2 \/ k = 3 \/ k = 4 \/ k = 5 \/ k = 6 \/
                k = 7 \/ k = 8 \/ k = 9)%Z) by lia.
  repeat (destruct Hk as [->|Hk]; [cbn; tauto|]). rewrite Hk. cbn. tauto.
Qed.

Lemma digit_char_decimal (n : Z) :
  isdecimal (digit_char n) = true /\
  decimal_value (digit_char n) = Some (Z.to_N (n mod 10)).
Proof.
  pose proof (digit_char_cases n) as H.
  assert (Hv : digit_char n = 48 + Z.to_N (n mod 10)) by reflexivity.
  assert (Hall : forallb (fun c => isdecimal c &&
                    bool_decide (decimal_value c = Some (c - 48)))
                   [48; 49; 50; 51; 52; 53; 54; 55; 56; 57] = true)
    by (vm_compute; reflexivity).
  rewrite forallb_forall in Hall. specialize (Hall _ H).
  apply andb_prop in Hall as [H1 H2]. apply bool_decide_eq_true in H2.
  split; [exact H1|]. rewrite H2. f_equal. rewrite Hv. lia.
Qed.

Lemma iso_format_items :
  format_items false (lit "%Y-%m-%d") =
  Return [FDir dir_Y; FLit 45; FDir dir_m; FLit 45; FDir dir_d].
Proof. vm_compute. reflexivity. Qed.

Lemma year_step (a b c e : char) (tail : str) (items : list format_item) :
  isdecimal a = true -> isdecimal b = true -> isdecimal c = true -> isdecimal e = true ->
  format_matcher (FDir dir_Y :: FLit 45 :: items) [] (a :: b :: c :: e :: 45 :: tail) =
  format_matcher items [(dir_Y, [a; b; c; e])] tail.
Proof.
  intros Ha Hb Hc He.
  cbn [format_matcher directive_re m_seq m_bind m_class m_ret List.flat_map fst snd app].
  rewrite Ha. cbn [format_matcher directive_re m_seq m_bind m_class m_ret List.flat_map fst snd app].
  rewrite Hb. cbn [format_matcher directive_re m_seq m_bind m_class m_ret List.flat_map fst snd app].
  rewrite Hc. cbn [format_matcher directive_re m_seq m_bind m_class m_ret List.flat_map fst snd app].
  rewrite He. cbn [format_matcher directive_re m_seq m_bind m_class m_ret List.flat_map fst snd app].
  replace (literal_ignorecase 45 45) with true by (vm_compute; reflexivity).
  cbn [List.flat_map snd]. rewrite !app_nil_r. reflexivity.
Qed.

Lemma year_digits (y : Z) :
  (1 <= y <= 9999)%Z ->
  py_int [digit_char (y / 1000); digit_char (y / 100); digit_char (y / 10); digit_char y] =
  Return y.
Proof.
  intros Hy.
  destruct (digit_char_decimal (y / 1000)) as [Ha Va].
  destruct (digit_char_decimal (y / 100)) as [Hb Vb].
  destruct (digit_char_decimal (y / 10)) as [Hc Vc].
  destruct (digit_char_decimal y) as [He Ve].
  rewrite py_int_decimal
    by (try discriminate; try (repeat constructor; assumption); cbn; unfold int_max_str_digits; lia).
  f_equal. unfold decimal_number. cbn [List.fold_left].
  rewrite Va, Vb, Vc, Ve. cbn [default from_option id].
  assert (Hm : forall n, (0 <= n mod 10 < 10)%Z) by (intros n; apply Z.mod_pos_bound; lia).
  pose proof (Hm y). pose proof (Hm (y / 10)%Z). pose proof (Hm (y / 100)%Z).
  pose proof (Hm (y / 1000)%Z).
  pose proof (Z.div_mod y 10 ltac:(lia)).
  pose proof (Z.div_mod (y / 10) 10 ltac:(lia)).
  pose proof (Z.div_mod (y / 100) 10 ltac:(lia)).
  pose proof (Z.div_mod (y / 1000) 10 ltac:(lia)).
  assert (y / 100 = y / 10 / 10)%Z by (rewrite Z.div_div by lia; reflexivity).
  assert (y / 1000 = y / 100 / 10)%Z by (rewrite Z.div_div by lia; reflexivity).
  assert (y / 1000 / 10 = 0)%Z by (rewrite Z.div_div by lia; apply Z.div_small; lia).
  lia.
Qed.

Lemma isoformat_strip (d : date) : strip (isoformat d) = isoformat d.
Proof.
  unfold isoformat. apply strip_clean.
  - intros c s' [= <- _]. apply decimal_not_space, digit_char_decimal.
  - intros c s' E.
    change [digit_char (year d / 1000); digit_char (year d / 100); digit_char (year d / 10);
            digit_char (year d); 45; digit_char (month d / 10); digit_char (month d); 45;
            digit_char (day d / 10); digit_char (day d)]
      with ([digit_char (year d / 1000); digit_char (year d / 100); digit_char (year d / 10);
             digit_char (year d); 45; digit_char (month d / 10); digit_char (month d); 45;
             digit_char (day d / 10)] ++ [digit_char (day d)]) in E.
    apply app_inj_tail in E as [_ <-]. apply decimal_not_space, digit_char_decimal.
Qed.

Ltac enumerate_range x lo hi :=
  let H := fresh "H" in
  assert (H : In x (List.map Z.of_nat (List.seq lo (S hi - lo))))
    by (apply in_map_iff; exists (Z.to_nat x); split; [lia|apply in_seq; lia]);
  vm_compute in H;
  repeat (destruct H as [<-|H]; [|]); [..|destruct H].

(** [strptime] reads back what [isoformat] writes. *)
Lemma strptime_isoformat (y m d : Z) :
  valid_date y m d = true ->
  strptime (isoformat (Date y m d)) (lit "%Y-%m-%d") = Return (Date y m d).
Proof.
  intros Hv. pose proof Hv as Hv'. unfold valid_date in Hv'.
  repeat (apply andb_prop in Hv' as [Hv' ?]).
  repeat match goal with
         | H : (_ <=? _)%Z = true |- _ => apply Z.leb_le in H
         end.
  assert (Hd31 : (d <= 31)%Z).
  { unfold days_in_month in *. repeat match goal with
      | H : context [if ?b then _ else _] |- _ => destruct b end; lia. }
  unfold strptime. rewrite iso_format_items. cbn [rbind item_directives].
  replace (bool_decide (NoDup [dir_Y; dir_m; dir_d])) with true by (vm_compute; reflexivity).
  cbn [negb]. unfold isoformat. cbn [year month day].
  unfold re_match.
  rewrite year_step by apply digit_char_decimal.
  pose proof (year_digits y ltac:(lia)) as Hyear.
  set (v := [digit_char (y / 1000); digit_char (y / 100); digit_char (y / 10); digit_char y]) in *.
  clearbody v.
  enumerate_range m 1%nat 12%nat; enumerate_range d 1%nat 31%nat;
    match goal with
    | |- context [List.head ?l] =>
        let r := eval vm_compute in (List.head l) in
        replace (List.head l) with r by (vm_compute; reflexivity)
    end;
    cbn [convert_groups rbind]; rewrite Hyear; cbn [rbind];
    repeat match goal with
           | |- context [py_int ?s] =>
               let r := eval vm_compute in (py_int s) in
               replace (py_int s) with r by (vm_compute; reflexivity);
               cbn [rbind]
           end;
    unfold date_new; rewrite Hv; reflexivity.
Qed.

End RoundTrip.

(** C3. When the stripped text matches at least one of the six candidate
    formats, [parse_invoice_date] returns the date given by the first
    format, in the order of the list, that matches; and it reads back the
    ISO form of every valid date. *)
Theorem parse_invoice_date_first_format (text : str) :
  ((exists fmt, In fmt InvoiceDateField.POSSIBLE_FORMATS /\
                matches_format (strip text) fmt) ->
   exists (i : nat) (fmt : str) (d : date),
     InvoiceDateField.POSSIBLE_FORMATS !! i = Some fmt /\
     strptime (strip text) fmt = Return d /\
     (forall (j : nat) (fmt' : str),
        (j < i)%nat -> InvoiceDateField.POSSIBLE_FORMATS !! j = Some fmt' ->
        ~ matches_format (strip text) fmt') /\
     InvoiceDateField.parse_invoice_date text = Return d) /\
  (forall d : date, is_date d ->
     InvoiceDateField.parse_invoice_date (isoformat d) = Return d).
Proof.
  split.
  - intros Hsome.
    apply (proj2 (proj2 (parse_invoice_date_outcomes text))) in Hsome.
    destruct Hsome as [d Hd]. pose proof Hd as Hd'.
    unfold InvoiceDateField.parse_invoice_date in Hd'.
    apply (try_formats_returns _ _ _ (suite_formats_only_ValueError _)) in Hd'.
    destruct Hd' as (i & fmt & Hi & Hs & Hbefore).
    exists i, fmt, d. repeat split; try assumption.
    intros j fmt' Hj Hl [d' Hd']. rewrite (Hbefore j fmt' Hj Hl) in Hd'. discriminate Hd'.
  - intros [y m d] Hv. unfold is_date in Hv. cbn [year month day] in Hv.
    unfold InvoiceDateField.parse_invoice_date. rewrite isoformat_strip.
    unfold InvoiceDateField.POSSIBLE_FORMATS. cbn [List.map try_formats].
    rewrite (strptime_isoformat y m d Hv). reflexivity.
Qed.

Lemma parse_invoice_date_first_format_witness :
  exists (i : nat) (fmt : str) (d : date),
    InvoiceDateField.POSSIBLE_FORMATS !! i = Some fmt /\
    strptime (strip (lit " Oct 30, 2025 ")) fmt = Return d /\
    (forall (j : nat) (fmt' : str),
       (j < i)%nat -> InvoiceDateField.POSSIBLE_FORMATS !! j = Some fmt' ->
       ~ matches_format (strip (lit " Oct 30, 2025 ")) fmt') /\
    InvoiceDateField.parse_invoice_date (lit " Oct 30, 2025 ") = Return d.
Proof.
  apply (proj1 (parse_invoice_date_first_format (lit " Oct 30, 2025 "))).
  exists (lit "%b %d, %Y"). split.
  - vm_compute. tauto.
  - exists (Date 2025 10 30). vm_compute. reflexivity.
Defined.

(** ** Total record count *)

Section TotalRecordCount.

Lemma span_spec (pred : char -> bool) (s : str) :
  s = fst (span pred s) ++ snd (span pred s) /\
  Forall (fun c => pred c = true) (fst (span pred s)) /\
  (forall c r, snd (span pred s) = c :: r -> pred c = false).
Proof.
  induction s as [|c s (IH1 & IH2 & IH3)]; cbn [span].
  - repeat split; [constructor|discriminate].
  - destruct (pred c) eqn:E; cbn [fst snd].
    + repeat split; [cbn; f_equal; exact IH1|constructor; assumption|exact IH3].
    + repeat split; [constructor|]. intros c' r [= <- _]. exact E.
Qed.

Lemma span_unique (pred : char -> bool) (a b : str) :
  Forall (fun c => pred c = true) a ->
  (forall c r, b = c :: r -> pred c = false) ->
  span pred (a ++ b) = (a, b).
Proof.
  intros Ha Hb. induction Ha as [|c a Hc Ha IH]; cbn [app span].
  - destruct b as [|c r]; [reflexivity|]. cbn [span]. rewrite (Hb c r eq_refl). reflexivity.
  - rewrite Hc, IH. reflexivity.
Qed.

(** The alternatives of a greedy [c+]: every non-empty prefix of the
    longest run, longest first. *)
Lemma m_plus_formula (pred : char -> bool) (s : str) :
  m_plus pred s =
  List.map (fun k => (take k s, drop k s))
    (List.rev (List.seq 1 (List.length (fst (span pred s))))).
Proof.
  induction s as [|c s IH]; cbn [m_plus span]; [reflexivity|].
  destruct (pred c); cbn [fst List.length]; [|reflexivity].
  cbn [List.seq]. rewrite <- seq_shift. cbn [List.rev].
  rewrite List.map_app. cbn [List.map]. f_equal.
  rewrite IH, <- List.map_rev, !List.map_map. reflexivity.
Qed.

Lemma m_lit_app (l rest : str) : m_lit l (l ++ rest) = [(l, rest)].
Proof.
  induction l as [|p l IH]; [reflexivity|].
  cbn [m_lit app]. unfold m_seq, m_bind, m_char, m_class. rewrite N.eqb_refl.
  cbn [List.flat_map fst snd]. rewrite IH. reflexivity.
Qed.

Lemma m_lit_inv (l s : str) : m_lit l s <> [] -> exists rest, s = l ++ rest.
Proof.
  revert s. induction l as [|p l IH]; intros s H; [exists s; reflexivity|].
  cbn [m_lit] in H. unfold m_seq, m_bind, m_char, m_class in H.
  destruct s as [|c s]; [contradiction H; reflexivity|].
  destruct (N.eqb_spec p c) as [->|Hne]; [|contradiction H; reflexivity].
  cbn [List.flat_map fst snd] in H.
  destruct (m_lit l s) eqn:E; [contradiction H; reflexivity|].
  destruct (IH s) as [rest ->]; [rewrite E; discriminate|].
  exists rest. reflexivity.
Qed.


Lemma m_plus_nil (pred : char -> bool) (s : str) :
  (forall c r, s = c :: r -> pred c = false) -> m_plus pred s = [].
Proof.
  intros H. destruct s as [|c r]; [reflexivity|]. cbn [m_plus].
  rewrite (H c r eq_refl). reflexivity.
Qed.

Lemma m_plus_head (pred : char -> bool) (run rest : str) :
  run <> [] -> Forall (fun c => pred c = true) run ->
  (forall c r, rest = c :: r -> pred c = false) ->
  exists tl, m_plus pred (run ++ rest) = (run, rest) :: tl /\
             forall m r, In (m, r) tl -> exists c r', r = c :: r' /\ pred c = true.
Proof.
  intros Hne Hrun Hrest. rewrite m_plus_formula, (span_unique _ _ _ Hrun Hrest).
  cbn [fst]. destruct run as [|c0 run0] eqn:Erun; [congruence|]. rewrite <- Erun in *.
  assert (Hlen : List.length run = S (List.length run0)) by (rewrite Erun; reflexivity).
  rewrite Hlen, seq_S, List.rev_app_distr. cbn [List.rev app List.map].
  eexists. split.
  - f_equal. replace (1 + List.length run0)%nat with (List.length run) by lia.
    rewrite take_app_length, drop_app_length. reflexivity.
  - intros m r Hin. apply in_map_iff in Hin as (k & [= <- <-] & Hk).
    apply in_rev, in_seq in Hk.
    rewrite drop_app_le by lia.
    destruct (drop k run) as [|c r'] eqn:Ed.
    + apply (f_equal List.length) in Ed. rewrite length_drop in Ed. cbn in Ed. lia.
    + exists c, (r' ++ rest). split; [reflexivity|].
      rewrite Forall_forall in Hrun. apply Hrun.
      rewrite <- (take_drop k run), Ed. apply elem_of_app. right. left.
Qed.

Lemma space_not_decimal (c : char) : isspace c = true -> isdecimal c = false.
Proof.
  intros H. destruct (isdecimal c) eqn:E; [|reflexivity].
  apply decimal_not_space in E. congruence.
Qed.

Lemma count_re_unfold (rest : str) :
  ModelField.total_record_count_re (lit "Total Record Count" ++ rest) =
  List.flat_map (fun ar => m_plus isdecimal (snd ar)) (m_plus isspace rest).
Proof.
  unfold ModelField.total_record_count_re, m_bind at 1. rewrite m_lit_app.
  cbn [List.flat_map fst snd]. rewrite app_nil_r. reflexivity.
Qed.

Lemma flat_map_nil {A B : Type} (f : A -> list B) (l : list A) :
  (forall x, In x l -> f x = []) -> List.flat_map f l = [].
Proof.
  induction l as [|x l IH]; intros H; [reflexivity|]. cbn.
  rewrite (H x (or_introl eq_refl)), IH; [reflexivity|]. intros y Hy. apply H. right. exact Hy.
Qed.

(** The pattern at the start of the text: the group is the maximal digit
    run after the maximal whitespace run. *)
Lemma count_re_match (s ws ds post : str) :
  count_pattern s [] ws ds post ->
  exists tl, ModelField.total_record_count_re s = (ds, post) :: tl.
Proof.
  intros (-> & Hws & Hsp & Hds & Hdec & Hpost). cbn [app]. rewrite count_re_unfold.
  destruct (m_plus_head isspace ws (ds ++ post) Hws Hsp) as (tl & -> & Htl).
  { intros c r E. destruct ds as [|d ds']; [congruence|]. injection E as <- _.
    apply decimal_not_space. inversion Hdec; assumption. }
  cbn [List.flat_map snd].
  destruct (m_plus_head isdecimal ds post Hds Hdec Hpost) as (tl' & -> & _).
  eexists. reflexivity.
Qed.

Lemma count_re_inv (s : str) :
  ModelField.total_record_count_re s <> [] ->
  exists ws ds post, count_pattern s [] ws ds post.
Proof.
  intros H.
  assert (Hl : m_lit (lit "Total Record Count") s <> []).
  { intros E. apply H. unfold ModelField.total_record_count_re, m_bind at 1.
    rewrite E. reflexivity. }
  apply m_lit_inv in Hl as [rest ->]. rewrite count_re_unfold in H.
  destruct (span_spec isspace rest) as (Erest & Hsp & Hnsp).
  destruct (fst (span isspace rest)) as [|w ws] eqn:Ews.
  { exfalso. apply H. rewrite m_plus_nil; [reflexivity|].
    intros c r E. apply (Hnsp c r). cbn [app] in Erest. rewrite <- Erest. exact E. }
  set (rest' := snd (span isspace rest)) in *.
  destruct (m_plus_head isspace (w :: ws) rest' ltac:(discriminate) Hsp Hnsp)
    as (tl & Etl & Htl).
  rewrite Erest, Etl in H. cbn [List.flat_map snd] in H.
  rewrite (flat_map_nil _ tl) in H.
  2:{ intros [m r] Hin. destruct (Htl m r Hin) as (c & r' & -> & Hc). cbn [snd].
      apply m_plus_nil. intros c' r'' [= <- _]. apply space_not_decimal. exact Hc. }
  rewrite app_nil_r in H.
  destruct (span_spec isdecimal rest') as (Erest' & Hdec & Hndec).
  destruct (fst (span isdecimal rest')) as [|d ds] eqn:Eds.
  { exfalso. apply H. apply m_plus_nil.
    intros c r E. apply (Hndec c r). cbn [app] in Erest'. rewrite <- Erest'. exact E. }
  exists (w :: ws), (d :: ds), (snd (span isdecimal rest')).
  repeat split; try assumption; try discriminate.
  cbn [app]. rewrite Erest at 1. rewrite Erest' at 1. reflexivity.
Qed.

Lemma re_search_none {A : Type} (p : matcher A) (text : str) :
  re_search p text = None <-> forall pre suf, text = pre ++ suf -> p suf = [].
Proof.
  induction text as [|c text IH]; cbn [re_search].
  - destruct (p []) eqn:E.
    + split; [|reflexivity]. intros _ pre suf Heq.
      symmetry in Heq. apply app_eq_nil in Heq as [_ ->]. exact E.
    + split; [discriminate|]. intros H. specialize (H [] [] eq_refl). congruence.
  - destruct (p (c :: text)) eqn:E.
    + rewrite IH. split.
      * intros H pre suf Heq. destruct pre as [|c' pre]; cbn in Heq.
        -- subst suf. exact E.
        -- injection Heq as _ ->. apply (H pre suf eq_refl).
      * intros H pre suf ->. apply (H (c :: pre) suf). reflexivity.
    + split; [discriminate|]. intros H. specialize (H [] (c :: text) eq_refl). congruence.
Qed.

Lemma re_search_some {A : Type} (p : matcher A) (text : str) (x : A * str) :
  re_search p text = Some x <->
  exists pre suf, text = pre ++ suf /\ List.head (p suf) = Some x /\
    forall pre' suf', text = pre' ++ suf' ->
                      (List.length pre' < List.length pre)%nat -> p suf' = [].
Proof.
  induction text as [|c text IH]; cbn [re_search].
  - destruct (p []) as [|y l] eqn:E.
    + split; [discriminate|]. intros (pre & suf & Heq & Hh & _).
      symmetry in Heq. apply app_eq_nil in Heq as [_ ->]. rewrite E in Hh. discriminate.
    + split.
      * intros [= <-]. exists [], []. repeat split; [rewrite E; reflexivity|].
        intros ? ? _ Hl. cbn in Hl. lia.
      * intros (pre & suf & Heq & Hh & _).
        symmetry in Heq. apply app_eq_nil in Heq as [_ ->]. rewrite E in Hh.
        cbn in Hh. congruence.
  - destruct (p (c :: text)) as [|y l] eqn:E.
    + rewrite IH. split.
      * intros (pre & suf & -> & Hh & Hmin). exists (c :: pre), suf.
        repeat split; [exact Hh|]. intros pre' suf' Heq Hl.
        destruct pre' as [|c' pre']; cbn in Heq.
        -- subst suf'. exact E.
        -- injection Heq as _ Heq. apply (Hmin pre' suf' Heq). cbn in Hl. lia.
      * intros (pre & suf & Heq & Hh & Hmin). destruct pre as [|c' pre]; cbn in Heq.
        -- subst suf. rewrite E in Hh. discriminate.
        -- injection Heq as <- ->. exists pre, suf. repeat split; [exact Hh|].
           intros pre' suf' Heq Hl. apply (Hmin (c :: pre') suf').
           ++ cbn. rewrite Heq. reflexivity.
           ++ cbn. lia.
    + split.
      * intros [= <-]. exists [], (c :: text). repeat split; [rewrite E; reflexivity|].
        intros ? ? _ Hl. cbn in Hl. lia.
      * intros (pre & suf & Heq & Hh & Hmin). destruct pre as [|c' pre]; cbn in Heq.
        -- subst suf. rewrite E in Hh. cbn in Hh. exact Hh.
        -- specialize (Hmin [] (c :: text) eq_refl ltac:(cbn; lia)). congruence.
Qed.

Lemma count_pattern_suffix (pre suf ws ds post : str) :
  count_pattern (pre ++ suf) pre ws ds post <-> count_pattern suf [] ws ds post.
Proof.
  unfold count_pattern. cbn [app]. split; intros (Heq & H); (split; [|exact H]).
  - apply app_inv_head in Heq. exact Heq.
  - rewrite Heq. reflexivity.
Qed.

Lemma count_pattern_split (text pre ws ds post : str) :
  count_pattern text pre ws ds post ->
  exists suf, text = pre ++ suf /\ count_pattern suf [] ws ds post.
Proof.
  intros H. pose proof H as (Heq & _). eexists. split; [exact Heq|].
  rewrite Heq in H. apply count_pattern_suffix in H. exact H.
Qed.

(** What [re.search] finds for the pattern of the count. *)
Lemma count_search_some (text ds post : str) :
  re_search ModelField.total_record_count_re text = Some (ds, post) <->
  exists pre ws, first_count_pattern text pre ws ds post.
Proof.
  rewrite re_search_some. split.
  - intros (pre & suf & -> & Hh & Hmin).
    destruct (count_re_inv suf) as (ws & ds' & post' & Hp).
    { intros E. rewrite E in Hh. discriminate. }
    destruct (count_re_match _ _ _ _ Hp) as [tl Etl]. rewrite Etl in Hh.
    injection Hh as <- <-. exists pre, ws. split; [apply count_pattern_suffix; exact Hp|].
    intros pre' ws' ds2 post2 Hp'.
    destruct (Nat.le_gt_cases (List.length pre) (List.length pre')) as [|Hlt]; [assumption|].
    exfalso. destruct (count_pattern_split _ _ _ _ _ Hp') as (suf' & Heq & Hs).
    destruct (count_re_match _ _ _ _ Hs) as [tl' Etl'].
    rewrite (Hmin pre' suf' Heq Hlt) in Etl'. discriminate.
  - intros (pre & ws & Hp & Hfirst).
    destruct (count_pattern_split _ _ _ _ _ Hp) as (suf & Heq & Hs).
    exists pre, suf. split; [exact Heq|].
    destruct (count_re_match _ _ _ _ Hs) as [tl Etl]. split; [rewrite Etl; reflexivity|].
    intros pre' suf' Heq' Hlt.
    destruct (ModelField.total_record_count_re suf') eqn:E; [reflexivity|]. exfalso.
    destruct (count_re_inv suf') as (ws' & ds' & post' & Hp'); [rewrite E; discriminate|].
    apply (count_pattern_suffix pre') in Hp'. rewrite <- Heq' in Hp'.
    specialize (Hfirst _ _ _ _ Hp'). lia.
Qed.

Lemma count_search_none (text : str) :
  re_search ModelField.total_record_count_re text = None <-> ~ has_count_pattern text.
Proof.
  rewrite re_search_none. split.
  - intros H (pre & ws & ds & post & Hp).
    destruct (count_pattern_split _ _ _ _ _ Hp) as (suf & Heq & Hs).
    destruct (count_re_match _ _ _ _ Hs) as [tl Etl].
    rewrite (H pre suf Heq) in Etl. discriminate.
  - intros H pre suf Heq.
    destruct (ModelField.total_record_count_re suf) eqn:E; [reflexivity|]. exfalso.
    destruct (count_re_inv suf) as (ws' & ds' & post' & Hp'); [rewrite E; discriminate|].
    apply H. exists pre, ws', ds', post'. rewrite Heq. apply count_pattern_suffix. exact Hp'.
Qed.

(** The parsing step of [get_total_record_count]. *)
Lemma total_record_count_of_text_spec (inner_text : str) :
  (forall n : Z,
     ModelField.total_record_count_of_text inner_text = Return n <->
     exists pre ws ds post,
       first_count_pattern (strip inner_text) pre ws ds post /\
       (List.length ds <= 4300)%nat /\
       n = Z.of_N (decimal_number ds)) /\
  (ModelField.total_record_count_of_text inner_text = Raise AssertionError <->
   ~ has_count_pattern (strip inner_text)) /\
  (ModelField.total_record_count_of_text inner_text = Raise ValueError <->
   exists pre ws ds post,
     first_count_pattern (strip inner_text) pre ws ds post /\
     (4300 < List.length ds)%nat) /\
  (forall e, ModelField.total_record_count_of_text inner_text = Raise e ->
             e = AssertionError \/ e = ValueError).
Proof.
  unfold ModelField.total_record_count_of_text.
  destruct (re_search ModelField.total_record_count_re (strip inner_text))
    as [[ds post]|] eqn:E.
  - pose proof E as Es. apply count_search_some in E as (pre & ws & Hp).
    pose proof Hp as [(_ & _ & _ & Hne & Hdec & _) _].
    assert (Huniq : forall pre' ws' ds' post',
              first_count_pattern (strip inner_text) pre' ws' ds' post' -> ds' = ds).
    { intros pre' ws' ds' post' Hp'.
      assert (Hs : re_search ModelField.total_record_count_re (strip inner_text)
                   = Some (ds', post')) by (apply count_search_some; eauto).
      rewrite Es in Hs. injection Hs as <- _. reflexivity. }
    rewrite (py_int_decimal_cases ds Hne Hdec). change int_max_str_digits with 4300%nat.
    destruct (Nat.ltb_spec 4300 (List.length ds)) as [Hlong | Hshort].
    + split; [|split; [|split]].
      * intros n. split; [discriminate|].
        intros (pre' & ws' & ds' & post' & Hp' & Hlen & _).
        rewrite (Huniq _ _ _ _ Hp') in Hlen. lia.
      * split; [discriminate|]. intros Hno. exfalso. apply Hno.
        exists pre, ws, ds, post. apply Hp.
      * split; [|reflexivity]. intros _. exists pre, ws, ds, post. split; assumption.
      * intros e [= <-]. right. reflexivity.
    + split; [|split; [|split]].
      * intros n. split.
        -- intros [= <-]. exists pre, ws, ds, post. repeat split; try apply Hp. exact Hshort.
        -- intros (pre' & ws' & ds' & post' & Hp' & _ & ->).
           rewrite (Huniq _ _ _ _ Hp'). reflexivity.
      * split; [discriminate|]. intros Hno. exfalso. apply Hno.
        exists pre, ws, ds, post. apply Hp.
      * split; [discriminate|].
        intros (pre' & ws' & ds' & post' & Hp' & Hlen).
        rewrite (Huniq _ _ _ _ Hp') in Hlen. lia.
      * discriminate.
  - apply count_search_none in E. split; [|split; [|split]].
    + intros n. split; [discriminate|].
      intros (pre & ws & ds & post & [Hp _] & _). exfalso. apply E.
      exists pre, ws, ds, post. exact Hp.
    + split; [intros _; exact E | reflexivity].
    + split; [discriminate|].
      intros (pre & ws & ds & post & [Hp _] & _). exfalso. apply E.
      exists pre, ws, ds, post. exact Hp.
    + intros e [= <-]. left. reflexivity.
Qed.

End TotalRecordCount.

Lemma count_page_reads (count : str) :
  ModelField.get_total_record_count [count_page count] =
  ModelField.total_record_count_of_text (lit "Total Record Count " ++ count).
Proof. reflexivity. Qed.

(** C5 as stated fails for a run of more than 4300 digits: the pattern is
    there, and [int] refuses the run with a [ValueError]. *)
Lemma get_total_record_count_limit_counterexample :
  has_count_pattern (strip (lit "Total Record Count " ++ List.repeat 57 4301)) /\
  ModelField.get_total_record_count [count_page (List.repeat 57 4301)] =
    Raise ValueError.
Proof.
  assert (Hstrip : strip (lit "Total Record Count " ++ List.repeat 57 4301) =
                   lit "Total Record Count " ++ List.repeat 57 4301)
    by (vm_compute; reflexivity).
  assert (Hp : first_count_pattern (lit "Total Record Count " ++ List.repeat 57 4301)
                 [] [32] (List.repeat 57 4301) []).
  { split.
    - split; [vm_compute; reflexivity|]. split; [discriminate|].
      split; [repeat constructor|]. split; [discriminate|]. split.
      + apply List.Forall_forall. intros c Hc. apply List.repeat_spec in Hc. subst c.
        reflexivity.
      + intros c post' [=].
    - intros pre' ws' ds' post' _. cbn [List.length]. lia. }
  split.
  - rewrite Hstrip. exists [], [32], (List.repeat 57 4301), []. apply Hp.
  - rewrite count_page_reads.
    destruct (total_record_count_of_text_spec
                (lit "Total Record Count " ++ List.repeat 57 4301)) as (_ & _ & Hv & _).
    apply Hv. rewrite Hstrip. exists [], [32], (List.repeat 57 4301), [].
    split; [exact Hp|]. rewrite List.repeat_length. lia.
Qed.

(** C5, amended.  For every page whose count paragraph is shown, the
    stripped text decides the outcome of [get_total_record_count].  When
    the text reads the literal [Total Record Count], at least one
    whitespace character and a run of decimal digits, the first such
    occurrence counts: with at most 4300 digits in its maximal run the
    helper returns the number the run writes, and with more it raises the
    [ValueError] of [int].  It raises an [AssertionError] exactly when the
    text holds no such pattern, and it raises nothing else.  The copy of
    the helper in the invoice-date test is the same function. *)
Theorem get_total_record_count_spec {Page : Type} `{Browser Page}
    (page : Page) (text : str) :
  locator_visible page (lit "p:has-text('Total Record Count')") = true ->
  strip (locator_inner_text page (lit "p:has-text('Total Record Count')")) = text ->
  (forall n : Z,
     ModelField.get_total_record_count page = Return n <->
     exists pre ws ds post,
       first_count_pattern text pre ws ds post /\ (List.length ds <= 4300)%nat /\
       n = Z.of_N (decimal_number ds)) /\
  (ModelField.get_total_record_count page = Raise ValueError <->
   exists pre ws ds post,
     first_count_pattern text pre ws ds post /\ (4300 < List.length ds)%nat) /\
  (ModelField.get_total_record_count page = Raise AssertionError <->
   ~ has_count_pattern text) /\
  (forall e, ModelField.get_total_record_count page = Raise e ->
             e = AssertionError \/ e = ValueError) /\
  InvoiceDateField.get_total_record_count page = ModelField.get_total_record_count page.
Proof.
  intros Hvis <-.
  assert (E : ModelField.get_total_record_count page =
              ModelField.total_record_count_of_text
                (locator_inner_text page (lit "p:has-text('Total Record Count')"))).
  { unfold ModelField.get_total_record_count, wait_for. rewrite Hvis. reflexivity. }
  rewrite E.
  destruct (total_record_count_of_text_spec
              (locator_inner_text page (lit "p:has-text('Total Record Count')")))
    as (H1 & H2 & H3 & H4).
  split; [exact H1|]. split; [exact H3|]. split; [exact H2|]. split; [exact H4|].
  rewrite <- E. reflexivity.
Qed.

Lemma get_total_record_count_spec_witness :
  ModelField.get_total_record_count [list_page "42 records"] = Return 42%Z.
Proof.
  assert (Hvis : locator_visible [list_page "42 records"]
                   (lit "p:has-text('Total Record Count')") = true)
    by (vm_compute; reflexivity).
  assert (Htext : strip (locator_inner_text [list_page "42 records"]
                           (lit "p:has-text('Total Record Count')")) =
                  lit "Total Record Count 42 records")
    by (vm_compute; reflexivity).
  destruct (get_total_record_count_spec [list_page "42 records"]
              (lit "Total Record Count 42 records") Hvis Htext) as (H1 & _).
  apply H1. exists [], [32], [52; 50], (lit " records"). split; [|split; [cbn; lia|reflexivity]].
  split.
  - repeat split; try discriminate; try (repeat constructor).
    intros c post' [= <- _]. reflexivity.
  - intros pre' ws' ds' post' _. cbn. lia.
Defined.
Section StatusCell.
Import StatusUiSpecDefinitions StatusFieldExpired.

Lemma startswith_spec (s p : str) : startswith s p = true <-> exists rest, s = p ++ rest.
Proof.
  revert s. induction p as [|a p IH]; intros s; cbn [startswith].
  - split; [exists s; reflexivity|reflexivity].
  - destruct s as [|b s].
    + split; [discriminate|]. intros [rest E]. discriminate E.
    + rewrite andb_true_iff, N.eqb_eq, IH. split.
      * intros [-> [rest ->]]. exists rest. reflexivity.
      * intros [rest [= -> ->]]. split; [reflexivity|]. exists rest. reflexivity.
Qed.

Lemma contains_spec (sub s : str) :
  contains sub s = true <-> is_substring sub s.
Proof.
  unfold is_substring. induction s as [|c s IH]; cbn [contains].
  - rewrite orb_false_r, startswith_spec. split.
    + intros [rest E]. exists [], rest. exact E.
    + intros (pre & post & E). symmetry in E. apply app_eq_nil in E as [-> E].
      exists post. symmetry. exact E.
  - rewrite orb_true_iff, startswith_spec, IH. split.
    + intros [[rest E]|(pre & post & E)].
      * exists [], rest. exact E.
      * exists (c :: pre), post. cbn. rewrite E. reflexivity.
    + intros (pre & post & E). destruct pre as [|c' pre]; cbn in E.
      * left. exists post. exact E.
      * injection E as _ E. right. exists pre, post. exact E.
Qed.

Lemma assert_all_spec {A : Type} (check : A -> bool) (l : list A) :
  (assert_all check l = Return tt <-> Forall (fun x => check x = true) l) /\
  (assert_all check l = Return tt \/ assert_all check l = Raise AssertionError).
Proof.
  induction l as [|x l [IH1 IH2]]; cbn [assert_all].
  - split; [split; [constructor|reflexivity]|left; reflexivity].
  - unfold py_assert. destruct (check x) eqn:E; cbn [rbind].
    + split; [|exact IH2]. rewrite IH1. split.
      * intros H. constructor; assumption.
      * intros H. inversion H; assumption.
    + split; [|right; reflexivity]. split; [discriminate|].
      intros H. inversion H; congruence.
Qed.

End StatusCell.

(** C7. For a status that has an entry in [STATUS_UI_SPECS],
    [assert_status_cell_matches_spec] succeeds exactly when every selector
    of [required_icon_selectors] matches at least one element inside the
    cell and every string of [must_contain] occurs in the cell's stripped
    inner text; otherwise it raises an [AssertionError]. *)
Theorem assert_status_cell_matches_spec_iff {Page : Type} `{Browser Page}
    (page : Page) (cell status_key : str)
    (spec : StatusUiSpecDefinitions.StatusUISpec) :
  StatusUiSpecDefinitions.STATUS_UI_SPECS !! status_key = Some spec ->
  (StatusFieldExpired.assert_status_cell_matches_spec page cell status_key = Return tt <->
   cell_shows page cell spec) /\
  (~ cell_shows page cell spec ->
   StatusFieldExpired.assert_status_cell_matches_spec page cell status_key =
   Raise AssertionError).
Proof.
  intros Hspec. unfold StatusFieldExpired.assert_status_cell_matches_spec, cell_shows.
  rewrite Hspec.
  destruct (assert_all_spec
              (fun sel => (1 <=? locator_count page (within cell sel))%Z)
              (StatusUiSpecDefinitions.required_icon_selectors spec)) as [Hi Hi'].
  destruct (assert_all_spec
              (fun expected => contains expected (strip (locator_inner_text page cell)))
              (StatusUiSpecDefinitions.must_contain spec)) as [Ht Ht'].
  assert (Hicons :
    Forall (fun sel => (1 <=? locator_count page (within cell sel))%Z = true)
      (StatusUiSpecDefinitions.required_icon_selectors spec) <->
    Forall (fun sel => (1 <= locator_count page (within cell sel))%Z)
      (StatusUiSpecDefinitions.required_icon_selectors spec)).
  { apply Forall_iff. intros sel. apply Z.leb_le. }
  assert (Htexts :
    Forall (fun e => contains e (strip (locator_inner_text page cell)) = true)
      (StatusUiSpecDefinitions.must_contain spec) <->
    Forall (fun e => is_substring e (strip (locator_inner_text page cell)))
      (StatusUiSpecDefinitions.must_contain spec)).
  { apply Forall_iff. intros e. apply contains_spec. }
  rewrite <- Hicons, <- Htexts, <- Hi, <- Ht.
  destruct Hi' as [Ei|Ei]; rewrite Ei; cbn [rbind].
  - destruct Ht' as [Et|Et]; rewrite Et.
    + split; [tauto|]. intros Hn. exfalso. apply Hn. split; reflexivity.
    + split; [|reflexivity]. split; [discriminate|]. intros [_ E]. discriminate E.
  - split; [|reflexivity]. split; [discriminate|]. intros [E _]. discriminate E.
Qed.

Lemma assert_status_cell_matches_spec_iff_witness :
  StatusFieldExpired.assert_status_cell_matches_spec
    [expired_cell_page] (lit "td.status") (lit "Expired") = Return tt.
Proof.
  assert (Hspec : StatusUiSpecDefinitions.STATUS_UI_SPECS !! lit "Expired" =
                  Some (StatusUiSpecDefinitions.spec
                          ["Ineligible"; "Expired"]%string
                          ["i.bi-x-circle-fill.text-danger"]%string))
    by (vm_compute; reflexivity).
  apply (proj1 (assert_status_cell_matches_spec_iff
                  [expired_cell_page] (lit "td.status") (lit "Expired") _ Hspec)).
  split.
  - repeat constructor. vm_compute. discriminate.
  - repeat constructor.
    + exists [], (lit " Expired"). vm_compute. reflexivity.
    + exists (lit "Ineligible "), []. vm_compute. reflexivity.
Defined.

(** ** The prefix iteration of the Model filter test *)

Section PrefixIteration.
Context {Page : Type} `{Browser Page}.
Variables (full : str) (page0 : Page) (total0 : Z).

Lemma range_step (a b : nat) :
  List.map Z.of_nat (List.seq (S a) (S b)) =
  Z.of_nat (S a) :: List.map Z.of_nat (List.seq (S (S a)) b).
Proof. reflexivity. Qed.

Lemma loop_step (a b : nat) (cur : Z) :
  ModelField.prefix_loop full (List.map Z.of_nat (List.seq (S a) (S b)))
    (fst (search_at full page0 total0 a)) cur =
  match snd (search_at full page0 total0 (S a)) with
  | Raise e => (fst (search_at full page0 total0 (S a)), Raise e)
  | Return updated =>
      if (updated <=? cur)%Z
      then ModelField.prefix_loop full (List.map Z.of_nat (List.seq (S (S a)) b))
             (fst (search_at full page0 total0 (S a))) updated
      else (fst (search_at full page0 total0 (S a)), Raise AssertionError)
  end.
Proof.
  rewrite range_step. cbn [ModelField.prefix_loop search_at].
  destruct (ModelField.search_by_model _ _) as [page' r]. reflexivity.
Qed.

Lemma loop_passes (b a : nat) (cur : Z) :
  snd (search_at full page0 total0 a) = Return cur ->
  (forall i, (a < i <= a + b)%nat -> narrows full page0 total0 i) ->
  exists final,
    ModelField.prefix_loop full (List.map Z.of_nat (List.seq (S a) b))
      (fst (search_at full page0 total0 a)) cur =
    (fst (search_at full page0 total0 (a + b)), Return final) /\
    snd (search_at full page0 total0 (a + b)) = Return final.
Proof.
  revert a cur. induction b as [|b IH]; intros a cur Hcur Hall.
  - exists cur. rewrite Nat.add_0_r. split; [reflexivity|exact Hcur].
  - rewrite loop_step.
    destruct (Hall (S a) ltac:(lia)) as (previous & updated & Hp & Hu & Hle).
    replace (S a - 1)%nat with a in Hp by lia. rewrite Hcur in Hp. injection Hp as <-.
    rewrite Hu. destruct (Z.leb_spec updated cur) as [_|Hgt]; [|lia].
    destruct (IH (S a) updated Hu) as (final & E1 & E2).
    { intros i Hi. apply Hall. lia. }
    exists final. replace (a + S b)%nat with (S a + b)%nat by lia. split; assumption.
Qed.

Lemma loop_passed (b a : nat) (cur : Z) (page : Page) (final : Z) :
  snd (search_at full page0 total0 a) = Return cur ->
  ModelField.prefix_loop full (List.map Z.of_nat (List.seq (S a) b))
    (fst (search_at full page0 total0 a)) cur = (page, Return final) ->
  forall i, (a < i <= a + b)%nat -> narrows full page0 total0 i.
Proof.
  revert a cur. induction b as [|b IH]; intros a cur Hcur Hrun i Hi; [lia|].
  rewrite loop_step in Hrun.
  destruct (snd (search_at full page0 total0 (S a))) as [updated|e] eqn:Hu;
    [|discriminate Hrun].
  destruct (Z.leb_spec updated cur) as [Hle|Hgt]; [|discriminate Hrun].
  destruct (Nat.eq_dec i (S a)) as [->|Hne].
  - exists cur, updated. replace (S a - 1)%nat with a by lia. auto.
  - apply (IH (S a) updated Hu Hrun). lia.
Qed.

Lemma loop_fails (b a k : nat) (cur : Z) :
  snd (search_at full page0 total0 a) = Return cur ->
  (a < k <= a + b)%nat ->
  (forall i, (a < i < k)%nat -> narrows full page0 total0 i) ->
  widens full page0 total0 k ->
  ModelField.prefix_loop full (List.map Z.of_nat (List.seq (S a) b))
    (fst (search_at full page0 total0 a)) cur =
  (fst (search_at full page0 total0 k), Raise AssertionError).
Proof.
  revert a cur. induction b as [|b IH]; intros a cur Hcur Hk Hbefore Hwide; [lia|].
  rewrite loop_step. destruct (Nat.eq_dec k (S a)) as [->|Hne].
  - destruct Hwide as (previous & updated & Hp & Hu & Hlt).
    replace (S a - 1)%nat with a in Hp by lia. rewrite Hcur in Hp. injection Hp as <-.
    rewrite Hu. destruct (Z.leb_spec updated cur) as [Hle|_]; [lia|reflexivity].
  - destruct (Hbefore (S a) ltac:(lia)) as (previous & updated & Hp & Hu & Hle).
    replace (S a - 1)%nat with a in Hp by lia. rewrite Hcur in Hp. injection Hp as <-.
    rewrite Hu. destruct (Z.leb_spec updated cur) as [_|Hgt]; [|lia].
    apply (IH (S a) updated Hu); [lia| |exact Hwide].
    intros i Hi. apply Hbefore. lia.
Qed.

End PrefixIteration.

(** C6. In the prefix iteration the count never increases: the loop runs to
    its end exactly when, for every [i] from 1 to the length of the
    first-row model value, the search with the length-[i] alternating-case
    prefix returns a count that is not above the count of the search just
    before it (the blank search for [i = 1]); and at the first [i] whose
    count is above the previous one the iteration stops with an
    [AssertionError], on the page that search left. *)
Theorem prefix_iteration_never_increases {Page : Type} `{Browser Page}
    (full_model_name : str) (page : Page) (total_record_count : Z) :
  ((exists final,
      snd (ModelField.prefix_iteration full_model_name page total_record_count) =
      Return final) <->
   (forall i, (1 <= i <= List.length full_model_name)%nat ->
              narrows full_model_name page total_record_count i)) /\
  (forall k, (1 <= k <= List.length full_model_name)%nat ->
     (forall i, (1 <= i < k)%nat -> narrows full_model_name page total_record_count i) ->
     widens full_model_name page total_record_count k ->
     ModelField.prefix_iteration full_model_name page total_record_count =
     (fst (search_at full_model_name page total_record_count k), Raise AssertionError)).
Proof.
  unfold ModelField.prefix_iteration, ModelField.range1. split; [split|].
  - intros [final Hfinal] i Hi.
    destruct (ModelField.prefix_loop _ _ _ _) as [page' r] eqn:E. cbn [snd] in Hfinal.
    subst r.
    apply (loop_passed full_model_name page total_record_count
             (List.length full_model_name) 0 total_record_count page' final eq_refl E).
    lia.
  - intros Hall.
    destruct (loop_passes full_model_name page total_record_count
                (List.length full_model_name) 0 total_record_count eq_refl)
      as (final & E & _).
    { intros i Hi. apply Hall. lia. }
    exists final. cbn [search_at fst] in E. rewrite E. reflexivity.
  - intros k Hk Hbefore Hwide.
    apply (loop_fails full_model_name page total_record_count
             (List.length full_model_name) 0 k total_record_count eq_refl);
      [lia| |exact Hwide].
    intros i Hi. apply Hbefore. lia.
Qed.

Lemma prefix_iteration_never_increases_witness :
  ModelField.prefix_iteration (lit "AB") widening_script 10 =
  (fst (search_at (lit "AB") widening_script 10 2), Raise AssertionError).
Proof.
  apply (proj2 (prefix_iteration_never_increases (lit "AB") widening_script 10) 2%nat).
  - cbn. lia.
  - intros i Hi. assert (i = 1%nat) as -> by lia.
    exists 10%Z, 7%Z. repeat split; try (vm_compute; reflexivity); lia.
  - exists 7%Z, 9%Z. repeat split; try (vm_compute; reflexivity); lia.
Defined.

(** ** The Unassigned widget of the dashboard *)

Section UnassignedWidget.
Import DashboardUnassignedWidget.

Lemma rbind_return {A B : Type} (r : result A) (k : A -> result B) (b : B) :
  rbind r k = Return b -> exists a, r = Return a /\ k a = Return b.
Proof. destruct r as [a|e]; cbn; [eauto|discriminate]. Qed.

Lemma py_assert_return (cond : bool) : py_assert cond = Return tt <-> cond = true.
Proof. unfold py_assert. destruct cond; split; congruence. Qed.

Lemma run_to_final_comparison_reads {Page : Type} `{Browser Page}
    (page : Page) (t u : str) :
  DashboardUnassignedWidget.run_to_final_comparison page = Return (t, u) ->
  let dashboard := goto page (lit "/dashboard/") in
  let list_page := click dashboard unassigned_counter_link in
  let total_record_count_text :=
    strip (locator_inner_text list_page (lit "p:has-text('Total Record Count')")) in
  (u = strip (locator_inner_text dashboard unassigned_counter_link) /\
   t = strip (replace total_record_count_text (lit "Total Record Count") []) /\
   startswith total_record_count_text (lit "Total Record Count") = true) /\
  (page_url list_page = expected_url /\
   strip (locator_inner_text list_page (checked_option "#id_market_actor")) =
     strip (locator_inner_text dashboard
              (within first_market_actor_card (lit "h2.card-title"))) /\
   strip (locator_inner_text list_page (checked_option "#id_status")) = lit "Unassigned" /\
   strip (locator_inner_text list_page (checked_option "#id_invoice_date")) = lit "All") /\
  (isdigit t = true /\ isdigit u = true).
Proof.
  unfold DashboardUnassignedWidget.run_to_final_comparison. intros Hrun.
  repeat match type of Hrun with
         | (if negb ?c then Raise _ else _) = Return _ =>
             destruct c; [cbn [negb] in Hrun|discriminate Hrun]
         | rbind (if ?c then Return tt else Raise _) _ = Return _ =>
             let E := fresh "Eurl" in
             destruct c eqn:E; [cbn [rbind] in Hrun|discriminate Hrun]
         | rbind (py_assert ?c) _ = Return _ =>
             let E := fresh "E" in
             apply rbind_return in Hrun as ([] & E & Hrun);
             apply py_assert_return in E
         | rbind _ _ = Return _ =>
             apply rbind_return in Hrun as (? & _ & Hrun)
         end.
  injection Hrun as <- <-.
  repeat match goal with
         | E : str_eqb _ _ = true |- _ => apply bool_decide_eq_true in E
         end.
  cbv zeta. repeat split; try reflexivity; assumption.
Qed.

Lemma final_comparison_passes (t u : str) :
  final_comparison t u = Return tt <->
  exists n, py_int t = Return n /\ py_int u = Return n.
Proof.
  unfold final_comparison.
  destruct (py_int t) as [a|e]; cbn [rbind].
  - destruct (py_int u) as [b|e]; cbn [rbind].
    + rewrite py_assert_return, Z.eqb_eq. split.
      * intros ->. exists b. split; reflexivity.
      * intros (n & [= ->] & [= ->]). reflexivity.
    + split; [discriminate|]. intros (n & _ & E). discriminate E.
  - split; [discriminate|]. intros (n & E & _). discriminate E.
Qed.

Lemma final_comparison_fails (t u : str) (a b : Z) :
  py_int t = Return a -> py_int u = Return b -> a <> b ->
  final_comparison t u = Raise AssertionError.
Proof.
  intros Ha Hb Hne. unfold final_comparison. rewrite Ha, Hb. cbn [rbind].
  unfold py_assert. destruct (Z.eqb_spec a b); [contradiction|reflexivity].
Qed.

Lemma final_comparison_raises (t u : str) (e : exn) :
  final_comparison t u = Raise e ->
  (e = ValueError /\
   ((forall a, py_int t <> Return a) \/ (forall b, py_int u <> Return b))) \/
  (e = AssertionError /\
   exists a b, py_int t = Return a /\ py_int u = Return b /\ a <> b).
Proof.
  unfold final_comparison.
  destruct (py_int t) as [a|e1] eqn:Et; cbn [rbind].
  - destruct (py_int u) as [b|e2] eqn:Eu; cbn [rbind].
    + unfold py_assert. destruct (Z.eqb_spec a b); [discriminate|].
      intros [= <-]. right. split; [reflexivity|]. exists a, b. auto.
    + intros [= <-]. left. split; [eapply py_int_raises; exact Eu|]. right.
      intros b. discriminate.
  - intros [= <-]. left. split; [eapply py_int_raises; exact Et|]. left.
    intros a. discriminate.
Qed.

End UnassignedWidget.

(** A digit string need not be an integer: the superscript two passes
    [isdigit] and is rejected by [int]. *)
Lemma superscript_digit_not_int : isdigit [178] = true /\ py_int [178] = Raise ValueError.
Proof. split; vm_compute; reflexivity. Qed.

(** C1. For every run that reaches the final comparison, the two texts
    compared are read from the pages: the one is the stripped text of the
    Unassigned counter link of the first card of the dashboard, the other
    is what is left of the list page's paragraph, which starts with
    "Total Record Count", once that label is removed and the rest
    stripped; the list page is the one the click on the counter link
    leads to, at the address filtered on the Unassigned status, and shows
    the card's market actor, the status Unassigned and the invoice date
    All.  Both texts are digit strings.  The test passes exactly when
    [int] gives the same integer for both; when the two integers differ
    the final assertion fails; and the test fails in no other way than by
    that assertion or by [int] refusing one of the two texts. *)
Theorem unassigned_counter_matches_total {Page : Type} `{Browser Page}
    (page : Page) (total_record_count unassigned_counter : str) :
  DashboardUnassignedWidget.run_to_final_comparison page =
    Return (total_record_count, unassigned_counter) ->
  let dashboard := goto page (lit "/dashboard/") in
  let list_page := click dashboard DashboardUnassignedWidget.unassigned_counter_link in
  let total_record_count_text :=
    strip (locator_inner_text list_page (lit "p:has-text('Total Record Count')")) in
  (unassigned_counter =
     strip (locator_inner_text dashboard DashboardUnassignedWidget.unassigned_counter_link) /\
   total_record_count =
     strip (replace total_record_count_text (lit "Total Record Count") []) /\
   startswith total_record_count_text (lit "Total Record Count") = true) /\
  (page_url list_page = DashboardUnassignedWidget.expected_url /\
   strip (locator_inner_text list_page
            (DashboardUnassignedWidget.checked_option "#id_market_actor")) =
     strip (locator_inner_text dashboard
              (within DashboardUnassignedWidget.first_market_actor_card
                 (lit "h2.card-title"))) /\
   strip (locator_inner_text list_page
            (DashboardUnassignedWidget.checked_option "#id_status")) = lit "Unassigned" /\
   strip (locator_inner_text list_page
            (DashboardUnassignedWidget.checked_option "#id_invoice_date")) = lit "All") /\
  (isdigit total_record_count = true /\ isdigit unassigned_counter = true) /\
  (DashboardUnassignedWidget.test_dashboard_sales_summary_section page = Return tt <->
   exists n, py_int total_record_count = Return n /\
             py_int unassigned_counter = Return n) /\
  (forall a b, py_int total_record_count = Return a ->
               py_int unassigned_counter = Return b -> a <> b ->
     DashboardUnassignedWidget.test_dashboard_sales_summary_section page =
     Raise AssertionError) /\
  (forall e,
     DashboardUnassignedWidget.test_dashboard_sales_summary_section page = Raise e ->
     (e = ValueError /\
      ((forall a, py_int total_record_count <> Return a) \/
       (forall b, py_int unassigned_counter <> Return b))) \/
     (e = AssertionError /\
      exists a b, py_int total_record_count = Return a /\
                  py_int unassigned_counter = Return b /\ a <> b)).
Proof.
  intros Hrun. cbv zeta.
  destruct (run_to_final_comparison_reads _ _ _ Hrun) as (Hread & Hpage & Hdigits).
  split; [exact Hread|]. split; [exact Hpage|]. split; [exact Hdigits|].
  unfold DashboardUnassignedWidget.test_dashboard_sales_summary_section.
  rewrite Hrun. cbn [rbind fst snd]. split; [|split].
  - apply final_comparison_passes.
  - intros a b. apply final_comparison_fails.
  - intros e. apply final_comparison_raises.
Qed.

Lemma unassigned_counter_matches_total_witness :
  strip (locator_inner_text (goto (unassigned_script "12" "012") (lit "/dashboard/"))
           DashboardUnassignedWidget.unassigned_counter_link) = lit "12" /\
  strip (locator_inner_text
           (click (goto (unassigned_script "12" "012") (lit "/dashboard/"))
              DashboardUnassignedWidget.unassigned_counter_link)
           (lit "p:has-text('Total Record Count')")) = lit "Total Record Count 012" /\
  DashboardUnassignedWidget.test_dashboard_sales_summary_section
    (unassigned_script "12" "012") = Return tt.
Proof.
  assert (Hrun : DashboardUnassignedWidget.run_to_final_comparison
                   (unassigned_script "12" "012") = Return (lit "012", lit "12"))
    by (vm_compute; reflexivity).
  split; [vm_compute; reflexivity|]. split; [vm_compute; reflexivity|].
  pose proof (unassigned_counter_matches_total _ _ _ Hrun) as Hspec.
  cbv zeta in Hspec. destruct Hspec as (_ & _ & _ & Hpass & _).
  apply Hpass. exists 12%Z. split; vm_compute; reflexivity.
Defined.
(** ** The Market Actor cards of the dashboard *)

Section MarketActorCheck.
Import DashboardMarketActorCheck.

(** No path through the body of the collection loop reaches a second
    round: the body breaks, returns or raises. *)
Lemma round_body_never_continues {Page : Type} `{Browser Page}
    (st : Page * gset str * Z) :
  forall st', round_body st <> Continue st'.
Proof.
  intros st'. destruct st as [[page names] stable]. unfold round_body.
  repeat match goal with
         | |- context [if ?c then _ else _] => destruct c
         end; discriminate.
Qed.

Lemma for_range_single_round {St : Type} (body : St -> flow St) (n : nat) (s : St) :
  (forall s s', body s <> Continue s') ->
  (fst (fst (for_range n body s 0)) <= 1)%nat.
Proof.
  intros Hbody. destruct n as [|n]; cbn [for_range]; [cbn; lia|].
  destruct (body s) as [s'|s'|s' r] eqn:E; cbn; [|lia|lia].
  exfalso. exact (Hbody s s' E).
Qed.

End MarketActorCheck.

(** C8 against the code.  The comparison with the Recent Sales dropdown,
    and the [return] after it, sit inside the collection loop, so the loop
    never enters a second round: the stability counter cannot reach
    [stable_rounds_to_stop] and the cap of [max_rounds] is never
    approached.  On a dashboard that shows one card before the scroll and
    two after it, the test compares the names of the first round only and
    fails, although the scrolled dashboard shows exactly the names of the
    dropdown. *)
Theorem market_actor_check_stops_after_first_round :
  (forall (Page : Type) (B : Browser Page) (page : Page),
     (fst (fst (DashboardMarketActorCheck.test_dashboard_market_actor_check page)) <= 1)%nat) /\
  DashboardMarketActorCheck.test_dashboard_market_actor_check lazy_dashboard_script =
    (1%nat, {[ lit "Acme" ]}, Raise AssertionError) /\
  (list_to_set (DashboardMarketActorCheck.stripped_nonempty
                  (List.map lit ["Acme"; "Bolt"]%string)) : gset str) =
  list_to_set (List.filter (fun o => negb (str_eqb o (lit "All")))
                 (DashboardMarketActorCheck.stripped_nonempty
                    (List.map lit ["All"; "Acme"; "Bolt"]%string))).
Proof.
  split; [|split].
  - intros Page B page.
    unfold DashboardMarketActorCheck.test_dashboard_market_actor_check.
    destruct (negb (endswith _ _)); [cbn; lia|].
    destruct (negb (locator_visible _ _)); [cbn; lia|].
    pose proof (for_range_single_round DashboardMarketActorCheck.round_body
                  DashboardMarketActorCheck.max_rounds
                  (goto page (lit "/dashboard/"), ∅, 0%Z)
                  round_body_never_continues) as Hle.
    destruct (for_range _ _ _ _) as [[rounds st] r]. exact Hle.
  - vm_compute. reflexivity.
  - vm_compute. reflexivity.
Qed.
(** * Further properties *)

(** ** Date arithmetic

    [toordinal] numbers the days of the calendar one after the other,
    [fromordinal] is its inverse, and the order of dates is the order of
    their numbers. *)

Ltac month_cases m :=
  let H := fresh in
  assert (H : (m = 1 \/ m = 2 \/ m = 3 \/ m = 4 \/ m = 5 \/ m = 6 \/ m = 7 \/ m = 8 \/
               m = 9 \/ m = 10 \/ m = 11 \/ m = 12)%Z) by lia;
  destruct H as [-> | [-> | [-> | [-> | [-> | [-> | [-> | [-> | [-> | [-> | [-> | ->]]]]]]]]]]].

Lemma valid_date_inv (y m d : Z) :
  valid_date y m d = true ->
  (1 <= y <= 9999 /\ 1 <= m <= 12 /\ 1 <= d <= days_in_month y m)%Z.
Proof. unfold valid_date. intros H. repeat (apply andb_prop in H; destruct H as [H ?]). lia. Qed.

Lemma days_in_month_bounds (y m : Z) : (28 <= days_in_month y m <= 31)%Z.
Proof. unfold days_in_month. repeat destruct (_ : bool); lia. Qed.

Lemma _days_in_month_table (y m : Z) :
  (1 <= m <= 12)%Z -> _days_in_month y m = Done (days_in_month y m).
Proof.
  intros Hm. unfold _days_in_month, days_in_month.
  destruct (is_leap y); month_cases m; reflexivity.
Qed.

Lemma toordinal_valid (d : date) : valid d = true -> toordinal d = Done (day_number d).
Proof.
  destruct d as [y m d]. unfold valid, toordinal, day_number, _ymd2ord. simpl.
  intros Hv. apply valid_date_inv in Hv. destruct Hv as (Hy & Hm & Hd).
  rewrite _days_in_month_table by lia.
  replace ((1 <=? m) && (m <=? 12))%Z with true by lia. simpl.
  replace ((1 <=? d) && (d <=? days_in_month y m))%Z with true by lia. simpl.
  unfold _days_before_month.
  replace ((1 <=? m) && (m <=? 12))%Z with true by lia. simpl.
  month_cases m; reflexivity.
Qed.

Lemma is_leap_spec (y : Z) :
  is_leap y = true <-> (y mod 4 = 0 /\ (y mod 100 <> 0 \/ y mod 400 = 0))%Z.
Proof.
  unfold is_leap. rewrite andb_true_iff, orb_true_iff, negb_true_iff.
  rewrite !Z.eqb_eq, Z.eqb_neq. reflexivity.
Qed.

Lemma days_before_year_succ (y : Z) :
  _days_before_year (y + 1) = (_days_before_year y + 365 + Z.b2z (is_leap y))%Z.
Proof.
  unfold _days_before_year.
  destruct (is_leap y) eqn:E.
  - apply is_leap_spec in E. cbn [Z.b2z]. 
    replace (y + 1 - 1)%Z with y by lia.
    Z.div_mod_to_equations. lia.
  - assert (E' : ~ (y mod 4 = 0 /\ (y mod 100 <> 0 \/ y mod 400 = 0))%Z).
    { rewrite <- is_leap_spec. congruence. }
    cbn [Z.b2z]. replace (y + 1 - 1)%Z with y by lia.
    Z.div_mod_to_equations. lia.
Qed.

Lemma month_and_day_spec (y m d : Z) :
  (1 <= m <= 12)%Z -> (1 <= d <= days_in_month y m)%Z ->
  month_and_day y (is_leap y) (offset_in_year y m d) = Done (y, m, d).
Proof.
  intros Hm Hd. pose proof (days_in_month_bounds y m) as Hb.
  unfold month_and_day, offset_in_year, _days_in_month. revert Hd Hb.
  unfold days_in_month.
  destruct (is_leap y); month_cases m; intros Hd _; vm_compute in Hd; destruct Hd as [Hd0 Hd];
    (destruct d as [|d|d]; [exfalso; apply Hd0; reflexivity | | exfalso; apply Hd0; reflexivity]);
    repeat (first [reflexivity | exfalso; apply Hd; reflexivity | destruct d as [d|d|]]).
Qed.

Lemma ord2ymd_decomposed (q400 q100 q4 r4 k : Z) :
  (0 <= q100 < 4)%Z -> (0 <= q4 < 25)%Z -> (0 <= r4 < 4)%Z ->
  (0 <= k <= 365)%Z ->
  (k = 365 -> r4 = 3 /\ (q4 <> 24 \/ q100 = 3))%Z ->
  let y := (400 * q400 + 100 * q100 + 4 * q4 + r4 + 1)%Z in
  let leapyear := ((r4 =? 3) && (negb (q4 =? 24) || (q100 =? 3)))%Z in
  _ord2ymd (146097 * q400 + 36524 * q100 + 1461 * q4 + 365 * r4 + k + 1) =
  if (k =? 365)%Z then Done (y, 12%Z, 31%Z)
  else oassert (Bool.eqb leapyear (is_leap y)) ;;+ month_and_day y leapyear k.
Proof.
  intros H100 H4 H1 Hk Hleap y leapyear.
  unfold _ord2ymd.
  change _DI400Y with 146097%Z. change _DI100Y with 36524%Z. change _DI4Y with 1461%Z.
  set (n0 := (146097 * q400 + 36524 * q100 + 1461 * q4 + 365 * r4 + k + 1 - 1)%Z).
  assert (E400 : (n0 / 146097 = q400)%Z).
  { subst n0. symmetry. apply Z.div_unique with (r := (36524 * q100 + 1461 * q4 + 365 * r4 + k)%Z); lia. }
  assert (M400 : (n0 mod 146097 = 36524 * q100 + 1461 * q4 + 365 * r4 + k)%Z).
  { subst n0. symmetry. apply Z.mod_unique with (q := q400); lia. }
  rewrite E400, M400. clear E400 M400 n0.
  destruct (Z.eq_dec k 365%Z) as [K | K].
  - destruct (Hleap K) as [-> Hc]. subst k. cbn [Z.eqb Pos.eqb].
    destruct (Z.eq_dec q4 24%Z) as [-> | Hq4].
    + assert (q100 = 3)%Z as -> by lia. subst y. vm_compute Z.div. 
      replace (400 * q400 + 100 * 3 + 4 * 24 + 3 + 1)%Z with (q400 * 400 + 1 + 400 - 1)%Z by lia.
      reflexivity.
    + set (n1 := (36524 * q100 + 1461 * q4 + 365 * 3 + 365)%Z).
      assert (E100 : (n1 / 36524 = q100)%Z).
      { subst n1. symmetry. apply Z.div_unique with (r := (1461 * q4 + 365 * 3 + 365)%Z); lia. }
      assert (M100 : (n1 mod 36524 = 1461 * q4 + 365 * 3 + 365)%Z).
      { subst n1. symmetry. apply Z.mod_unique with (q := q100); lia. }
      rewrite E100, M100. clear E100 M100 n1.
      set (n2 := (1461 * q4 + 365 * 3 + 365)%Z).
      assert (E4 : (n2 / 1461 = q4)%Z).
      { subst n2. symmetry. apply Z.div_unique with (r := 1460%Z); lia. }
      assert (M4 : (n2 mod 1461 = 1460)%Z).
      { subst n2. symmetry. apply Z.mod_unique with (q := q4); lia. }
      rewrite E4, M4. clear E4 M4 n2.
      change (1460 / 365)%Z with 4%Z. change (1460 mod 365)%Z with 0%Z.
      cbn [Z.eqb Pos.eqb orb oassert obind]. subst y. do 3 f_equal. lia.
  - replace (k =? 365)%Z with false by lia.
    set (n1 := (36524 * q100 + 1461 * q4 + 365 * r4 + k)%Z).
    assert (E100 : (n1 / 36524 = q100)%Z).
    { subst n1. symmetry. apply Z.div_unique with (r := (1461 * q4 + 365 * r4 + k)%Z); lia. }
    assert (M100 : (n1 mod 36524 = 1461 * q4 + 365 * r4 + k)%Z).
    { subst n1. symmetry. apply Z.mod_unique with (q := q100); lia. }
    rewrite E100, M100. clear E100 M100 n1.
    set (n2 := (1461 * q4 + 365 * r4 + k)%Z).
    assert (E4 : (n2 / 1461 = q4)%Z).
    { subst n2. symmetry. apply Z.div_unique with (r := (365 * r4 + k)%Z); lia. }
    assert (M4 : (n2 mod 1461 = 365 * r4 + k)%Z).
    { subst n2. symmetry. apply Z.mod_unique with (q := q4); lia. }
    rewrite E4, M4. clear E4 M4 n2.
    set (n3 := (365 * r4 + k)%Z).
    assert (E1 : (n3 / 365 = r4)%Z).
    { subst n3. symmetry. apply Z.div_unique with (r := k); lia. }
    assert (M1 : (n3 mod 365 = k)%Z).
    { subst n3. symmetry. apply Z.mod_unique with (q := r4); lia. }
    rewrite E1, M1. clear E1 M1 n3.
    replace (r4 =? 4)%Z with false by lia.
    replace (q100 =? 4)%Z with false by lia.
    cbn [orb]. fold leapyear.
    replace (q400 * 400 + 1 + (q100 * 100 + q4 * 4 + r4))%Z with y by (subst y; lia).
    reflexivity.
Qed.

Ltac table_lookup :=
  repeat match goal with
  | |- context [List.nth (Z.to_nat ?c) ?l ?z] =>
      let v := eval vm_compute in (List.nth (Z.to_nat c) l z) in
      change (List.nth (Z.to_nat c) l z) with v
  end.

Lemma days_before_month_table :
  _DAYS_BEFORE_MONTH = [-1; 0; 31; 59; 90; 120; 151; 181; 212; 243; 273; 304; 334]%Z.
Proof. reflexivity. Qed.

Lemma offset_in_year_bounds (y m d : Z) :
  (1 <= m <= 12)%Z -> (1 <= d <= days_in_month y m)%Z ->
  (0 <= offset_in_year y m d <= 364 + Z.b2z (is_leap y))%Z /\
  (offset_in_year y m d = 365 -> m = 12 /\ d = 31)%Z.
Proof.
  intros Hm. unfold offset_in_year, days_in_month.
  destruct (is_leap y); month_cases m; table_lookup; cbn; lia.
Qed.

Lemma year_decomposition (y : Z) :
  exists q400 q100 q4 r4 : Z,
    (0 <= q100 < 4 /\ 0 <= q4 < 25 /\ 0 <= r4 < 4)%Z /\
    (y = 400 * q400 + 100 * q100 + 4 * q4 + r4 + 1)%Z /\
    (_days_before_year y = 146097 * q400 + 36524 * q100 + 1461 * q4 + 365 * r4)%Z /\
    is_leap y = ((r4 =? 3) && (negb (q4 =? 24) || (q100 =? 3)))%Z.
Proof.
  exists ((y - 1) / 400)%Z, ((y - 1) mod 400 / 100)%Z, ((y - 1) mod 100 / 4)%Z,
    ((y - 1) mod 4)%Z.
  unfold _days_before_year, is_leap.
  repeat split; Z.div_mod_to_equations; lia.
Qed.

Lemma ord2ymd_day_number (y m d : Z) :
  (1 <= m <= 12)%Z -> (1 <= d <= days_in_month y m)%Z ->
  _ord2ymd (day_number (Date y m d)) = Done (y, m, d).
Proof.
  unfold day_number. cbn [year month day]. intros Hm Hd.
  destruct (year_decomposition y) as (q400 & q100 & q4 & r4 & Hr & Ey & Eb & El).
  destruct (offset_in_year_bounds y m d Hm Hd) as [Hk Hlast].
  pose proof (month_and_day_spec y m d Hm Hd) as Hmd.
  set (k := offset_in_year y m d) in *.
  replace (_days_before_year y + _ + d)%Z
    with (146097 * q400 + 36524 * q100 + 1461 * q4 + 365 * r4 + k + 1)%Z.
  2: { subst k; unfold offset_in_year. rewrite Eb. ring. }
  assert (Hk' : (0 <= k <= 365)%Z) by (destruct (is_leap y); cbn in Hk; lia).
  assert (Hleap : (k = 365 -> r4 = 3 /\ (q4 <> 24 \/ q100 = 3))%Z).
  { intros K. rewrite K in Hk. destruct (is_leap y); cbn in Hk; [| lia].
    symmetry in El. apply andb_prop in El. destruct El as [E1 E2].
    apply orb_prop in E2. rewrite negb_true_iff in E2. lia. }
  rewrite ord2ymd_decomposed by (assumption || lia).
  rewrite <- Ey, <- El.
  destruct (k =? 365)%Z eqn:K.
  - apply Z.eqb_eq in K. destruct (Hlast K) as [-> ->]. reflexivity.
  - rewrite Bool.eqb_reflx. exact Hmd.
Qed.

Ltac b2z_compute :=
  repeat match goal with
  | |- context [Z.b2z ?b] =>
      let v := eval vm_compute in (Z.b2z b) in
      change (Z.b2z b) with v
  end.

Lemma day_number_next_day (d : date) :
  (1 <= month d <= 12)%Z -> (1 <= day d <= days_in_month (year d) (month d))%Z ->
  day_number (next_day d) = (day_number d + 1)%Z.
Proof.
  destruct d as [y m d]. cbn [year month day]. intros Hm Hd.
  unfold next_day. cbn [year month day].
  destruct (d <? days_in_month y m)%Z eqn:E1.
  - unfold day_number. cbn [year month day]. lia.
  - assert (d = days_in_month y m) by lia. subst d.
    destruct (m <? 12)%Z eqn:E2.
    + unfold day_number, days_in_month. cbn [year month day].
      assert (m <= 11)%Z by lia.
      destruct (is_leap y); month_cases m; try lia; table_lookup; b2z_compute; cbn [Z.eqb Pos.eqb orb]; lia.
    + assert (m = 12)%Z by lia. subst m.
      unfold day_number. cbn [year month day]. rewrite days_before_year_succ.
      table_lookup. change ((2 <? 1)%Z && is_leap (y + 1)) with false.
      unfold days_in_month. destruct (is_leap y); b2z_compute; cbn [Z.eqb Pos.eqb orb]; lia.
Qed.

Lemma next_day_month_day (d : date) :
  (1 <= month d <= 12)%Z -> (1 <= day d <= days_in_month (year d) (month d))%Z ->
  (1 <= month (next_day d) <= 12)%Z /\
  (1 <= day (next_day d) <= days_in_month (year (next_day d)) (month (next_day d)))%Z /\
  (year d <= year (next_day d))%Z.
Proof.
  destruct d as [y m d]. cbn [year month day]. intros Hm Hd.
  unfold next_day. cbn [year month day].
  destruct (d <? days_in_month y m)%Z eqn:E1; cbn [year month day]; [lia|].
  destruct (m <? 12)%Z eqn:E2; cbn [year month day].
  - pose proof (days_in_month_bounds y (m + 1)). lia.
  - pose proof (days_in_month_bounds (y + 1) 1). lia.
Qed.

Lemma days_before_year_bounds (y : Z) :
  (1 <= y <= 9999)%Z -> (0 <= _days_before_year y <= 3651694)%Z.
Proof. unfold _days_before_year. intros H. Z.div_mod_to_equations. lia. Qed.

Lemma days_before_year_mono (y y' : Z) :
  (y <= y')%Z -> (_days_before_year y <= _days_before_year y')%Z.
Proof.
  intros H. pattern y'. apply Z.le_ind with (n := y); try exact H.
  - intros a b ->. reflexivity.
  - lia.
  - intros m _ IH. replace (Z.succ m) with (m + 1)%Z by lia.
    rewrite days_before_year_succ.
    destruct (is_leap m); cbn [Z.b2z]; lia.
Qed.

Lemma day_number_offset (y m d : Z) :
  day_number (Date y m d) = (_days_before_year y + offset_in_year y m d + 1)%Z.
Proof. unfold day_number, offset_in_year. cbn [year month day]. ring. Qed.

Lemma day_number_bounds (d : date) :
  valid d = true -> (1 <= day_number d <= _MAXORDINAL)%Z.
Proof.
  destruct d as [y m d]. unfold valid. cbn [year month day]. intros Hv.
  apply valid_date_inv in Hv. destruct Hv as (Hy & Hm & Hd).
  rewrite day_number_offset.
  destruct (offset_in_year_bounds y m d Hm Hd) as [Hk _].
  pose proof (days_before_year_bounds y Hy).
  pose proof (days_before_year_succ y) as Hs.
  pose proof (days_before_year_mono (y + 1) 10000 ltac:(lia)) as Hmax.
  change (_days_before_year 10000) with 3652059%Z in Hmax.
  unfold _MAXORDINAL. lia.
Qed.
Lemma valid_month_day (d : date) :
  valid d = true ->
  (1 <= year d <= 9999)%Z /\ (1 <= month d <= 12)%Z /\
  (1 <= day d <= days_in_month (year d) (month d))%Z.
Proof. unfold valid. apply valid_date_inv. Qed.

Lemma valid_intro (d : date) :
  (1 <= year d <= 9999)%Z -> (1 <= month d <= 12)%Z ->
  (1 <= day d <= days_in_month (year d) (month d))%Z -> valid d = true.
Proof. unfold valid, valid_date. intros. lia. Qed.

Lemma day_number_injective (a b : date) :
  (1 <= month a <= 12)%Z -> (1 <= day a <= days_in_month (year a) (month a))%Z ->
  (1 <= month b <= 12)%Z -> (1 <= day b <= days_in_month (year b) (month b))%Z ->
  day_number a = day_number b -> a = b.
Proof.
  destruct a as [y m d], b as [y' m' d']. cbn [year month day].
  intros Hm Hd Hm' Hd' E.
  pose proof (ord2ymd_day_number y m d Hm Hd) as R.
  rewrite E, (ord2ymd_day_number y' m' d' Hm' Hd') in R. congruence.
Qed.

Lemma fromordinal_day_number (d : date) :
  valid d = true -> fromordinal (day_number d) = Done d.
Proof.
  intros Hv. pose proof Hv as Hv'. apply valid_month_day in Hv' as (_ & Hm & Hd).
  destruct d as [y m d]. unfold fromordinal.
  rewrite ord2ymd_day_number by assumption. cbn [obind].
  unfold date_new. unfold valid in Hv. cbn [year month day] in Hv. rewrite Hv.
  reflexivity.
Qed.

Lemma days_after_succ (n : nat) (d : date) :
  days_after (S n) d = days_after n (next_day d).
Proof. induction n as [|n IH]; [reflexivity|]. cbn [days_after] in *. rewrite IH. reflexivity. Qed.

Lemma days_after_month_day (n : nat) (d : date) :
  (1 <= month d <= 12)%Z -> (1 <= day d <= days_in_month (year d) (month d))%Z ->
  (1 <= month (days_after n d) <= 12)%Z /\
  (1 <= day (days_after n d)
   <= days_in_month (year (days_after n d)) (month (days_after n d)))%Z /\
  (year d <= year (days_after n d))%Z /\
  day_number (days_after n d) = (day_number d + Z.of_nat n)%Z.
Proof.
  intros Hm Hd. induction n as [|n (IHm & IHd & IHy & IHn)].
  - cbn [days_after]. repeat split; lia.
  - cbn [days_after].
    destruct (next_day_month_day _ IHm IHd) as (Nm & Nd & Ny).
    rewrite day_number_next_day by assumption.
    repeat split; lia.
Qed.

(** Counting days: [b] is the [n]-th day after [a] exactly when their day
    numbers differ by [n]. *)
Lemma days_after_iff (n : nat) (a b : date) :
  valid a = true -> valid b = true ->
  days_after n a = b <-> day_number b = (day_number a + Z.of_nat n)%Z.
Proof.
  intros Ha Hb. apply valid_month_day in Ha as (_ & Hm & Hd).
  apply valid_month_day in Hb as (_ & Hm' & Hd').
  destruct (days_after_month_day n a Hm Hd) as (Nm & Nd & _ & Nn).
  split.
  - intros <-. exact Nn.
  - intros E. apply day_number_injective; try assumption. lia.
Qed.

Lemma last_day_number : day_number (Date 9999 12 31) = _MAXORDINAL.
Proof. reflexivity. Qed.

Lemma valid_next_day (d : date) :
  valid d = true -> (day_number d < _MAXORDINAL)%Z -> valid (next_day d) = true.
Proof.
  intros Hv Hlt. pose proof Hv as Hv'. apply valid_month_day in Hv' as (Hy & Hm & Hd).
  destruct (next_day_month_day d Hm Hd) as (Nm & Nd & Ny).
  apply valid_intro; try assumption.
  split; [lia|].
  destruct d as [y m d]. cbn [year month day] in *.
  unfold next_day in *. cbn [year month day] in *.
  destruct (d <? days_in_month y m)%Z eqn:E1; cbn [year]; [lia|].
  destruct (m <? 12)%Z eqn:E2; cbn [year]; [lia|].
  assert (m = 12)%Z by lia. subst m.
  change (days_in_month y 12) with 31%Z in *.
  assert (d = 31)%Z by lia. subst d.
  destruct (Z.eq_dec y 9999%Z) as [-> | Hne]; [| lia].
  rewrite last_day_number in Hlt. lia.
Qed.

(** Every number from 1 to the largest ordinal is the number of a day. *)
Lemma day_number_surjective (o : Z) :
  (1 <= o <= _MAXORDINAL)%Z -> exists d : date, valid d = true /\ day_number d = o.
Proof.
  intros [Hlo Hhi]. revert Hhi. pattern o. apply Z.le_ind with (n := 1%Z); try exact Hlo.
  - intros a b ->. reflexivity.
  - intros _. exists (Date 1 1 1). split; reflexivity.
  - intros m Hm IH Hhi. destruct IH as (d & Hv & Hn); [lia|].
    exists (next_day d). pose proof Hv as Hv'.
    apply valid_month_day in Hv' as (_ & Hmo & Hda).
    split.
    + apply valid_next_day; [exact Hv | lia].
    + rewrite day_number_next_day by assumption. lia.
Qed.

Lemma fromordinal_spec (o : Z) :
  (1 <= o <= _MAXORDINAL)%Z ->
  exists d : date, fromordinal o = Done d /\ valid d = true /\ day_number d = o.
Proof.
  intros Ho. destruct (day_number_surjective o Ho) as (d & Hv & Hn).
  exists d. rewrite <- Hn at 1. rewrite fromordinal_day_number by exact Hv. auto.
Qed.

Lemma date_cmp_day_number (a b : date) :
  valid a = true -> valid b = true ->
  date_cmp a b = (day_number a ?= day_number b)%Z.
Proof.
  intros Ha Hb. apply valid_month_day in Ha as (Hy & Hm & Hd).
  apply valid_month_day in Hb as (Hy' & Hm' & Hd').
  destruct a as [y m d], b as [y' m' d']. cbn [year month day] in *.
  rewrite !day_number_offset. unfold date_cmp. cbn [year month day].
  destruct (offset_in_year_bounds y m d Hm Hd) as [Hk _].
  destruct (offset_in_year_bounds y' m' d' Hm' Hd') as [Hk' _].
  pose proof (days_before_year_succ y) as Hs.
  pose proof (days_before_year_succ y') as Hs'.
  destruct (Z.compare_spec y y') as [-> | Hlt | Hgt].
  - destruct (Z.compare_spec m m') as [-> | Hlt | Hgt].
    + unfold offset_in_year.
      destruct (Z.compare_spec d d'); symmetry;
        [apply Z.compare_eq_iff | apply Z.compare_lt_iff | apply Z.compare_gt_iff]; lia.
    + symmetry. apply Z.compare_lt_iff.
      enough (offset_in_year y' m d < offset_in_year y' m' d')%Z by lia.
      revert Hd Hd'. unfold offset_in_year, days_in_month.
      destruct (is_leap y'); month_cases m; month_cases m'; try lia;
        table_lookup; b2z_compute; cbn [Z.eqb Pos.eqb orb]; lia.
    + symmetry. apply Z.compare_gt_iff.
      enough (offset_in_year y' m' d' < offset_in_year y' m d)%Z by lia.
      revert Hd Hd'. unfold offset_in_year, days_in_month.
      destruct (is_leap y'); month_cases m; month_cases m'; try lia;
        table_lookup; b2z_compute; cbn [Z.eqb Pos.eqb orb]; lia.
  - symmetry. apply Z.compare_lt_iff.
    pose proof (days_before_year_mono (y + 1) y' ltac:(lia)). lia.
  - symmetry. apply Z.compare_gt_iff.
    pose proof (days_before_year_mono (y' + 1) y ltac:(lia)). lia.
Qed.

Lemma date_le_day_number (a b : date) :
  valid a = true -> valid b = true ->
  date_le a b = (day_number a <=? day_number b)%Z.
Proof.
  intros Ha Hb. unfold date_le, Z.leb. rewrite date_cmp_day_number by assumption.
  reflexivity.
Qed.
(** ** The date window of the Invoice Date filter test *)

Lemma lstrip_spec (s : str) :
  exists ws, s = ws ++ lstrip s /\ forallb isspace ws = true /\
    (forall c s', lstrip s = c :: s' -> isspace c = false).
Proof.
  induction s as [|c s (ws & E & Hws & Hh)].
  - exists []. repeat split. intros ? ? [=].
  - cbn [lstrip]. destruct (isspace c) eqn:Ec.
    + exists (c :: ws). cbn [app forallb]. rewrite Ec, Hws. repeat split; [|exact Hh].
      f_equal. exact E.
    + exists []. repeat split. intros c' s' [= <- _]. exact Ec.
Qed.

Lemma lstrip_fixed (s : str) :
  (forall c s', s = c :: s' -> isspace c = false) -> lstrip s = s.
Proof.
  destruct s as [|c s]; [reflexivity|]. intros H. apply lstrip_head.
  eapply H. reflexivity.
Qed.

Lemma lstrip_idempotent (s : str) : lstrip (lstrip s) = lstrip s.
Proof. destruct (lstrip_spec s) as (ws & _ & _ & H). apply lstrip_fixed. exact H. Qed.

Lemma rstrip_idempotent (s : str) : rstrip (rstrip s) = rstrip s.
Proof.
  unfold rstrip. rewrite List.rev_involutive, lstrip_idempotent. reflexivity.
Qed.

Lemma rstrip_spec (s : str) :
  exists ws, s = rstrip s ++ ws /\ forallb isspace ws = true /\
    (forall c s', rstrip s = s' ++ [c] -> isspace c = false).
Proof.
  destruct (lstrip_spec (List.rev s)) as (ws & E & Hws & Hh).
  exists (List.rev ws). unfold rstrip. repeat split.
  - rewrite <- List.rev_app_distr, <- E, List.rev_involutive. reflexivity.
  - rewrite forallb_forall in *. intros x Hx. apply Hws. apply List.in_rev. exact Hx.
  - intros c s' Hr. apply (Hh c (List.rev s')).
    rewrite <- (List.rev_involutive (lstrip (List.rev s))), Hr, List.rev_app_distr.
    reflexivity.
Qed.

Lemma strip_idempotent (s : str) : strip (strip s) = strip s.
Proof.
  destruct (lstrip_spec s) as (ws1 & _ & _ & Hhead).
  destruct (rstrip_spec (lstrip s)) as (ws2 & E & _ & Hlast).
  apply strip_clean.
  - unfold strip. intros c s' Hs. rewrite Hs in E. apply (Hhead c (s' ++ ws2)). exact E.
  - exact Hlast.
Qed.

Lemma date_new_valid (y m d : Z) (r : date) : date_new y m d = Return r -> valid r = true.
Proof.
  unfold date_new. destruct (valid_date y m d) eqn:E; [|discriminate].
  intros [= <-]. exact E.
Qed.

Lemma strptime_valid (text fmt : str) (d : date) :
  strptime text fmt = Return d -> valid d = true.
Proof.
  unfold strptime.
  destruct (format_items false fmt) as [items|]; [|discriminate]. cbn [rbind].
  destruct (negb _); [discriminate|].
  destruct (re_match _ _) as [[found rest]|]; [|discriminate].
  destruct rest; [|discriminate].
  destruct (convert_groups _ _) as [[[yr mo] dy]|]; [|discriminate]. cbn [rbind].
  destruct (match yr with Some y => _ | None => _ end) as [y fix_].
  destruct (date_new y mo dy); [|discriminate]. cbn [rbind].
  apply date_new_valid.
Qed.

Lemma try_formats_valid (text : str) (formats : list str) (d : date) :
  try_formats text formats = Return d -> valid d = true.
Proof.
  induction formats as [|f formats IH]; [discriminate|].
  cbn [try_formats]. destruct (strptime text f) as [d0|e] eqn:E.
  - intros [= <-]. eapply strptime_valid. exact E.
  - destruct e; try discriminate. exact IH.
Qed.
Lemma days_before_year_lower (y : Z) :
  (1 <= y)%Z -> (365 * (y - 1) <= _days_before_year y)%Z.
Proof. unfold _days_before_year. intros H. Z.div_mod_to_equations. lia. Qed.

Lemma timedelta_new_small (n : Z) :
  (Z.abs n <= 999999999)%Z -> timedelta_new n = Done (Timedelta n).
Proof. intros H. unfold timedelta_new. replace (999999999 <? Z.abs n)%Z with false by lia. reflexivity. Qed.

Lemma timedelta_new_large (n : Z) :
  (999999999 < Z.abs n)%Z -> timedelta_new n = Fail OverflowError.
Proof. intros H. unfold timedelta_new. replace (999999999 <? Z.abs n)%Z with true by lia. reflexivity. Qed.

(** [today - timedelta(days=n)] is the day whose number is [n] less, when
    there is one. *)
Lemma date_sub_spec (today : date) (n : Z) :
  valid today = true -> (Z.abs n <= 999999999)%Z ->
  if ((1 <=? day_number today - n) && (day_number today - n <=? _MAXORDINAL))%Z
  then exists d, date_sub today (Timedelta n) = Done d /\ valid d = true /\
                 day_number d = (day_number today - n)%Z
  else date_sub today (Timedelta n) = Fail OverflowError.
Proof.
  intros Hv Hn. unfold date_sub. cbn [days].
  rewrite timedelta_new_small by lia. cbn [obind].
  unfold date_add. rewrite toordinal_valid by exact Hv. cbn [obind days].
  replace (day_number today + - n)%Z with (day_number today - n)%Z by lia.
  replace (0 <? day_number today - n)%Z with (1 <=? day_number today - n)%Z by lia.
  destruct ((1 <=? day_number today - n) && (day_number today - n <=? _MAXORDINAL))%Z eqn:E;
    [|reflexivity].
  destruct (fromordinal_spec (day_number today - n)) as (d & Hd & Hvd & Hnd); [lia|].
  exists d. auto.
Qed.

Section Window.
Import InvoiceDateField InvoiceDateFieldTest.
Context {Page : Type} {browser : Browser Page}.

Lemma parse_invoice_date_strip (text : str) :
  parse_invoice_date (strip text) = parse_invoice_date text.
Proof. unfold parse_invoice_date. rewrite strip_idempotent. reflexivity. Qed.

Lemma parse_invoice_date_empty (text : str) :
  strip text = [] -> parse_invoice_date text = Raise AssertionError.
Proof. unfold parse_invoice_date. intros ->. vm_compute. reflexivity. Qed.

Lemma within_days_iff (inv_date today : date) (max_days : Z) :
  valid inv_date = true -> valid today = true ->
  within_days inv_date today max_days <->
  (day_number today - max_days <= day_number inv_date <= day_number today)%Z.
Proof.
  intros Hi Ht. unfold within_days. split.
  - intros (k & Hk & E). apply days_after_iff in E; [lia | assumption | assumption].
  - intros H. exists (Z.to_nat (day_number today - day_number inv_date)). split; [lia|].
    apply days_after_iff; [assumption | assumption | lia].
Qed.

(** The steps of [verify_first_date_within_days] once the cell is read. *)
Lemma verify_unfold (page : Page) (today : date) (max_days : Z) :
  locator_visible page invoice_date_cells = true ->
  verify_first_date_within_days page today max_days =
  (let+ inv_date := lift (parse_invoice_date (locator_inner_text page invoice_date_cells)) in
   let+ delta := timedelta_new max_days in
   let+ min_date := date_sub today delta in
   oassert (date_le min_date inv_date && date_le inv_date today)).
Proof.
  intros Hvis. unfold verify_first_date_within_days, get_first_invoice_date_cell, wait_for.
  rewrite Hvis. cbn [lift obind].
  rewrite parse_invoice_date_strip.
  destruct (str_eqb (strip (locator_inner_text page invoice_date_cells)) []) eqn:E.
  - apply bool_decide_eq_true in E. rewrite (parse_invoice_date_empty _ E). reflexivity.
  - reflexivity.
Qed.

Lemma verify_not_visible (page : Page) (today : date) (max_days : Z) :
  locator_visible page invoice_date_cells = false ->
  verify_first_date_within_days page today max_days = Fail (Builtin TimeoutError).
Proof.
  intros Hvis. unfold verify_first_date_within_days, get_first_invoice_date_cell, wait_for.
  rewrite Hvis. reflexivity.
Qed.

Lemma verify_passes_iff (page : Page) (today : date) (max_days : Z) :
  valid today = true ->
  (0 <= max_days <= 365 * (year today - 1))%Z ->
  verify_first_date_within_days page today max_days = Done tt <->
  shows_recent_date page today max_days.
Proof.
  intros Hv Hmax. unfold shows_recent_date.
  pose proof (valid_month_day today Hv) as (Hy & _ & _).
  pose proof (days_before_year_lower (year today) ltac:(lia)) as Hlow.
  pose proof (day_number_bounds today Hv) as Hb.
  assert (Hnum : (_days_before_year (year today) < day_number today)%Z).
  { destruct today as [y m d]. rewrite day_number_offset. cbn [year] in *.
    apply valid_month_day in Hv as (_ & Hm & Hd). cbn [year month day] in *.
    destruct (offset_in_year_bounds y m d Hm Hd) as [Hk _]. lia. }
  destruct (locator_visible page invoice_date_cells) eqn:Hvis.
  2: { rewrite verify_not_visible by exact Hvis. split; [discriminate|]. intros [? _]. discriminate. }
  rewrite verify_unfold by exact Hvis.
  destruct (parse_invoice_date (locator_inner_text page invoice_date_cells)) as [inv|e] eqn:Hp.
  2: { cbn [lift obind]. split; [discriminate|]. intros [_ (? & [=] & _)]. }
  pose proof (try_formats_valid _ _ _ Hp) as Hvi.
  cbn [lift obind]. rewrite timedelta_new_small by lia. cbn [obind].
  pose proof (date_sub_spec today max_days Hv ltac:(lia)) as Hsub.
  replace ((1 <=? day_number today - max_days) &&
           (day_number today - max_days <=? _MAXORDINAL))%Z with true in Hsub by lia.
  destruct Hsub as (min_date & -> & Hvm & Hnm). cbn [obind].
  rewrite !date_le_day_number by assumption. rewrite Hnm.
  pose proof (within_days_iff inv today max_days Hvi Hv) as Hw.
  unfold oassert.
  destruct ((day_number today - max_days <=? day_number inv) &&
            (day_number inv <=? day_number today))%Z eqn:E.
  - split; [|reflexivity]. intros _. split; [reflexivity|]. exists inv.
    split; [reflexivity|]. apply Hw. lia.
  - split; [discriminate|]. intros [_ (inv' & [= <-] & Hw')]. apply Hw in Hw'. lia.
Qed.

Lemma days_before_iff (d today : date) (n : Z) :
  valid d = true -> valid today = true ->
  days_before d today n <-> day_number d = (day_number today - n)%Z.
Proof.
  intros Hd Ht. unfold days_before. destruct (0 <=? n)%Z eqn:E.
  - rewrite days_after_iff by assumption. lia.
  - rewrite days_after_iff by assumption. lia.
Qed.

Lemma verify_errors (page : Page) (today : date) (max_days : Z) :
  valid today = true ->
  (forall e, verify_first_date_within_days page today max_days = Fail e ->
     e = Builtin TimeoutError \/ e = Builtin AssertionError \/ e = OverflowError) /\
  (verify_first_date_within_days page today max_days = Fail OverflowError <->
   locator_visible page invoice_date_cells = true /\
   (exists inv_date,
      parse_invoice_date (locator_inner_text page invoice_date_cells) = Return inv_date) /\
   ((999999999 < Z.abs max_days)%Z \/
    ~ exists d, valid d = true /\ days_before d today max_days)).
Proof.
  intros Hv.
  destruct (locator_visible page invoice_date_cells) eqn:Hvis.
  2: { rewrite verify_not_visible by exact Hvis. split.
       - intros e [= <-]. auto.
       - split; [discriminate|]. intros [? _]. discriminate. }
  rewrite verify_unfold by exact Hvis.
  destruct (parse_invoice_date (locator_inner_text page invoice_date_cells)) as [inv|e0] eqn:Hp.
  2: { cbn [lift obind]. 
       destruct (parse_invoice_date_outcomes (locator_inner_text page invoice_date_cells))
         as (_ & Honly & _).
       rewrite (Honly e0 Hp). split.
       - intros e [= <-]. auto.
       - split; [discriminate|]. intros (_ & [? [=]] & _). }
  pose proof (try_formats_valid _ _ _ Hp) as Hvi.
  cbn [lift obind].
  destruct (Z.ltb_spec 999999999 (Z.abs max_days)) as [Hbig | Hsmall].
  { rewrite timedelta_new_large by exact Hbig. cbn [obind]. split.
    - intros e [= <-]. auto.
    - split; [|reflexivity]. intros _. split; [reflexivity|]. split; [eauto|]. left. exact Hbig. }
  rewrite timedelta_new_small by exact Hsmall. cbn [obind].
  pose proof (date_sub_spec today max_days Hv Hsmall) as Hsub.
  destruct ((1 <=? day_number today - max_days) &&
            (day_number today - max_days <=? _MAXORDINAL))%Z eqn:E.
  - destruct Hsub as (min_date & -> & Hvm & Hnm). cbn [obind]. unfold oassert.
    destruct (date_le min_date inv && date_le inv today); split.
    + discriminate.
    + split; [discriminate|]. intros (_ & _ & [Hbig | Hno]); [lia|].
      exfalso. apply Hno. exists min_date. split; [exact Hvm|].
      apply days_before_iff; assumption.
    + intros e [= <-]. auto.
    + split; [discriminate|]. intros (_ & _ & [Hbig | Hno]); [lia|].
      exfalso. apply Hno. exists min_date. split; [exact Hvm|].
      apply days_before_iff; assumption.
  - rewrite Hsub. cbn [obind]. split.
    + intros e [= <-]. auto.
    + split; [|reflexivity]. intros _. split; [reflexivity|]. split; [eauto|]. right.
      intros (d & Hvd & Hd). apply days_before_iff in Hd; try assumption.
      pose proof (day_number_bounds d Hvd). lia.
Qed.

End Window.

(** X1. With a valid [today] whose year leaves room for [max_days] days
    before it, [verify_first_date_within_days] passes exactly when the
    first invoice date cell is shown and its text parses to a date that is
    [today] or one of the [max_days] days before it. *)
Theorem verify_first_date_within_days_spec {Page : Type} `{Browser Page}
    (page : Page) (today : date) (max_days : Z) :
  valid today = true ->
  (0 <= max_days <= 365 * (year today - 1))%Z ->
  InvoiceDateFieldTest.verify_first_date_within_days page today max_days = Done tt <->
  shows_recent_date page today max_days.
Proof. apply verify_passes_iff. Qed.

Lemma verify_first_date_within_days_spec_witness :
  InvoiceDateFieldTest.verify_first_date_within_days
    [invoice_date_page "12" "Last 30 Days" " Oct. 20, 2026 "] (Date 2026 11 3) 30 = Done tt.
Proof.
  apply (verify_first_date_within_days_spec
           [invoice_date_page "12" "Last 30 Days" " Oct. 20, 2026 "] (Date 2026 11 3) 30).
  - reflexivity.
  - cbn. lia.
  - split; [vm_compute; reflexivity|]. exists (Date 2026 10 20).
    split; [vm_compute; reflexivity|]. exists 14%nat. split; [lia | vm_compute; reflexivity].
Defined.

(** X2. With a valid [today], [verify_first_date_within_days] fails only
    with a timeout (the cell is not shown), an [AssertionError] or an
    [OverflowError]; and with an [OverflowError] exactly when the cell
    shows a date and [max_days] is above 999999999 in size or no day of the
    years 1 to 9999 lies [max_days] days before [today]. *)
Theorem verify_first_date_within_days_raises {Page : Type} `{Browser Page}
    (page : Page) (today : date) (max_days : Z) :
  valid today = true ->
  (forall e, InvoiceDateFieldTest.verify_first_date_within_days page today max_days = Fail e ->
     e = Builtin TimeoutError \/ e = Builtin AssertionError \/ e = OverflowError) /\
  (InvoiceDateFieldTest.verify_first_date_within_days page today max_days = Fail OverflowError <->
   locator_visible page InvoiceDateFieldTest.invoice_date_cells = true /\
   (exists inv_date,
      InvoiceDateField.parse_invoice_date
        (locator_inner_text page InvoiceDateFieldTest.invoice_date_cells) = Return inv_date) /\
   ((999999999 < Z.abs max_days)%Z \/
    ~ exists d, valid d = true /\ days_before d today max_days)).
Proof. apply verify_errors. Qed.

Lemma verify_first_date_within_days_raises_witness :
  InvoiceDateFieldTest.verify_first_date_within_days
    [invoice_date_page "12" "Last 30 Days" "01/15/0001"] (Date 1 1 20) 30 = Fail OverflowError.
Proof.
  apply (proj2 (verify_first_date_within_days_raises
                  [invoice_date_page "12" "Last 30 Days" "01/15/0001"] (Date 1 1 20) 30
                  eq_refl)).
  split; [vm_compute; reflexivity|]. split; [exists (Date 1 1 15); vm_compute; reflexivity|].
  right. intros (d & Hd & Hb). apply days_before_iff in Hb; [|exact Hd|reflexivity].
  pose proof (day_number_bounds d Hd) as Hn. rewrite Hb in Hn. vm_compute in Hn.
  destruct Hn as [Hn _]. apply Hn. reflexivity.
Defined.

(** X3. A first-row date that passes the check for [max_days] days passes
    it for every longer window that [today]'s year leaves room for: what
    passes for the last 30 days passes for the last 60 and 90. *)
Theorem verify_first_date_within_days_wider {Page : Type} `{Browser Page}
    (page : Page) (today : date) (max_days max_days' : Z) :
  valid today = true ->
  (0 <= max_days <= max_days')%Z -> (max_days' <= 365 * (year today - 1))%Z ->
  InvoiceDateFieldTest.verify_first_date_within_days page today max_days = Done tt ->
  InvoiceDateFieldTest.verify_first_date_within_days page today max_days' = Done tt.
Proof.
  intros Hv Hle Hmax.
  rewrite !verify_passes_iff by (assumption || lia).
  intros (Hvis & inv & Hp & k & Hk & Hd). split; [exact Hvis|].
  exists inv. split; [exact Hp|]. exists k. split; [lia | exact Hd].
Qed.

Lemma verify_first_date_within_days_wider_witness :
  InvoiceDateFieldTest.verify_first_date_within_days
    [invoice_date_page "12" "Last 30 Days" " Oct. 20, 2026 "] (Date 2026 11 3) 90 = Done tt.
Proof.
  apply (verify_first_date_within_days_wider
           [invoice_date_page "12" "Last 30 Days" " Oct. 20, 2026 "] (Date 2026 11 3) 30 90).
  - reflexivity.
  - lia.
  - cbn. lia.
  - vm_compute. reflexivity.
Defined.

(** X24. For a valid [today], when [today - timedelta(days=n)] returns a
    date, it is a date of the calendar and lies exactly [n] days before
    [today]. *)
Theorem today_minus_timedelta (today : date) (n : Z) (min_date : date) :
  valid today = true ->
  (let+ delta := timedelta_new n in date_sub today delta) = Done min_date ->
  valid min_date = true /\ days_before min_date today n.
Proof.
  intros Hv. destruct (Z.ltb_spec 999999999 (Z.abs n)) as [Hbig | Hsmall].
  { rewrite timedelta_new_large by exact Hbig. discriminate. }
  rewrite timedelta_new_small by exact Hsmall. cbn [obind].
  pose proof (date_sub_spec today n Hv Hsmall) as Hsub.
  destruct ((1 <=? day_number today - n) && (day_number today - n <=? _MAXORDINAL))%Z.
  - destruct Hsub as (d & -> & Hvd & Hnd). intros [= <-]. split; [exact Hvd|].
    apply days_before_iff; assumption.
  - rewrite Hsub. discriminate.
Qed.

Lemma today_minus_timedelta_witness :
  valid (Date 2026 8 5) = true /\ days_before (Date 2026 8 5) (Date 2026 11 3) 90.
Proof.
  apply (today_minus_timedelta (Date 2026 11 3) 90 (Date 2026 8 5)).
  - reflexivity.
  - vm_compute. reflexivity.
Defined.
(** ** The inner function of the Invoice Date filter test *)

Lemma total_record_count_nonneg (inner_text : str) (n : Z) :
  ModelField.total_record_count_of_text inner_text = Return n -> (0 <= n)%Z.
Proof.
  intros Hn. destruct (total_record_count_of_text_spec inner_text) as (H1 & _).
  apply H1 in Hn. destruct Hn as (pre & ws & ds & post & _ & _ & ->). lia.
Qed.

Lemma get_total_record_count_nonneg {Page : Type} {browser : Browser Page}
    (page : Page) (n : Z) :
  ModelField.get_total_record_count page = Return n -> (0 <= n)%Z.
Proof.
  unfold ModelField.get_total_record_count, wait_for.
  destruct (locator_visible page _); [|discriminate]. cbn [rbind].
  apply total_record_count_nonneg.
Qed.

Section Exercise.
Import InvoiceDateField InvoiceDateFieldTest.
Context {Page : Type} {browser : Browser Page} {forms : Forms Page}.
Variables (clock : Page -> date) (label : str) (max_days : Z) (page : Page).
Hypothesis clock_valid : forall p, valid (clock p) = true.

Lemma find_invoice_date_header_raises (p : Page) (e : error) :
  find_invoice_date_header p = Fail e ->
  e = Builtin AssertionError \/ e = Builtin TimeoutError.
Proof.
  unfold find_invoice_date_header, oassert, wait_for.
  destruct (locator_count p _ =? 1)%Z; cbn [obind]; [|intros [= <-]; auto].
  destruct (locator_visible p _); cbn [lift obind]; [discriminate|].
  intros [= <-]. auto.
Qed.

Lemma verify_not_skipped (p : Page) :
  verify_first_date_within_days p (clock p) max_days <> Fail Skipped.
Proof.
  intros E.
  destruct (verify_errors p (clock p) max_days (clock_valid p))
    as [Hr _].
  destruct (Hr _ E) as [? | [? | ?]]; discriminate.
Qed.

Lemma exercise_skips_iff :
  let selected := select_option page (lit "#id_invoice_date") label in
  let searched :=
    click selected (lit "button[type='submit'].btn.btn-primary >> text=Search") in
  snd (_exercise_invoice_date_option clock label max_days page) = Fail Skipped <->
  strip (locator_inner_text selected
           (within (lit "#id_invoice_date") (lit "option:checked"))) = label /\
  locator_visible selected
    (lit "button[type='submit'].btn.btn-primary >> text=Search") = true /\
  get_total_record_count searched = Return 0%Z.
Proof.
  intros selected searched.
  unfold _exercise_invoice_date_option. fold selected.
  destruct (str_eqb _ label) eqn:El; cbn [negb].
  2: { cbn [snd]. split; [discriminate|]. intros [E _].
       apply bool_decide_eq_false in El. contradiction. }
  apply bool_decide_eq_true in El.
  destruct (locator_visible selected _) eqn:Ev; cbn [negb].
  2: { cbn [snd]. split; [discriminate|]. intros (_ & [=] & _). }
  fold searched.
  destruct (get_total_record_count searched) as [n|e] eqn:En.
  2: { cbn [snd]. split; [discriminate|]. intros (_ & _ & [=]). }
  destruct (n =? 0)%Z eqn:E0.
  { cbn [snd]. apply Z.eqb_eq in E0. subst n. split; auto. }
  assert (Hn : Return n <> Return 0%Z :> result Z).
  { intros [= ->]. discriminate E0. }
  destruct (n =? 1)%Z.
  { cbn [snd]. split; [intros E; exfalso; exact (verify_not_skipped _ E)|].
    intros (_ & _ & E). contradiction. }
  destruct (find_invoice_date_header searched) as [h1|e1] eqn:Eh1.
  2: { cbn [snd]. split; [|intros (_ & _ & E); contradiction].
       intros [= ->]. destruct (find_invoice_date_header_raises _ _ Eh1); discriminate. }
  destruct (verify_first_date_within_days (click searched h1) _ _) as [[]|e2] eqn:Ev1.
  2: { cbn [snd]. split; [|intros (_ & _ & E); contradiction].
       intros [= ->]. exfalso. exact (verify_not_skipped _ Ev1). }
  destruct (find_invoice_date_header (click searched h1)) as [h2|e3] eqn:Eh2.
  2: { cbn [snd]. split; [|intros (_ & _ & E); contradiction].
       intros [= ->]. destruct (find_invoice_date_header_raises _ _ Eh2); discriminate. }
  cbn [snd]. split; [intros E; exfalso; exact (verify_not_skipped _ E)|].
  intros (_ & _ & E). contradiction.
Qed.

End Exercise.

Section Exercise2.
Import InvoiceDateField InvoiceDateFieldTest.
Context {Page : Type} {browser : Browser Page} {forms : Forms Page}.
Variables (clock : Page -> date) (label : str) (max_days : Z) (page : Page).
Hypothesis clock_valid : forall p, valid (clock p) = true.
Hypothesis clock_late : forall p, (0 <= max_days <= 365 * (year (clock p) - 1))%Z.

Lemma verify_shows (p : Page) :
  verify_first_date_within_days p (clock p) max_days = Done tt ->
  shows_recent_date p (clock p) max_days.
Proof.
  intros E. apply verify_passes_iff in E; [exact E | apply clock_valid | apply clock_late].
Qed.

Lemma exercise_passes (page' : Page) :
  let selected := select_option page (lit "#id_invoice_date") label in
  let searched :=
    click selected (lit "button[type='submit'].btn.btn-primary >> text=Search") in
  _exercise_invoice_date_option clock label max_days page = (page', Done tt) ->
  exists n : Z,
    get_total_record_count searched = Return n /\ (1 <= n)%Z /\
    shows_recent_date page' (clock page') max_days /\
    (n = 1%Z -> page' = searched) /\
    ((2 <= n)%Z ->
     exists header1 header2,
       find_invoice_date_header searched = Done header1 /\
       find_invoice_date_header (click searched header1) = Done header2 /\
       page' = click (click searched header1) header2 /\
       shows_recent_date (click searched header1) (clock (click searched header1)) max_days).
Proof.
  intros selected searched.
  unfold _exercise_invoice_date_option. fold selected.
  destruct (str_eqb _ label); cbn [negb]; [|discriminate].
  destruct (locator_visible selected _); cbn [negb]; [|discriminate].
  fold searched.
  destruct (get_total_record_count searched) as [n|e] eqn:En; [|discriminate].
  pose proof (get_total_record_count_nonneg searched n En) as Hn.
  destruct (Z.eqb_spec n 0) as [-> | H0]; [discriminate|].
  destruct (Z.eqb_spec n 1) as [-> | H1].
  { intros [= <- E]. exists 1%Z. split; [reflexivity|]. split; [lia|].
    split; [apply verify_shows; exact E|]. split; [reflexivity | lia]. }
  destruct (find_invoice_date_header searched) as [h1|e1] eqn:Eh1; [|discriminate].
  destruct (verify_first_date_within_days (click searched h1) _ _) as [u|e2] eqn:Ev1;
    [destruct u|discriminate].
  destruct (find_invoice_date_header (click searched h1)) as [h2|e3] eqn:Eh2; [|discriminate].
  intros [= <- E]. exists n. split; [reflexivity|]. split; [lia|].
  split; [apply verify_shows; exact E|]. split; [lia|].
  intros _. exists h1, h2. split; [reflexivity|]. split; [exact Eh2|].
  split; [reflexivity|]. apply verify_shows. exact Ev1.
Qed.

End Exercise2.

(** X4. With a clock that shows valid dates, the inner function
    [_exercise_invoice_date_option] ends in a skip exactly when the option
    it selected is confirmed, the Search button is shown and the search
    returns a count of 0. *)
Theorem exercise_invoice_date_option_skips {Page : Type} `{Browser Page} `{Forms Page}
    (clock : Page -> date) (label : str) (max_days : Z) (page : Page) :
  (forall p, valid (clock p) = true) ->
  let selected := select_option page (lit "#id_invoice_date") label in
  let searched :=
    click selected (lit "button[type='submit'].btn.btn-primary >> text=Search") in
  snd (InvoiceDateFieldTest._exercise_invoice_date_option clock label max_days page) =
    Fail Skipped <->
  strip (locator_inner_text selected
           (within (lit "#id_invoice_date") (lit "option:checked"))) = label /\
  locator_visible selected
    (lit "button[type='submit'].btn.btn-primary >> text=Search") = true /\
  InvoiceDateField.get_total_record_count searched = Return 0%Z.
Proof. intros Hclock. apply exercise_skips_iff. exact Hclock. Qed.

Lemma exercise_invoice_date_option_skips_witness :
  snd (InvoiceDateFieldTest._exercise_invoice_date_option
         (fun _ => Date 2026 11 3) (lit "Last 30 Days") 30
         [blank_snapshot;
          invoice_date_page "12" "Last 30 Days" "2026-10-20";
          invoice_date_page "0" "Last 30 Days" ""]) = Fail Skipped.
Proof.
  apply (exercise_invoice_date_option_skips
           (fun _ => Date 2026 11 3) (lit "Last 30 Days") 30
           [blank_snapshot;
            invoice_date_page "12" "Last 30 Days" "2026-10-20";
            invoice_date_page "0" "Last 30 Days" ""]).
  - intros p. reflexivity.
  - split; [vm_compute; reflexivity|]. split; vm_compute; reflexivity.
Defined.

(** X5. With a clock that shows valid dates late enough for the window,
    when [_exercise_invoice_date_option] passes, the search returned at
    least one record and the page it ends on shows a first invoice date
    within the window; with one record that page is the page of the
    search, and with more it is the page after two clicks on the Invoice
    Date header, the page after the first click showing a first date within
    the window too. *)
Theorem exercise_invoice_date_option_passes {Page : Type} `{Browser Page} `{Forms Page}
    (clock : Page -> date) (label : str) (max_days : Z) (page page' : Page) :
  (forall p, valid (clock p) = true) ->
  (forall p, (0 <= max_days <= 365 * (year (clock p) - 1))%Z) ->
  InvoiceDateFieldTest._exercise_invoice_date_option clock label max_days page =
    (page', Done tt) ->
  let searched :=
    click (select_option page (lit "#id_invoice_date") label)
      (lit "button[type='submit'].btn.btn-primary >> text=Search") in
  exists n : Z,
    InvoiceDateField.get_total_record_count searched = Return n /\ (1 <= n)%Z /\
    shows_recent_date page' (clock page') max_days /\
    (n = 1%Z -> page' = searched) /\
    ((2 <= n)%Z ->
     exists header1 header2,
       InvoiceDateFieldTest.find_invoice_date_header searched = Done header1 /\
       InvoiceDateFieldTest.find_invoice_date_header (click searched header1) =
         Done header2 /\
       page' = click (click searched header1) header2 /\
       shows_recent_date (click searched header1) (clock (click searched header1)) max_days).
Proof. intros Hvalid Hlate Hrun. apply exercise_passes; assumption. Qed.

Lemma exercise_invoice_date_option_passes_witness :
  shows_recent_date [invoice_date_page "2" "Last 30 Days" "11/01/2026"]
    (Date 2026 11 3) 30.
Proof.
  destruct (exercise_invoice_date_option_passes
              (fun _ => Date 2026 11 3) (lit "Last 30 Days") 30
              [blank_snapshot;
               invoice_date_page "12" "Last 30 Days" "2026-10-20";
               invoice_date_page "2" "Last 30 Days" "2026-10-20";
               invoice_date_page "2" "Last 30 Days" "Oct 10, 2026";
               invoice_date_page "2" "Last 30 Days" "11/01/2026"]
              [invoice_date_page "2" "Last 30 Days" "11/01/2026"])
    as (n & _ & _ & Hshows & _).
  - intros p. reflexivity.
  - intros p. cbn. lia.
  - vm_compute. reflexivity.
  - exact Hshows.
Defined.
(** ** The search for the start date of the range test *)

Lemma date_eqb_eq (a b : date) : date_eqb a b = true <-> a = b.
Proof.
  destruct a as [y m d], b as [y' m' d']. unfold date_eqb, date_cmp. cbn [year month day].
  destruct (Z.compare_spec y y'); [| split; [discriminate | intros [=]; lia] ..].
  destruct (Z.compare_spec m m'); [| split; [discriminate | intros [=]; lia] ..].
  destruct (Z.compare_spec d d'); [| split; [discriminate | intros [=]; lia] ..].
  subst. split; reflexivity.
Qed.

Lemma range_cons (a b : Z) : (a < b)%Z -> range a b = a :: range (a + 1) b.
Proof.
  intros H. unfold range.
  replace (Z.to_nat (b - a)) with (S (Z.to_nat (b - (a + 1)))) by lia.
  cbn [List.seq List.map]. f_equal; [lia|].
  rewrite <- List.seq_shift, List.map_map. apply List.map_ext. intros k. lia.
Qed.

Lemma range_nil (a b : Z) : (b <= a)%Z -> range a b = [].
Proof. intros H. unfold range. replace (Z.to_nat (b - a)) with 0%nat by lia. reflexivity. Qed.

Section StartDate.
Import InvoiceDateStartEndFields InvoiceDateRangeTest.
Context {Page : Type} {browser : Browser Page}.
Variables (page : Page) (latest_date : date).

(** What the loop does from row [a] on. *)
Lemma different_date_loop_cases (n : nat) (a b : Z) :
  (a <= b)%Z -> Z.to_nat (b - a) = n ->
  (exists idx, (a <= idx < b)%Z /\
     (forall j, (a <= j < idx)%Z -> passed_over page latest_date j) /\
     locator_count page (nth_locator table_rows idx) <> 0%Z /\
     match _get_invoice_date_from_row page idx with
     | Done row_date =>
         row_date <> latest_date /\
         different_date_loop page latest_date (range a b) = Done (Some row_date)
     | Fail e =>
         e <> Builtin AssertionError /\
         different_date_loop page latest_date (range a b) = Fail e
     end) \/
  (exists stop, (a <= stop <= b)%Z /\
     (forall j, (a <= j < stop)%Z -> passed_over page latest_date j) /\
     (stop = b \/ locator_count page (nth_locator table_rows stop) = 0%Z) /\
     different_date_loop page latest_date (range a b) = Done None).
Proof.
  revert a. induction n as [|n IH]; intros a Hab Hn.
  - right. exists a. assert (a = b) by lia. subst b. rewrite range_nil by lia.
    split; [lia|]. split; [intros j Hj; lia|]. split; [left|]; reflexivity.
  - assert (Hlt : (a < b)%Z) by lia.
    rewrite (range_cons a b Hlt). cbn [different_date_loop].
    destruct (Z.eqb_spec (locator_count page (nth_locator table_rows a)) 0) as [Hc | Hc].
    { right. exists a. split; [lia|]. split; [intros j Hj; lia|].
      split; [right; exact Hc | reflexivity]. }
    (* the rows after [a], once [a] is passed over *)
    assert (Hrest : passed_over page latest_date a ->
      (exists idx, (a <= idx < b)%Z /\
         (forall j, (a <= j < idx)%Z -> passed_over page latest_date j) /\
         locator_count page (nth_locator table_rows idx) <> 0%Z /\
         match _get_invoice_date_from_row page idx with
         | Done row_date =>
             row_date <> latest_date /\
             different_date_loop page latest_date (range (a + 1) b) = Done (Some row_date)
         | Fail e =>
             e <> Builtin AssertionError /\
             different_date_loop page latest_date (range (a + 1) b) = Fail e
         end) \/
      (exists stop, (a <= stop <= b)%Z /\
         (forall j, (a <= j < stop)%Z -> passed_over page latest_date j) /\
         (stop = b \/ locator_count page (nth_locator table_rows stop) = 0%Z) /\
         different_date_loop page latest_date (range (a + 1) b) = Done None)).
    { intros Hpass. destruct (IH (a + 1)%Z ltac:(lia) ltac:(lia))
        as [(idx & Hi & Hbefore & Hrow & Hget) | (stop & Hs & Hbefore & Hstop & Hr)].
      - left. exists idx. split; [lia|]. split; [|split; assumption].
        intros j Hj. destruct (Z.eq_dec j a) as [-> | Hne]; [exact Hpass|].
        apply Hbefore. lia.
      - right. exists stop. split; [lia|]. split; [|split; assumption].
        intros j Hj. destruct (Z.eq_dec j a) as [-> | Hne]; [exact Hpass|].
        apply Hbefore. lia. }
    destruct (_get_invoice_date_from_row page a) as [row_date | e] eqn:Hget.
    + destruct (date_eqb row_date latest_date) eqn:Heq; cbn [negb].
      * apply date_eqb_eq in Heq. subst row_date. apply Hrest. split; auto.
      * left. exists a. split; [lia|]. split; [intros j Hj; lia|]. split; [exact Hc|].
        rewrite Hget. split; [|reflexivity]. intros ->.
        assert (date_eqb latest_date latest_date = true) by (apply date_eqb_eq; reflexivity).
        congruence.
    + assert (He : e = Builtin AssertionError \/ e <> Builtin AssertionError).
      { destruct e as [[] | | | | | ]; auto; right; discriminate. }
      destruct He as [-> | He].
      * apply Hrest. split; auto.
      * left. exists a. split; [lia|]. split; [intros j Hj; lia|]. split; [exact Hc|].
        rewrite Hget. split; [exact He|]. destruct e as [[] | | | | | ]; try reflexivity. contradiction.
Qed.

Lemma get_invoice_date_from_row_count (idx : Z) (d : date) :
  _get_invoice_date_from_row page idx = Done d ->
  locator_count page (nth_locator table_rows idx) <> 0%Z.
Proof.
  unfold _get_invoice_date_from_row.
  destruct (Z.eqb_spec (locator_count page (nth_locator table_rows idx)) 0); [discriminate|].
  auto.
Qed.

(** X6. The search for the start date returns a date exactly when some row
    from 1 to 49 shows a parsable date other than the date of the first
    row, every row before it being there and being malformed or showing
    the first row's date; the date returned is that of the first such
    row. *)
Theorem find_start_date_returns (start_date : date) :
  find_start_date page latest_date = Done start_date <->
  exists idx, (1 <= idx < 50)%Z /\
    (forall j, (1 <= j < idx)%Z -> passed_over page latest_date j) /\
    _get_invoice_date_from_row page idx = Done start_date /\
    start_date <> latest_date.
Proof.
  unfold find_start_date.
  destruct (different_date_loop_cases 49 1 50 ltac:(lia) eq_refl)
    as [(idx & Hi & Hbefore & Hrow & Hget) | (stop & Hs & Hbefore & Hstop & ->)].
  - destruct (_get_invoice_date_from_row page idx) as [row_date | e] eqn:Eget.
    + destruct Hget as [Hne ->]. cbn [obind]. split.
      * intros [= <-]. exists idx. auto.
      * intros (idx' & Hi' & Hbefore' & Hget' & Hne').
        destruct (Z.lt_trichotomy idx idx') as [Hlt | [<- | Hgt]].
        -- destruct (Hbefore' idx ltac:(lia)) as [_ [E | E]]; congruence.
        -- congruence.
        -- destruct (Hbefore idx' ltac:(lia)) as [_ [E | E]]; congruence.
    + destruct Hget as [Hne ->]. cbn [obind]. split; [discriminate|].
      intros (idx' & Hi' & Hbefore' & Hget' & Hne').
      destruct (Z.lt_trichotomy idx idx') as [Hlt | [<- | Hgt]].
      * destruct (Hbefore' idx ltac:(lia)) as [_ [E | E]]; congruence.
      * congruence.
      * destruct (Hbefore idx' ltac:(lia)) as [_ [E | E]]; congruence.
  - cbn [obind]. split; [discriminate|].
    intros (idx' & Hi' & Hbefore' & Hget' & Hne').
    pose proof (get_invoice_date_from_row_count idx' start_date Hget') as Hc.
    destruct (Z.lt_trichotomy stop idx') as [Hlt | [-> | Hgt]].
    + destruct (Hbefore' stop ltac:(lia)) as [Hc' _]. destruct Hstop; [lia | contradiction].
    + destruct Hstop; [lia | contradiction].
    + destruct (Hbefore idx' ltac:(lia)) as [_ [E | E]]; congruence.
Qed.

(** X7. The search for the start date fails with an [AssertionError]
    exactly when the rows it goes past, all malformed or showing the first
    row's date, reach a missing row or row 49: rows from 50 on are never
    read. *)
Theorem find_start_date_gives_up :
  find_start_date page latest_date = Fail (Builtin AssertionError) <->
  exists stop, (1 <= stop <= 50)%Z /\
    (forall j, (1 <= j < stop)%Z -> passed_over page latest_date j) /\
    (stop = 50%Z \/ locator_count page (nth_locator table_rows stop) = 0%Z).
Proof.
  unfold find_start_date.
  destruct (different_date_loop_cases 49 1 50 ltac:(lia) eq_refl)
    as [(idx & Hi & Hbefore & Hrow & Hget) | (stop & Hs & Hbefore & Hstop & ->)].
  - assert (Hnot : ~ passed_over page latest_date idx).
    { intros [_ [E | E]]; rewrite E in Hget; destruct Hget as [Hne _]; contradiction. }
    assert (Hres : (let+ different_date := different_date_loop page latest_date (range 1 50) in
                    match different_date with
                    | Some start_date => Done start_date
                    | None => Fail (Builtin AssertionError)
                    end) <> Fail (Builtin AssertionError)).
    { destruct (_get_invoice_date_from_row page idx) as [row_date | e];
        destruct Hget as [Hne ->]; cbn [obind]; congruence. }
    split; [intros E; contradiction|].
    intros (stop & Hs & Hbefore' & Hstop). exfalso.
    destruct (Z.lt_trichotomy idx stop) as [Hlt | [<- | Hgt]].
    + apply Hnot. apply Hbefore'. lia.
    + destruct Hstop; [lia | contradiction].
    + destruct (Hbefore stop ltac:(lia)) as [Hc _]. destruct Hstop; [lia | contradiction].
  - cbn [obind]. split; [|reflexivity]. intros _. exists stop. auto.
Qed.

End StartDate.
(** ** The final validation of the Model filter test *)

Section FinalValidation.
Import ModelField ModelFieldTest.
Context {Page : Type} {browser : Browser Page}.
Variables (page : Page) (full_model_name : str).

Lemma model_cells_loop_spec (normalized_expected : str) (indices : list Z) :
  model_cells_loop page normalized_expected indices = Done tt <->
  forall idx, In idx indices -> cell_matches page normalized_expected idx.
Proof.
  induction indices as [|i indices IH].
  - cbn. split; [intros _ ? [] | reflexivity].
  - cbn [model_cells_loop]. unfold wait_for, cell_matches in *.
    destruct (locator_visible page (nth_locator model_cells i)) eqn:Ev; cbn [lift obind].
    2: { split; [discriminate|]. intros Hall.
         destruct (Hall i (or_introl eq_refl)) as [Hv _]. congruence. }
    unfold oassert at 1.
    destruct (str_eqb (strip (locator_inner_text page (nth_locator model_cells i))) [])
      eqn:Ee; cbn [negb obind].
    { split; [discriminate|]. intros Hall.
      destruct (Hall i (or_introl eq_refl)) as (_ & Hne & _).
      apply bool_decide_eq_true in Ee. contradiction. }
    apply bool_decide_eq_false in Ee.
    unfold oassert at 1.
    destruct (str_eqb (casefold (strip (locator_inner_text page (nth_locator model_cells i))))
                normalized_expected) eqn:Ec; cbn [obind].
    2: { split; [discriminate|]. intros Hall.
         destruct (Hall i (or_introl eq_refl)) as (_ & _ & Hc).
         apply bool_decide_eq_false in Ec. contradiction. }
    apply bool_decide_eq_true in Ec.
    rewrite IH. split.
    + intros Hall idx [<- | Hin]; [repeat split; assumption | apply Hall; exact Hin].
    + intros Hall idx Hin. apply Hall. right. exact Hin.
Qed.

Lemma in_range (a b idx : Z) : In idx (range a b) <-> (a <= idx < b)%Z.
Proof.
  unfold range. rewrite List.in_map_iff. split.
  - intros (k & <- & Hk). apply List.in_seq in Hk. lia.
  - intros Hi. exists (Z.to_nat (idx - a)). split; [lia|]. apply List.in_seq. lia.
Qed.

(** X8. The final validation of the Model filter test passes exactly when
    the final count is positive and either it is above 25, whatever the
    cells show, or the page holds at least that many model cells and each
    of the first [total_record_count] is shown with a non-empty stripped
    text that is caselessly equal to the first-row model value. *)
Theorem final_validation_spec (total_record_count : Z) :
  final_validation page full_model_name total_record_count = Done tt <->
  (0 < total_record_count)%Z /\
  ((25 < total_record_count)%Z \/
   (total_record_count <= locator_count page model_cells)%Z /\
   forall idx, (0 <= idx < total_record_count)%Z ->
     cell_matches page (casefold full_model_name) idx).
Proof.
  unfold final_validation, oassert.
  destruct (Z.ltb_spec 0 total_record_count) as [Hpos | Hneg]; cbn [obind].
  2: { split; [discriminate | lia]. }
  destruct (Z.leb_spec total_record_count 25) as [Hsmall | Hbig].
  2: { split; [intros _; split; [lia | left; lia] | reflexivity]. }
  destruct (Z.leb_spec total_record_count (locator_count page model_cells)) as [Hvis | Hvis];
    cbn [obind].
  2: { split; [discriminate|]. intros [_ [? | [? _]]]; lia. }
  rewrite model_cells_loop_spec. split.
  - intros Hall. split; [lia|]. right. split; [lia|].
    intros idx Hi. apply Hall. apply in_range. exact Hi.
  - intros [_ [? | [_ Hall]]]; [lia|].
    intros idx Hi. apply Hall. apply in_range. exact Hi.
Qed.

End FinalValidation.
(** ** config/settings.py *)

Section SettingsProperties.
Import Settings.

Lemma lstrip_chars_spec (chars s : str) :
  exists stripped,
    s = stripped ++ lstrip_chars chars s /\
    Forall (fun c => In c chars) stripped /\
    (forall c rest, lstrip_chars chars s = c :: rest -> ~ In c chars).
Proof.
  induction s as [|c s (stripped & E & Hall & Hhead)].
  - exists []. split; [reflexivity|]. split; [constructor|]. intros ? ? [=].
  - cbn [lstrip_chars]. destruct (existsb (N.eqb c) chars) eqn:Ec.
    + exists (c :: stripped). split; [cbn; f_equal; exact E|]. split; [|exact Hhead].
      constructor; [|exact Hall].
      apply existsb_exists in Ec as (x & Hin & Hx). apply N.eqb_eq in Hx. subst x. exact Hin.
    + exists []. split; [reflexivity|]. split; [constructor|].
      intros c' rest [= <- _] Hin.
      assert (existsb (N.eqb c) chars = true); [|congruence].
      apply existsb_exists. exists c. split; [exact Hin | apply N.eqb_refl].
Qed.

Lemma rstrip_chars_spec (chars s : str) :
  exists stripped,
    s = rstrip_chars chars s ++ stripped /\
    Forall (fun c => In c chars) stripped /\
    (forall c rest, rstrip_chars chars s = rest ++ [c] -> ~ In c chars).
Proof.
  destruct (lstrip_chars_spec chars (List.rev s)) as (stripped & E & Hall & Hhead).
  exists (List.rev stripped). unfold rstrip_chars. split; [|split].
  - rewrite <- List.rev_app_distr, <- E, List.rev_involutive. reflexivity.
  - apply List.Forall_forall. intros x Hx. rewrite List.Forall_forall in Hall. apply Hall.
    apply List.in_rev. exact Hx.
  - intros c rest Hr. apply (Hhead c (List.rev rest)).
    rewrite <- (List.rev_involutive (lstrip_chars chars (List.rev s))), Hr,
      List.rev_app_distr. reflexivity.
Qed.

(** X9. [base_url] raises a [RuntimeError], and nothing else, exactly when
    [TARGET_URL] is unset or holds only whitespace; otherwise it returns
    the stripped value without its trailing slashes, so the result never
    ends with a slash. *)
Theorem base_url_spec (environ : environment) :
  (base_url environ = Fail RuntimeError <->
   strip (default [] (environ !! lit "TARGET_URL")) = []) /\
  (forall e, base_url environ = Fail e -> e = RuntimeError) /\
  (forall base, base_url environ = Done base ->
     (forall rest, base <> rest ++ lit "/") /\
     exists slashes,
       Forall (fun c => c = 47) slashes /\
       strip (default [] (environ !! lit "TARGET_URL")) = base ++ slashes).
Proof.
  unfold base_url. set (target_url := strip (default [] (environ !! lit "TARGET_URL"))).
  destruct (str_eqb target_url []) eqn:E;
    [apply bool_decide_eq_true in E | apply bool_decide_eq_false in E].
  - split; [split; auto|]. split; [intros e [= <-]; reflexivity | discriminate].
  - split; [split; [discriminate | contradiction]|]. split; [discriminate|].
    intros base [= <-].
    destruct (rstrip_chars_spec (lit "/") target_url) as (slashes & Es & Hall & Hlast).
    split.
    + intros rest Hr. apply (Hlast 47 rest Hr). left. reflexivity.
    + exists slashes. split; [|exact Es].
      apply List.Forall_forall. intros c Hc. rewrite List.Forall_forall in Hall.
      destruct (Hall c Hc) as [<- | []]. reflexivity.
Qed.

(** X10. [url] fails only as [base_url] does; a leading slash of the path
    makes no difference; and the address it returns is the base, one
    slash, and the path without its leading slashes, with no slash on
    either side of the joining one. *)
Theorem url_spec (environ : environment) (path : str) :
  (forall e, url environ path = Fail e -> e = RuntimeError) /\
  url environ (lit "/" ++ path) = url environ path /\
  (forall address, url environ path = Done address ->
     exists base rest slashes,
       base_url environ = Done base /\
       address = base ++ lit "/" ++ rest /\
       path = slashes ++ rest /\ Forall (fun c => c = 47) slashes /\
       (forall rest', base <> rest' ++ lit "/") /\
       (forall rest', rest <> lit "/" ++ rest')).
Proof.
  unfold url. split; [|split].
  - destruct (base_url environ) as [base|e0] eqn:Eb; [discriminate|].
    cbn [obind]. intros e [= <-]. destruct (base_url_spec environ) as (_ & H & _). auto.
  - reflexivity.
  - destruct (base_url environ) as [base|e0] eqn:Eb; [|discriminate].
    cbn [obind]. intros address [= <-].
    destruct (base_url_spec environ) as (_ & _ & Hb). destruct (Hb base Eb) as [Hend _].
    destruct (lstrip_chars_spec (lit "/") path) as (slashes & Es & Hall & Hhead).
    exists base, (lstrip_chars (lit "/") path), slashes.
    split; [reflexivity|]. split; [reflexivity|]. split; [exact Es|]. split.
    + apply List.Forall_forall. intros c Hc. rewrite List.Forall_forall in Hall.
      destruct (Hall c Hc) as [<- | []]. reflexivity.
    + split; [exact Hend|]. intros rest' Hr. apply (Hhead 47 rest' Hr). left. reflexivity.
Qed.

End SettingsProperties.
(** ** conftest.py: the environment file *)

Section EnvFile.
Import Settings Conftest.

Lemma omap_cons {A B : Type} (f : A -> option B) (x : A) (l : list A) :
  omap f (x :: l) = match f x with Some y => y :: omap f l | None => omap f l end.
Proof. reflexivity. Qed.

Lemma setdefault_raises (environ : environment) (key value : str) (e : error) :
  setdefault environ key value = Fail e -> e = Builtin ValueError \/ e = OSError.
Proof.
  unfold setdefault. destruct (environ !! key); [discriminate|].
  destruct (_ || _); [intros [= <-]; auto|].
  destruct (str_eqb key []); [intros [= <-]; auto | discriminate].
Qed.

Lemma setdefault_lookup (environ environ' : environment) (key value k : str) :
  setdefault environ key value = Done environ' ->
  environ' !! k =
  match environ !! k with
  | Some v => Some v
  | None => if str_eqb key k then Some value else None
  end.
Proof.
  unfold setdefault. destruct (environ !! key) eqn:Ek.
  - intros [= <-]. destruct (environ !! k) eqn:Ek'; [reflexivity|].
    unfold str_eqb. destruct (bool_decide_reflect (key = k)) as [-> | _]; congruence.
  - destruct (_ || _); [discriminate|]. destruct (str_eqb key []); [discriminate|].
    intros [= <-]. unfold str_eqb.
    destruct (bool_decide_reflect (key = k)) as [-> | Hne].
    + rewrite lookup_insert_eq, Ek. reflexivity.
    + rewrite lookup_insert_ne by exact Hne. destruct (environ !! k); reflexivity.
Qed.

Lemma load_lines_lookup (lines : list str) (environ environ' : environment) (k : str) :
  load_lines lines environ = Done environ' ->
  environ' !! k =
  match environ !! k with
  | Some v => Some v
  | None => first_assigned k (omap parse_line lines)
  end.
Proof.
  revert environ. induction lines as [|line lines IH]; intros environ.
  - cbn. intros [= <-]. destruct (environ !! k); reflexivity.
  - cbn [load_lines]. rewrite omap_cons.
    destruct (parse_line line) as [[key value]|]; [|apply IH].
    destruct (setdefault environ key value) as [environ1|] eqn:Es; [|discriminate].
    cbn [obind]. intros Hl. rewrite (IH _ Hl).
    rewrite (setdefault_lookup _ _ _ _ k Es). cbn [first_assigned].
    destruct (environ !! k); [reflexivity|].
    destruct (str_eqb key k); reflexivity.
Qed.

Lemma load_lines_raises (lines : list str) (environ : environment) (e : error) :
  load_lines lines environ = Fail e -> e = Builtin ValueError \/ e = OSError.
Proof.
  revert environ. induction lines as [|line lines IH]; intros environ; [discriminate|].
  cbn [load_lines]. destruct (parse_line line) as [[key value]|]; [|apply IH].
  destruct (setdefault environ key value) as [environ1|e1] eqn:Es; cbn [obind].
  - apply IH.
  - intros [= <-]. eapply setdefault_raises. exact Es.
Qed.

Lemma load_lines_all_set (lines : list str) (environ : environment) :
  (forall key value, In (key, value) (omap parse_line lines) -> is_Some (environ !! key)) ->
  load_lines lines environ = Done environ.
Proof.
  induction lines as [|line lines IH]; intros Hall; [reflexivity|].
  cbn [load_lines]. rewrite omap_cons in Hall. destruct (parse_line line) as [[key value]|].
  - destruct (Hall key value (or_introl eq_refl)) as [v Hv].
    unfold setdefault. rewrite Hv. cbn [obind]. apply IH.
    intros k' v' Hin. apply (Hall k' v'). right. exact Hin.
  - apply IH. exact Hall.
Qed.

Lemma first_assigned_in (key value : str) (l : list (str * str)) :
  In (key, value) l -> is_Some (first_assigned key l).
Proof.
  induction l as [|[k v] l IH]; [intros []|].
  cbn [first_assigned]. intros [[= -> ->] | Hin].
  - unfold str_eqb. rewrite bool_decide_eq_true_2 by reflexivity. eauto.
  - destruct (str_eqb k key); [eauto | apply IH; exact Hin].
Qed.

Lemma first_assigned_some (key value : str) (l : list (str * str)) :
  first_assigned key l = Some value -> In (key, value) l.
Proof.
  induction l as [|[k v] l IH]; [discriminate|].
  cbn [first_assigned]. unfold str_eqb.
  destruct (bool_decide_reflect (k = key)) as [-> | _].
  - intros [= ->]. left. reflexivity.
  - intros Hf. right. apply IH. exact Hf.
Qed.

(** X11. When [_load_env_file] returns, every name that was set keeps its
    value, and every other name has the value of the first line of the
    file that assigns it, if there is one. *)
Theorem load_env_file_keeps_and_adds (text : str) (environ environ' : environment) :
  _load_env_file (Some text) environ = Done environ' ->
  forall key,
    environ' !! key =
    match environ !! key with
    | Some value => Some value
    | None => first_assigned key (assignments text)
    end.
Proof. intros Hl key. apply load_lines_lookup. exact Hl. Qed.

(** X12. Loading the same file a second time changes nothing and cannot
    fail. *)
Theorem load_env_file_idempotent (file : option str) (environ environ' : environment) :
  _load_env_file file environ = Done environ' ->
  _load_env_file file environ' = Done environ'.
Proof.
  destruct file as [text|]; [|reflexivity]. cbn [_load_env_file]. intros Hl.
  apply load_lines_all_set. intros key value Hin.
  rewrite (load_lines_lookup _ _ _ key Hl).
  destruct (environ !! key); [eauto|].
  eapply first_assigned_in. exact Hin.
Qed.

(** X13. [_load_env_file] fails only with a [ValueError] or an [OSError],
    the errors of setting a variable; a missing file, or a file all of
    whose names are already set, leaves the environment as it is. *)
Theorem load_env_file_raises (file : option str) (environ : environment) :
  (forall e, _load_env_file file environ = Fail e -> e = Builtin ValueError \/ e = OSError) /\
  (file = None -> _load_env_file file environ = Done environ) /\
  (forall text, file = Some text ->
     (forall key value, In (key, value) (assignments text) -> is_Some (environ !! key)) ->
     _load_env_file file environ = Done environ).
Proof.
  split; [|split].
  - destruct file as [text|]; [|discriminate]. apply load_lines_raises.
  - intros ->. reflexivity.
  - intros text -> Hall. apply load_lines_all_set. exact Hall.
Qed.

End EnvFile.

Lemma load_env_file_keeps_and_adds_witness :
  (<[lit "TARGET_URL" := lit "https://host/"]> {[ lit "HEADLESS" := lit "1" ]}
     : Settings.environment) !! lit "TARGET_URL" = Some (lit "https://host/").
Proof.
  rewrite (load_env_file_keeps_and_adds
             (lit "HEADLESS=0" ++ [10] ++ lit "# staging" ++ [10] ++
              lit "TARGET_URL = 'https://host/'" ++ [10] ++ lit "TARGET_URL=other")
             {[ lit "HEADLESS" := lit "1" ]}
             (<[lit "TARGET_URL" := lit "https://host/"]> {[ lit "HEADLESS" := lit "1" ]})).
  - vm_compute. reflexivity.
  - vm_compute. reflexivity.
Defined.

Lemma load_env_file_idempotent_witness :
  Conftest._load_env_file (Some (lit "TARGET_URL=https://host/"))
    {[ lit "TARGET_URL" := lit "https://host/" ]} =
  Done {[ lit "TARGET_URL" := lit "https://host/" ]}.
Proof.
  apply (load_env_file_idempotent (Some (lit "TARGET_URL=https://host/")) ∅).
  vm_compute. reflexivity.
Defined.

(** ** Status keys and record counts *)

Section StatusKeys.
Import StatusUiSpecDefinitions StatusFieldExpired.
Context {Page : Type} {browser : Browser Page}.

Lemma assert_all_raises {A : Type} (check : A -> bool) (l : list A) (e : exn) :
  assert_all check l = Raise e -> e = AssertionError.
Proof.
  destruct (assert_all_spec check l) as [_ [E | E]]; rewrite E; congruence.
Qed.

(** X14. [assert_status_cell_matches_spec] raises a [KeyError] exactly for
    the status keys other than the seven of [STATUS_UI_SPECS], whatever
    the cell shows. *)
Theorem assert_status_cell_matches_spec_keys (page : Page) (cell status_key : str) :
  assert_status_cell_matches_spec page cell status_key = Raise KeyError <->
  ~ In status_key
      (List.map lit ["Dismissed"; "Expired"; "Exported"; "Incomplete Requirements";
                     "Ineligible"; "Ready"; "Unassigned"]%string).
Proof.
  unfold assert_status_cell_matches_spec.
  destruct (STATUS_UI_SPECS !! status_key) as [spec|] eqn:E.
  - split.
    + intros Hr. exfalso.
      destruct (assert_all _ (required_icon_selectors spec)) as [[]|e1] eqn:E1;
        cbn [rbind] in Hr.
      * apply assert_all_raises in Hr. discriminate.
      * apply assert_all_raises in E1. congruence.
    + intros Hnot. exfalso. apply Hnot.
      unfold STATUS_UI_SPECS in E. apply elem_of_list_to_map_2 in E.
      apply list_elem_of_In in E.
      apply (List.in_map fst) in E. exact E.
  - split; [|reflexivity]. intros _ Hin.
    cbn [List.map In] in Hin.
    repeat (destruct Hin as [<- | Hin]; [vm_compute in E; discriminate E|]). exact Hin.
Qed.

(** X15. A cell that the check accepts as [Expired] is accepted as
    [Ineligible] too: the entry of [Expired] asks for all that the entry
    of [Ineligible] asks for. *)
Theorem expired_cell_is_ineligible_cell (page : Page) (cell : str) :
  assert_status_cell_matches_spec page cell (lit "Expired") = Return tt ->
  assert_status_cell_matches_spec page cell (lit "Ineligible") = Return tt.
Proof.
  unfold assert_status_cell_matches_spec.
  change (STATUS_UI_SPECS !! lit "Expired")
    with (Some (spec ["Ineligible"; "Expired"]%string
                       ["i.bi-x-circle-fill.text-danger"]%string)).
  change (STATUS_UI_SPECS !! lit "Ineligible")
    with (Some (spec ["Ineligible"; "Ineligible"]%string
                       ["i.bi-x-circle-fill.text-danger"]%string)).
  cbn [required_icon_selectors must_contain spec List.map assert_all].
  unfold py_assert.
  destruct (1 <=? locator_count page _)%Z; cbn [rbind]; [|discriminate].
  destruct (contains (lit "Ineligible") _); cbn [rbind]; [|discriminate].
  reflexivity.
Qed.

End StatusKeys.

Section Counts.
Import ModelField.
Context {Page : Type} {browser : Browser Page}.

Lemma search_by_model_nonneg (page page' : Page) (value : str) (n : Z) :
  search_by_model page value = (page', Return n) -> (0 <= n)%Z.
Proof.
  unfold search_by_model.
  repeat match goal with
         | |- context [if ?c then _ else _] => destruct c
         end; try discriminate.
  intros [= _ Hn]. eapply get_total_record_count_nonneg. exact Hn.
Qed.

Lemma prefix_loop_bounds (full_model_name : str) (indices : list Z)
    (page page' : Page) (total final : Z) :
  prefix_loop full_model_name indices page total = (page', Return final) ->
  (final <= total)%Z /\ (indices <> [] -> 0 <= final)%Z.
Proof.
  revert page total. induction indices as [|i indices IH]; intros page total.
  - cbn. intros [= _ ->]. split; [lia | congruence].
  - cbn [prefix_loop].
    destruct (search_by_model page _) as [page1 [updated|e]] eqn:Es; [|discriminate].
    pose proof (search_by_model_nonneg _ _ _ _ Es) as Hu.
    destruct (Z.leb_spec updated total) as [Hle | Hgt]; [|discriminate].
    intros Hl. destruct (IH _ _ Hl) as [Hf Hpos]. split; [lia|]. intros _.
    destruct indices as [|i' indices'].
    + cbn in Hl. injection Hl as _ ->. exact Hu.
    + apply Hpos. discriminate.
Qed.

(** X16. When the prefix iteration runs to its end, the count it ends with
    is not above the count it started from, and it is not negative when
    the model value is not empty. *)
Theorem prefix_iteration_final_count (full_model_name : str) (page page' : Page)
    (total_record_count final : Z) :
  prefix_iteration full_model_name page total_record_count = (page', Return final) ->
  (final <= total_record_count)%Z /\ (full_model_name <> [] -> 0 <= final)%Z.
Proof.
  unfold prefix_iteration. intros Hl.
  destruct (prefix_loop_bounds _ _ _ _ _ _ Hl) as [Hle Hpos]. split; [exact Hle|].
  intros Hne. apply Hpos. destruct full_model_name; [contradiction|]. discriminate.
Qed.

End Counts.

Lemma expired_cell_is_ineligible_cell_witness :
  StatusFieldExpired.assert_status_cell_matches_spec
    [expired_cell_page] (lit "td.status") (lit "Ineligible") = Return tt.
Proof.
  apply (expired_cell_is_ineligible_cell [expired_cell_page] (lit "td.status")).
  vm_compute. reflexivity.
Defined.

Lemma prefix_iteration_final_count_witness :
  (7 <= 10)%Z /\ (lit "AB" <> [] -> 0 <= 7)%Z.
Proof.
  apply (prefix_iteration_final_count (lit "AB")
           [list_page "10"; list_page "10"; list_page "9"; list_page "9"; list_page "7"]
           [list_page "7"] 10 7).
  vm_compute. reflexivity.
Defined.

(** X17. The counts are never negative: neither copy of
    [get_total_record_count] returns a negative number, and neither does
    [search_by_model]. *)
Theorem counts_never_negative {Page : Type} `{Browser Page} (page : Page) :
  (forall n, ModelField.get_total_record_count page = Return n -> (0 <= n)%Z) /\
  (forall n, InvoiceDateField.get_total_record_count page = Return n -> (0 <= n)%Z) /\
  (forall value page' n,
     ModelField.search_by_model page value = (page', Return n) -> (0 <= n)%Z).
Proof.
  split; [|split].
  - apply get_total_record_count_nonneg.
  - exact (get_total_record_count_nonneg page).
  - intros value page' n. apply search_by_model_nonneg.
Qed.


(** ** When the Market Actor check passes *)

Section MarketActorPass.
Import DashboardMarketActorCheck.
Context {Page : Type} {browser : Browser Page}.

(** The first round of the collection loop, from the dashboard. *)
Lemma first_round (dashboard : Page) :
  let recent_sales :=
    click (mouse_wheel dashboard) (lit "role=link[name='Recent Sales']") in
  let card_names :=
    stripped_nonempty (locator_all_texts dashboard (lit "h2.card-title")) in
  let option_names :=
    stripped_nonempty
      (locator_all_texts recent_sales
         (lit "role=combobox[name='Market Actor'] >> option")) in
  let stable_rounds :=
    if (0 =? size (list_to_set card_names : gset str))%nat then 1%Z else 0%Z in
  round_body (dashboard, ∅, 0%Z) =
  if negb (endswith (page_url recent_sales) (lit "/salesdata/"))
  then Leave (recent_sales, list_to_set card_names, stable_rounds) (Raise Exception)
  else if bool_decide ((list_to_set card_names : gset str) =
                       list_to_set (List.filter (fun o => negb (str_eqb o (lit "All")))
                                      option_names))
  then Leave (recent_sales, list_to_set card_names, stable_rounds) (Return tt)
  else Leave (recent_sales, list_to_set card_names, stable_rounds) (Raise AssertionError).
Proof.
  intros recent_sales card_names option_names stable_rounds.
  unfold round_body. fold card_names.
  rewrite (left_id_L (∅ : gset str) (∪)). rewrite size_empty. fold stable_rounds.
  subst stable_rounds.
  destruct (0 =? size (list_to_set card_names : gset str))%nat; reflexivity.
Qed.

Lemma market_actor_pass_iff (page : Page) :
  let dashboard := goto page (lit "/dashboard/") in
  let recent_sales :=
    click (mouse_wheel dashboard) (lit "role=link[name='Recent Sales']") in
  let card_names :=
    stripped_nonempty (locator_all_texts dashboard (lit "h2.card-title")) in
  let option_names :=
    stripped_nonempty
      (locator_all_texts recent_sales
         (lit "role=combobox[name='Market Actor'] >> option")) in
  snd (test_dashboard_market_actor_check page) = Return tt <->
  endswith (page_url dashboard) (lit "/dashboard/") = true /\
  locator_visible dashboard (lit "h2.card-title") = true /\
  endswith (page_url recent_sales) (lit "/salesdata/") = true /\
  forall name : str,
    In name card_names <-> In name option_names /\ name <> lit "All".
Proof.
  intros dashboard recent_sales card_names option_names.
  unfold test_dashboard_market_actor_check. fold dashboard.
  destruct (endswith (page_url dashboard) (lit "/dashboard/")); cbn [negb].
  2: { cbn [snd]. split; [discriminate | intros [[=] _]]. }
  destruct (locator_visible dashboard (lit "h2.card-title")); cbn [negb].
  2: { cbn [snd]. split; [discriminate | intros (_ & [=] & _)]. }
  unfold max_rounds. cbn [for_range]. rewrite first_round.
  fold recent_sales card_names option_names.
  destruct (endswith (page_url recent_sales) (lit "/salesdata/")); cbn [negb].
  2: { cbn [snd]. split; [discriminate | intros (_ & _ & [=] & _)]. }
  assert (Hsets : (list_to_set card_names : gset str) =
                  list_to_set (List.filter (fun o => negb (str_eqb o (lit "All"))) option_names)
                  <-> forall name, In name card_names <->
                                   In name option_names /\ name <> lit "All").
  { rewrite set_eq. split; intros Heq name; specialize (Heq name).
    - rewrite !elem_of_list_to_set, <- !list_elem_of_In in *.
      rewrite Heq, list_elem_of_In, List.filter_In, negb_true_iff.
      unfold str_eqb. rewrite bool_decide_eq_false, list_elem_of_In. reflexivity.
    - rewrite !elem_of_list_to_set, !list_elem_of_In.
      rewrite Heq, List.filter_In, negb_true_iff.
      unfold str_eqb. rewrite bool_decide_eq_false. reflexivity. }
  destruct (bool_decide_reflect ((list_to_set card_names : gset str) =
              list_to_set (List.filter (fun o => negb (str_eqb o (lit "All"))) option_names)))
    as [E | E]; cbn [snd].
  - split; [|reflexivity]. intros _. split; [reflexivity|]. split; [reflexivity|].
    split; [reflexivity|]. apply Hsets. exact E.
  - split; [discriminate|]. intros (_ & _ & _ & Hall). exfalso. apply E, Hsets. exact Hall.
Qed.

End MarketActorPass.

(** X18. [test_dashboard_market_actor_check] passes exactly when the
    dashboard and the Recent Sales page are reached, the cards are shown,
    and the non-empty stripped card titles read before any scrolling are,
    as a set, the non-empty stripped options of the Market Actor dropdown
    other than [All]. *)
Theorem market_actor_check_passes {Page : Type} `{Browser Page} (page : Page) :
  let dashboard := goto page (lit "/dashboard/") in
  let recent_sales :=
    click (mouse_wheel dashboard) (lit "role=link[name='Recent Sales']") in
  let card_names :=
    DashboardMarketActorCheck.stripped_nonempty
      (locator_all_texts dashboard (lit "h2.card-title")) in
  let option_names :=
    DashboardMarketActorCheck.stripped_nonempty
      (locator_all_texts recent_sales
         (lit "role=combobox[name='Market Actor'] >> option")) in
  snd (DashboardMarketActorCheck.test_dashboard_market_actor_check page) = Return tt <->
  endswith (page_url dashboard) (lit "/dashboard/") = true /\
  locator_visible dashboard (lit "h2.card-title") = true /\
  endswith (page_url recent_sales) (lit "/salesdata/") = true /\
  forall name : str,
    In name card_names <-> In name option_names /\ name <> lit "All".
Proof. apply market_actor_pass_iff. Qed.

(** X19. A dashboard with a card titled [All] cannot pass: the comparison
    leaves [All] out of the dropdown's options only. *)
Theorem market_actor_named_all_fails {Page : Type} `{Browser Page} (page : Page) :
  In (lit "All")
    (DashboardMarketActorCheck.stripped_nonempty
       (locator_all_texts (goto page (lit "/dashboard/")) (lit "h2.card-title"))) ->
  snd (DashboardMarketActorCheck.test_dashboard_market_actor_check page) <> Return tt.
Proof.
  intros Hin Hpass. apply market_actor_pass_iff in Hpass as (_ & _ & _ & Hall).
  destruct (proj1 (Hall (lit "All")) Hin) as [_ Hne]. contradiction.
Qed.

Lemma market_actor_named_all_fails_witness :
  snd (DashboardMarketActorCheck.test_dashboard_market_actor_check
         [blank_snapshot; cards_page ["Acme"; " All "]%string;
          cards_page ["Acme"; " All "]%string;
          options_page ["All"; "Acme"]%string]) <> Return tt.
Proof.
  apply (market_actor_named_all_fails
           [blank_snapshot; cards_page ["Acme"; " All "]%string;
            cards_page ["Acme"; " All "]%string;
            options_page ["All"; "Acme"]%string]).
  vm_compute. right. left. reflexivity.
Defined.
(** ** Edge cases of the helpers *)

(** X20. A negative length counts from the end: for [k > 0],
    [build_alternating_case_prefix base (-k)] is the result for the length
    of [base] less [k], and for 0 when [base] is not that long. *)
Theorem build_alternating_case_prefix_negative_length (base : str) (k : Z) :
  (0 < k)%Z ->
  ModelField.build_alternating_case_prefix base (- k) =
  ModelField.build_alternating_case_prefix base
    (Z.max 0 (Z.of_nat (List.length base) - k)).
Proof.
  intros Hk. unfold ModelField.build_alternating_case_prefix, slice_to, len.
  replace (- k <? 0)%Z with true by lia.
  replace (Z.max 0 (Z.of_nat (List.length base) - k) <? 0)%Z with false by lia.
  replace (Z.to_nat (Z.max 0 (Z.of_nat (List.length base) - k)))
    with (Z.to_nat (Z.of_nat (List.length base) + - k)) by lia.
  reflexivity.
Qed.

Lemma build_alternating_case_prefix_negative_length_witness :
  ModelField.build_alternating_case_prefix (lit "MF-123") (- 2) =
  ModelField.build_alternating_case_prefix (lit "MF-123") 4.
Proof.
  apply (build_alternating_case_prefix_negative_length (lit "MF-123") 2). lia.
Defined.

Lemma lstrip_spaces (ws s : str) :
  Forall (fun c => isspace c = true) ws -> lstrip (ws ++ s) = lstrip s.
Proof.
  induction 1 as [|c ws Hc _ IH]; [reflexivity|].
  cbn [app lstrip]. rewrite Hc. exact IH.
Qed.

Lemma rstrip_spaces (s ws : str) :
  Forall (fun c => isspace c = true) ws -> rstrip (s ++ ws) = rstrip s.
Proof.
  intros Hws. unfold rstrip. rewrite List.rev_app_distr, lstrip_spaces; [reflexivity|].
  apply List.Forall_rev. exact Hws.
Qed.

Lemma lstrip_app (s ws : str) :
  Forall (fun c => isspace c = true) ws ->
  lstrip (s ++ ws) = match lstrip s with [] => [] | _ => lstrip s ++ ws end.
Proof.
  intros Hws. induction s as [|c s IH].
  - cbn [app lstrip]. rewrite <- (List.app_nil_r ws), lstrip_spaces by exact Hws. reflexivity.
  - cbn [app lstrip]. destruct (isspace c); [exact IH | reflexivity].
Qed.

Lemma strip_spaces (ws1 s ws2 : str) :
  Forall (fun c => isspace c = true) ws1 -> Forall (fun c => isspace c = true) ws2 ->
  strip (ws1 ++ s ++ ws2) = strip s.
Proof.
  intros H1 H2. unfold strip. rewrite lstrip_spaces by exact H1.
  rewrite lstrip_app by exact H2.
  destruct (lstrip s) as [|c r]; [reflexivity|].
  apply rstrip_spaces. exact H2.
Qed.

(** X21. Whitespace around the text makes no difference to
    [parse_invoice_date]. *)
Theorem parse_invoice_date_outer_whitespace (ws1 text ws2 : str) :
  Forall (fun c => isspace c = true) ws1 -> Forall (fun c => isspace c = true) ws2 ->
  InvoiceDateField.parse_invoice_date (ws1 ++ text ++ ws2) =
  InvoiceDateField.parse_invoice_date text.
Proof.
  intros H1 H2. unfold InvoiceDateField.parse_invoice_date.
  rewrite strip_spaces by assumption. reflexivity.
Qed.

Lemma parse_invoice_date_outer_whitespace_witness :
  InvoiceDateField.parse_invoice_date ([32; 9] ++ lit "Oct. 30, 2025" ++ [160; 10]) =
  InvoiceDateField.parse_invoice_date (lit "Oct. 30, 2025").
Proof.
  apply (parse_invoice_date_outer_whitespace [32; 9] (lit "Oct. 30, 2025") [160; 10]);
    repeat constructor.
Defined.

(** X22. Every date [parse_invoice_date] returns is a date of the
    calendar, and its ISO form, which the range test types into the start
    date field, parses back to it. *)
Theorem parse_invoice_date_returns_calendar_dates (text : str) (d : date) :
  InvoiceDateField.parse_invoice_date text = Return d ->
  valid d = true /\
  InvoiceDateStartEndFields.parse_invoice_date (isoformat d) = Return d.
Proof.
  intros Hp. pose proof (try_formats_valid _ _ _ Hp) as Hv. split; [exact Hv|].
  destruct d as [y m dd]. unfold InvoiceDateStartEndFields.parse_invoice_date.
  rewrite isoformat_strip. cbn [InvoiceDateStartEndFields.POTENTIAL_DATE_FORMATS List.map try_formats].
  rewrite (strptime_isoformat y m dd Hv). reflexivity.
Qed.

Lemma parse_invoice_date_returns_calendar_dates_witness :
  valid (Date 2024 2 29) = true /\
  InvoiceDateStartEndFields.parse_invoice_date (isoformat (Date 2024 2 29)) =
  Return (Date 2024 2 29).
Proof.
  apply (parse_invoice_date_returns_calendar_dates (lit " February 29, 2024")).
  vm_compute. reflexivity.
Defined.

(** X23. A [TARGET_URL] that is already set wins over the environment
    file: after [_load_env_file], [url] gives the addresses it gave
    before. *)
Theorem exported_target_url_wins (file : option str)
    (environ environ' : Settings.environment) (path : str) :
  Conftest._load_env_file file environ = Done environ' ->
  is_Some (environ !! lit "TARGET_URL") ->
  Settings.url environ' path = Settings.url environ path.
Proof.
  intros Hl [v Hv]. unfold Settings.url, Settings.base_url.
  destruct file as [text|].
  - rewrite (load_lines_lookup _ environ environ' (lit "TARGET_URL") Hl), Hv.
    reflexivity.
  - cbn in Hl. injection Hl as <-. reflexivity.
Qed.

Lemma exported_target_url_wins_witness :
  Settings.url (<[lit "HEADLESS" := lit "1"]> {[ lit "TARGET_URL" := lit "https://host/" ]})
    (lit "/salesdata/") =
  Settings.url {[ lit "TARGET_URL" := lit "https://host/" ]} (lit "/salesdata/").
Proof.
  apply (exported_target_url_wins
           (Some (lit "TARGET_URL=https://other/" ++ [10] ++ lit "HEADLESS=1"))
           {[ lit "TARGET_URL" := lit "https://host/" ]}
           (<[lit "HEADLESS" := lit "1"]> {[ lit "TARGET_URL" := lit "https://host/" ]})
           (lit "/salesdata/")).
  - vm_compute. reflexivity.
  - exists (lit "https://host/"). vm_compute. reflexivity.
Defined.
